(** * ConsultEase: the application bootstrap and its window orchestration

    A shallow embedding of [central_system/main.py] (class [ConsultEaseApp])
    and of [scripts/migrations/add_consultation_response_fields.py].

    The Python code is sequential glue over external objects (Qt windows,
    controllers, the MQTT service, the database).  It is embedded in a small
    state-and-exception monad:

    - the attributes of [self] are a finite map from attribute names to
      Python values (reading an attribute that was never assigned raises
      [AttributeError]);
    - every call that leaves the file (a method of a window or a controller,
      a module-level function such as [get_db]) is appended to a log together
      with its outcome, and the outcome is chosen by an environment that sees
      the whole history, so each call may return or raise at any time;
    - [try: ... except Exception] catches the exceptions of class
      [Exception] and lets [SystemExit] through, as Python does;
    - [logger] calls are entries of the log that never raise; the [import]
      statements inside the functions are resolved when the program is
      loaded and are not modelled. *)

From Stdlib Require Import ZArith List Bool Lia.
From stdpp Require Import gmap strings list pretty.

Local Open Scope string_scope.
Local Open Scope Z_scope.
Local Open Scope list_scope.
Set Warnings "-register-all".

(** ** Python values, exceptions and the monad *)
Module Py.

Declare Scope py_scope.
Delimit Scope py_scope with py.
Local Open Scope py_scope.

(** String concatenation, as f-strings and [+] do it. *)
Notation "a +:+ b" := (String.append a b)
  (at level 60, right associativity) : py_scope.

(** Python values as far as the program inspects them.  [VObj] is an instance
    of a class that lives outside the file, with its data attributes;
    [VMethod] is a bound method used as a callback. *)
Inductive value : Type :=
| VNone
| VBool (b : bool)
| VInt (n : Z)
| VStr (s : string)
| VList (l : list value)
| VDict (d : list (string * value))
| VObj (cls : string) (fields : list (string * value))
| VMethod (recv : value) (name : string).

(** [bool(v)]: objects of the external classes define neither [__bool__] nor
    [__len__], so they are true. *)
Definition truthy (v : value) : bool :=
  match v with
  | VNone => false
  | VBool b => b
  | VInt n => negb (n =? 0)
  | VStr s => negb (String.eqb s "")
  | VList l => match l with [] => false | _ => true end
  | VDict d => match d with [] => false | _ => true end
  | VObj _ _ => true
  | VMethod _ _ => true
  end.

(** [v == s] for a string literal [s]. *)
Definition eq_str (s : string) (v : value) : bool :=
  match v with
  | VStr s' => String.eqb s s'
  | _ => false
  end.

(** [v in [s1, s2, ...]] for a list of string literals. *)
Definition in_strs (v : value) (l : list string) : bool :=
  existsb (fun s => eq_str s v) l.

(** [s in l] for a string literal and a list of values. *)
Definition str_in (s : string) (l : list value) : bool :=
  existsb (eq_str s) l.

Fixpoint assoc (k : string) (d : list (string * value)) : option value :=
  match d with
  | [] => None
  | (k', v) :: d' => if String.eqb k k' then Some v else assoc k d'
  end.

(** [str(v)] inside an f-string.  Objects print as their class name (the
    address Python adds is not modelled); lists and dictionaries print their
    brackets only. *)
Definition py_str (v : value) : string :=
  match v with
  | VNone => "None"
  | VBool true => "True"
  | VBool false => "False"
  | VInt n => pretty n
  | VStr s => s
  | VList _ => "[...]"
  | VDict _ => "{...}"
  | VObj cls _ => "<" +:+ cls +:+ " object>"
  | VMethod _ name => "<bound method " +:+ name +:+ ">"
  end.

(** Exceptions.  [except Exception] catches [PyException] only: [SystemExit]
    derives from [BaseException]. *)
Inductive exn : Type :=
| PyException (msg : string)
| SystemExit (code : Z).

Inductive result (A : Type) : Type :=
| Ok (a : A)
| Raise (e : exn).
Arguments Ok {A} a.
Arguments Raise {A} e.

(** Calls that leave the file. *)
Inductive callee : Type :=
| Fn (name : string)
| Meth (recv : value) (name : string).

Record event : Type := Call {
  target : callee;
  args : list value;
  kwargs : list (string * value)
}.

Inductive outcome : Type :=
| Returned (v : value)
| Raised (msg : string).

Definition entry : Type := event * outcome.
Definition history : Type := list entry.

Definition raised (e : entry) : bool :=
  match snd e with
  | Raised _ => true
  | Returned _ => false
  end.

(** The environment decides, from the history, whether a call raises and
    what it returns.  [returns_bool] answers the calls whose signature is
    [-> bool] ([isVisible], [is_connected], [start_system],
    [is_first_time_setup]). *)
Record Env : Type := {
  raises : history -> event -> option string;
  returns : history -> event -> value;
  returns_bool : history -> event -> bool
}.

Record World (S : Type) : Type := mkWorld {
  log : history;
  store : S
}.
Arguments mkWorld {S} log store.
Arguments log {S} w.
Arguments store {S} w.

Definition M (S A : Type) : Type := World S -> result A * World S.

Definition ret {S A} (a : A) : M S A := fun w => (Ok a, w).

Definition bind {S A B} (m : M S A) (k : A -> M S B) : M S B :=
  fun w =>
    match m w with
    | (Ok a, w') => k a w'
    | (Raise e, w') => (Raise e, w')
    end.

Definition raise {S A} (e : exn) : M S A := fun w => (Raise e, w).

(** [try: m except Exception as e: h str(e)] *)
Definition try_except {S A} (m : M S A) (h : string -> M S A) : M S A :=
  fun w =>
    match m w with
    | (Raise (PyException msg), w') => h msg w'
    | r => r
    end.

Definition record {S} (e : entry) : M S unit :=
  fun w => (Ok tt, mkWorld (log w ++ [e]) (store w)).

Notation "x <- m ;; k" := (bind m (fun x => k))
  (at level 100, m at next level, right associativity) : py_scope.
Notation "m ;; k" := (bind m (fun _ => k))
  (at level 100, right associativity) : py_scope.

Definition attribute_error {S A} (name : string) : M S A :=
  raise (PyException ("AttributeError: " +:+ name)).

(** [o.name] for a data attribute of an external object. *)
Definition getattr {S} (o : value) (name : string) : M S value :=
  match o with
  | VObj _ fields =>
      match assoc name fields with
      | Some v => ret v
      | None => attribute_error name
      end
  | _ => attribute_error name
  end.

(** [o.name] for a method of an external object, taken as a callback. *)
Definition bound_method {S} (o : value) (name : string) : M S value :=
  match o with
  | VObj _ _ => ret (VMethod o name)
  | _ => attribute_error name
  end.

Section Calls.
Variable env : Env.
Context {S : Type}.

(** A call whose result the environment chooses. *)
Definition call (ev : event) : M S value :=
  fun w =>
    match raises env (log w) ev with
    | Some msg =>
        (Raise (PyException msg), mkWorld (log w ++ [(ev, Raised msg)]) (store w))
    | None =>
        let v := returns env (log w) ev in
        (Ok v, mkWorld (log w ++ [(ev, Returned v)]) (store w))
    end.

(** A call with a [bool] result. *)
Definition call_bool (ev : event) : M S bool :=
  fun w =>
    match raises env (log w) ev with
    | Some msg =>
        (Raise (PyException msg), mkWorld (log w ++ [(ev, Raised msg)]) (store w))
    | None =>
        let b := returns_bool env (log w) ev in
        (Ok b, mkWorld (log w ++ [(ev, Returned (VBool b))]) (store w))
    end.

(** A call whose result is known when it returns: a constructor, or an
    accessor of a singleton. *)
Definition call_giving (ev : event) (v : value) : M S value :=
  fun w =>
    match raises env (log w) ev with
    | Some msg =>
        (Raise (PyException msg), mkWorld (log w ++ [(ev, Raised msg)]) (store w))
    | None => (Ok v, mkWorld (log w ++ [(ev, Returned v)]) (store w))
    end.

(** A call that returns nothing of interest. *)
Definition call_ (ev : event) : M S unit :=
  call ev ;; ret tt.

(** [Cls(args)] *)
Definition construct (cls : string) (a : list value) (kw : list (string * value))
  : M S value :=
  call_giving (Call (Fn cls) a kw) (VObj cls []).

(** [f(args)] for a module-level function. *)
Definition call_fn (f : string) (a : list value) : M S value :=
  call (Call (Fn f) a []).

(** [f(args, **kw)] for a bound method [f] that was looked up before the
    arguments were evaluated. *)
Definition invoke (f : value) (a : list value) (kw : list (string * value))
  : M S value :=
  match f with
  | VMethod o m => call (Call (Meth o m) a kw)
  | _ => raise (PyException "TypeError: object is not callable")
  end.

(** [o.m(args)] with the arguments already evaluated: only objects of the
    external classes have the methods. *)
Definition call_method (o : value) (m : string) (a : list value) : M S value :=
  match o with
  | VObj _ _ => call (Call (Meth o m) a [])
  | _ => attribute_error m
  end.

Definition call_method_bool (o : value) (m : string) (a : list value) : M S bool :=
  match o with
  | VObj _ _ => call_bool (Call (Meth o m) a [])
  | _ => attribute_error m
  end.

(** [logger.info], [logger.error], ...: written to the log, never raise. *)
Definition logger (level msg : string) : M S unit :=
  record (Call (Fn ("logger." +:+ level)) [VStr msg] [], Returned VNone).

(** [d.get(k, default)]: a dictionary lookup on a [dict], a method call
    on an object. *)
Definition dict_get (d : value) (k : string) (default : value) : M S value :=
  match d with
  | VDict kvs => ret (match assoc k kvs with Some v => v | None => default end)
  | VObj _ _ => call (Call (Meth d "get") [VStr k; default] [])
  | _ => attribute_error "get"
  end.
End Calls.

(** The entries a run appended to the log. *)
Definition trace_since {S} (w w' : World S) : history :=
  drop (length (log w)) (log w').

End Py.

Import Py.
Local Open Scope py_scope.

(** ** central_system/main.py *)
Module Main.

(** [ServiceType], as far as [main.py] uses it. *)
Inductive ServiceType : Type := DATABASE | MQTT | UI.

#[global] Instance ServiceType_eq_dec : EqDecision ServiceType.
Proof. solve_decision. Defined.

#[global] Instance ServiceType_countable : Countable ServiceType.
Proof.
  refine (inj_countable'
            (fun s => match s with DATABASE => 0%nat | MQTT => 1%nat | UI => 2%nat end)
            (fun n => match n with 0%nat => DATABASE | 1%nat => MQTT | _ => UI end) _).
  by intros [].
Defined.

(** What the coordinator keeps for a service: three callables. *)
Record Service : Type := mkService {
  start_func : value;
  stop_func : value;
  health_check : value
}.

(** The state of the process: the attributes of the [ConsultEaseApp]
    instance and the registry of the system coordinator (a singleton). *)
Record App : Type := mkApp {
  attrs : gmap string value;
  services : gmap ServiceType Service
}.

Definition self : value := VObj "ConsultEaseApp" [].
Definition coordinator : value := VObj "SystemCoordinator" [].

Abbreviation A := (M App).
Abbreviation attrs_of w := (attrs (store w)).
Abbreviation services_of w := (services (store w)).

(** [self.name] *)
Definition getattr_self (name : string) : A value :=
  fun w =>
    match attrs_of w !! name with
    | Some v => (Ok v, w)
    | None => (Raise (PyException ("AttributeError: " +:+ name)), w)
    end.

(** [self.name = v] *)
Definition setattr_self (name : string) (v : value) : A unit :=
  fun w =>
    (Ok tt, mkWorld (log w) (mkApp (<[name := v]> (attrs_of w)) (services_of w))).

(** Modelled from the spec: [SystemCoordinator.register_service] (the
    coordinator is not under src/).  The coordinator holds "a mapping from
    service name to three callables"; registering stores the three callables
    under the service's name. *)
Definition register_service (c : value) (s : ServiceType)
    (start stop health : value) : A unit :=
  match c with
  | VObj "SystemCoordinator" _ =>
      fun w =>
        (Ok tt, mkWorld (log w)
                  (mkApp (attrs_of w)
                         (<[s := mkService start stop health]> (services_of w))))
  | _ => attribute_error "register_service"
  end.

Section App.
Variable env : Env.

Definition get_db : A value := call_fn env "get_db" [].
Definition get_async_mqtt_service : A value :=
  call_fn env "get_async_mqtt_service" [].

(** [self.w and self.w.isVisible()] *)
Definition shown (name : string) : A bool :=
  w <- getattr_self name ;;
  if truthy w then
    w <- getattr_self name ;;
    call_method_bool env w "isVisible" []
  else ret false.

(** [if self.w: self.w.hide()] *)
Definition hide_if_present (name : string) : A unit :=
  w <- getattr_self name ;;
  if truthy w then
    w <- getattr_self name ;;
    call_method env w "hide" [] ;;
    ret tt
  else ret tt.

Definition _register_system_services : A unit :=
  try_except
    (c <- getattr_self "system_coordinator" ;;
     register_service c DATABASE
       (VMethod self "_start_database_service")
       (VMethod self "_stop_database_service")
       (VMethod self "_check_database_health") ;;
     register_service c MQTT
       (VMethod self "_start_mqtt_service")
       (VMethod self "_stop_mqtt_service")
       (VMethod self "_check_mqtt_health") ;;
     register_service c UI
       (VMethod self "_start_ui_service")
       (VMethod self "_stop_ui_service")
       (VMethod self "_check_ui_health") ;;
     logger "info" "Successfully registered all services with the system coordinator")
    (fun e => logger "error" ("Failed to register services: " +:+ e)).

Definition _start_database_service : A bool :=
  try_except
    (db <- get_db ;;
     ret true)
    (fun e =>
       logger "error" ("Failed to start database service: " +:+ e) ;;
       ret false).

Definition _stop_database_service : A bool :=
  try_except
    (db <- get_db ;;
     ret true)
    (fun e =>
       logger "error" ("Failed to stop database service: " +:+ e) ;;
       ret false).

Definition _check_database_health : A bool :=
  try_except
    (db <- get_db ;;
     ret true)
    (fun e =>
       logger "error" ("Database health check failed: " +:+ e) ;;
       ret false).

Definition _start_mqtt_service : A bool :=
  try_except
    (mqtt_service <- get_async_mqtt_service ;;
     call_method env mqtt_service "connect" [] ;;
     ret true)
    (fun e =>
       logger "error" ("Failed to start MQTT service: " +:+ e) ;;
       ret false).

Definition _stop_mqtt_service : A bool :=
  try_except
    (mqtt_service <- get_async_mqtt_service ;;
     call_method env mqtt_service "disconnect" [] ;;
     ret true)
    (fun e =>
       logger "error" ("Failed to stop MQTT service: " +:+ e) ;;
       ret false).

Definition _check_mqtt_health : A bool :=
  try_except
    (mqtt_service <- get_async_mqtt_service ;;
     call_method_bool env mqtt_service "is_connected" [])
    (fun e =>
       logger "error" ("MQTT health check failed: " +:+ e) ;;
       ret false).

Definition _get_theme_preference : A value :=
  try_except
    (config <- call_fn env "get_config" [] ;;
     ui <- dict_get env config "ui" (VDict []) ;;
     theme <- dict_get env ui "theme" (VStr "dark") ;;
     let theme :=
       if negb (in_strs theme ["light"; "dark"]) then VStr "dark" else theme in
     ret theme)
    (fun e =>
       logger "error" ("Failed to get theme preference: " +:+ e) ;;
       ret (VStr "dark")).

Definition show_login_window : A unit :=
  logger "info" "Showing login window" ;;
  lw <- getattr_self "login_window" ;;
  (if negb (truthy lw) then
     lw <- construct env "LoginWindow" [VMethod self "handle_window_change"] [] ;;
     setattr_self "login_window" lw ;;
     logger "info" "Created login window"
   else ret tt) ;;
  rc <- getattr_self "rfid_controller" ;;
  register <- bound_method rc "register_callback" ;;
  lw <- getattr_self "login_window" ;;
  cb <- bound_method lw "handle_rfid_scan" ;;
  invoke env register [cb] [] ;;
  active_window <-
    (b <- shown "dashboard_window" ;;
     if b then getattr_self "dashboard_window"
     else
       b <- shown "admin_login_window" ;;
       if b then getattr_self "admin_login_window"
       else
         b <- shown "admin_dashboard_window" ;;
         if b then getattr_self "admin_dashboard_window"
         else ret VNone) ;;
  hide_if_present "dashboard_window" ;;
  hide_if_present "admin_login_window" ;;
  hide_if_present "admin_dashboard_window" ;;
  (if truthy active_window then
     tm <- getattr_self "transition_manager" ;;
     transition <- bound_method tm "transition" ;;
     lw <- getattr_self "login_window" ;;
     invoke env transition [active_window; lw] [] ;;
     ret tt
   else
     lw <- getattr_self "login_window" ;;
     call_method env lw "show" [] ;;
     fs <- getattr_self "fullscreen" ;;
     if truthy fs then
       lw <- getattr_self "login_window" ;;
       call_method env lw "showFullScreen" [] ;;
       ret tt
     else ret tt) ;;
  setattr_self "current_student" VNone ;;
  logger "info" "Login window shown".

Definition _start_ui_service : A bool :=
  try_except
    (show_login_window ;;
     ret true)
    (fun e =>
       logger "error" ("Failed to start UI service: " +:+ e) ;;
       ret false).

Definition _stop_ui_service : A bool :=
  try_except
    (ret true)
    (fun e =>
       logger "error" ("Failed to stop UI service: " +:+ e) ;;
       ret false).

Definition _check_ui_health : A bool :=
  try_except
    (ret true)
    (fun e =>
       logger "error" ("UI health check failed: " +:+ e) ;;
       ret false).

Definition show_dashboard_window (student_data : value) : A unit :=
  sid <- (if truthy student_data then getattr student_data "id"
          else ret (VStr "None")) ;;
  logger "info" ("Showing dashboard window for student: " +:+ py_str sid) ;;
  setattr_self "current_student" student_data ;;
  dw <- getattr_self "dashboard_window" ;;
  (if negb (truthy dw) then
     fc <- getattr_self "faculty_controller" ;;
     dw <- construct env "DashboardWindow"
             [VMethod self "handle_window_change";
              VMethod self "handle_consultation_request";
              fc] [] ;;
     setattr_self "dashboard_window" dw ;;
     logger "info" "Created dashboard window"
   else ret tt) ;;
  (if truthy student_data then
     dw <- getattr_self "dashboard_window" ;;
     call_method env dw "set_student" [student_data] ;;
     fc <- getattr_self "faculty_controller" ;;
     available_faculty <- call_method env fc "get_available_faculty" [] ;;
     dw <- getattr_self "dashboard_window" ;;
     call_method env dw "update_faculty_list" [available_faculty] ;;
     cc <- getattr_self "consultation_controller" ;;
     get <- bound_method cc "get_student_consultations" ;;
     sid <- getattr student_data "id" ;;
     consultation_history <- invoke env get [sid] [] ;;
     dw <- getattr_self "dashboard_window" ;;
     call_method env dw "update_consultation_history" [consultation_history] ;;
     ret tt
   else ret tt) ;;
  active_window <-
    (b <- shown "login_window" ;;
     if b then getattr_self "login_window"
     else
       b <- shown "admin_login_window" ;;
       if b then getattr_self "admin_login_window"
       else
         b <- shown "admin_dashboard_window" ;;
         if b then getattr_self "admin_dashboard_window"
         else ret VNone) ;;
  hide_if_present "login_window" ;;
  hide_if_present "admin_login_window" ;;
  hide_if_present "admin_dashboard_window" ;;
  (if truthy active_window then
     tm <- getattr_self "transition_manager" ;;
     transition <- bound_method tm "transition" ;;
     dw <- getattr_self "dashboard_window" ;;
     invoke env transition [active_window; dw] [] ;;
     ret tt
   else
     dw <- getattr_self "dashboard_window" ;;
     call_method env dw "show" [] ;;
     fs <- getattr_self "fullscreen" ;;
     if truthy fs then
       dw <- getattr_self "dashboard_window" ;;
       call_method env dw "showFullScreen" [] ;;
       ret tt
     else ret tt) ;;
  logger "info" "Dashboard window shown" ;;
  call_ env (Call (Fn "QTimer.singleShot")
               [VInt 5000; VMethod self "handle_faculty_updated"] []).

Definition handle_student_authenticated (student_data : value) : A unit :=
  sid <- getattr student_data "id" ;;
  name <- getattr student_data "name" ;;
  logger "info" ("Student authenticated: " +:+ py_str sid +:+ " - " +:+ py_str name) ;;
  setattr_self "current_student" student_data ;;
  show_dashboard_window student_data ;;
  sid <- getattr student_data "id" ;;
  name <- getattr student_data "name" ;;
  logger "info" ("Student " +:+ py_str sid +:+ " - " +:+ py_str name
                 +:+ " authenticated successfully").

Definition handle_rfid_scan (student rfid_uid : value) : A unit :=
  logger "info" ("RFID scan detected: " +:+ py_str rfid_uid) ;;
  if truthy student then
    sid <- getattr student "id" ;;
    name <- getattr student "name" ;;
    logger "info" ("Student authenticated: " +:+ py_str sid +:+ " - " +:+ py_str name) ;;
    handle_student_authenticated student
  else
    logger "warning" ("Unknown RFID tag: " +:+ py_str rfid_uid) ;;
    lw <- getattr_self "login_window" ;;
    if truthy lw then
      lw <- getattr_self "login_window" ;;
      call_method env lw "show_error" [VStr ("Unknown RFID tag: " +:+ py_str rfid_uid)] ;;
      ret tt
    else ret tt.

Definition handle_consultation_request (faculty message course_code : value)
  : A (bool * string) :=
  cs <- getattr_self "current_student" ;;
  sid <- getattr cs "id" ;;
  fid <- getattr faculty "id" ;;
  logger "info" ("Consultation request: " +:+ py_str sid +:+ " -> " +:+ py_str fid
                 +:+ " (" +:+ py_str course_code +:+ ")") ;;
  try_except
    (cc <- getattr_self "consultation_controller" ;;
     create <- bound_method cc "create_consultation" ;;
     cs <- getattr_self "current_student" ;;
     sid <- getattr cs "id" ;;
     fid <- getattr faculty "id" ;;
     consultation <- invoke env create []
                       [("student_id", sid); ("faculty_id", fid);
                        ("request_message", message); ("course_code", course_code)] ;;
     if truthy consultation then
       cid <- getattr consultation "id" ;;
       logger "info" ("Consultation request created: " +:+ py_str cid) ;;
       dw <- getattr_self "dashboard_window" ;;
       (if truthy dw then
          cc <- getattr_self "consultation_controller" ;;
          get <- bound_method cc "get_student_consultations" ;;
          cs <- getattr_self "current_student" ;;
          sid <- getattr cs "id" ;;
          consultation_history <- invoke env get [sid] [] ;;
          dw <- getattr_self "dashboard_window" ;;
          call_method env dw "update_consultation_history" [consultation_history] ;;
          dw <- getattr_self "dashboard_window" ;;
          success <- bound_method dw "show_success" ;;
          fname <- getattr faculty "name" ;;
          invoke env success [VStr ("Consultation request sent to " +:+ py_str fname)] [] ;;
          ret tt
        else ret tt) ;;
       ret (true, "Consultation request sent")
     else
       logger "warning" "Failed to create consultation request" ;;
       dw <- getattr_self "dashboard_window" ;;
       (if truthy dw then
          dw <- getattr_self "dashboard_window" ;;
          call_method env dw "show_error" [VStr "Failed to create consultation request"] ;;
          ret tt
        else ret tt) ;;
       ret (false, "Failed to create consultation request"))
    (fun e =>
       logger "error" ("Consultation request error: " +:+ e) ;;
       dw <- getattr_self "dashboard_window" ;;
       (if truthy dw then
          dw <- getattr_self "dashboard_window" ;;
          call_method env dw "show_error" [VStr ("Error: " +:+ e)] ;;
          ret tt
        else ret tt) ;;
       ret (false, "Error: " +:+ e)).

Definition handle_faculty_updated : A unit :=
  logger "debug" "Faculty update triggered" ;;
  try_except
    (b <- shown "dashboard_window" ;;
     (if b then
        fc <- getattr_self "faculty_controller" ;;
        available_faculty <- call_method env fc "get_available_faculty" [] ;;
        dw <- getattr_self "dashboard_window" ;;
        call_method env dw "update_faculty_list" [available_faculty] ;;
        call_ env (Call (Fn "QTimer.singleShot")
                     [VInt 5000; VMethod self "handle_faculty_updated"] [])
      else ret tt) ;;
     b <- shown "admin_dashboard_window" ;;
     if b then
       fc <- getattr_self "faculty_controller" ;;
       all_faculty <- call_method env fc "get_all_faculty" [] ;;
       adw <- getattr_self "admin_dashboard_window" ;;
       call_method env adw "update_faculty_list" [all_faculty] ;;
       ret tt
     else ret tt)
    (fun e => logger "error" ("Faculty update error: " +:+ e)).

Definition default_admin_kwargs : list (string * value) :=
  [("username", VStr "admin"); ("password", VStr "TempPass123!");
   ("email", VStr "admin@consultease.local");
   ("force_change_password", VBool true)].

Definition _emergency_admin_repair : A bool :=
  logger "info" "Performing emergency admin account repair" ;;
  try_except
    (ac <- getattr_self "admin_controller" ;;
     admin <- call_method env ac "get_admin_by_username" [VStr "admin"] ;;
     (if truthy admin then
        logger "info" "Admin account found, attempting repair" ;;
        db <- get_db ;;
        q <- call_method env db "query" [VObj "type" [("__name__", VStr "Admin")]] ;;
        f <- call_method env q "filter"
               [VObj "BinaryExpression" [("sql", VStr "admins.username = 'admin'")]] ;;
        update <- bound_method f "update" ;;
        ac <- getattr_self "admin_controller" ;;
        h <- call_method env ac "hash_password" [VStr "TempPass123!"] ;;
        invoke env update
          [VDict [("email", VStr "admin@consultease.local");
                  ("password_hash", h);
                  ("force_change_password", VBool true)]] [] ;;
        call_method env db "commit" [] ;;
        logger "info" "Admin account repaired successfully"
      else
        logger "info" "Admin account not found, creating new account" ;;
        ac <- getattr_self "admin_controller" ;;
        create <- bound_method ac "create_admin" ;;
        invoke env create [] default_admin_kwargs ;;
        logger "info" "Created new admin account") ;;
     ac <- getattr_self "admin_controller" ;;
     admin <- call_method env ac "get_admin_by_username" [VStr "admin"] ;;
     ok <- (if truthy admin then
              h <- getattr admin "password_hash" ;; ret (truthy h)
            else ret false) ;;
     if ok then
       logger "info" "Emergency admin repair successful" ;;
       ret true
     else
       logger "error" "Emergency admin repair failed: admin account not valid" ;;
       ret false)
    (fun e =>
       logger "error" ("Emergency admin repair failed: " +:+ e) ;;
       ret false).

Definition _verify_admin_account_startup : A unit :=
  logger "info" "Verifying admin account during startup" ;;
  try_except
    (ac <- getattr_self "admin_controller" ;;
     admin <- call_method env ac "get_admin_by_username" [VStr "admin"] ;;
     if truthy admin then
       logger "info" "Admin account exists, verifying integrity" ;;
       h <- getattr admin "password_hash" ;;
       verified <- (if negb (truthy h) then
                      logger "warning" "Admin account has no password hash, will repair" ;;
                      ret false
                    else ret true) ;;
       email <- getattr admin "email" ;;
       verified <- (if negb (truthy email) then
                      logger "warning" "Admin account has no email, will repair" ;;
                      ret false
                    else ret verified) ;;
       if negb verified then
         logger "info" "Admin account needs repair, performing emergency repair" ;;
         _emergency_admin_repair ;;
         ret tt
       else logger "info" "Admin account verification successful"
     else
       logger "warning" "Admin account does not exist, creating default account" ;;
       ac <- getattr_self "admin_controller" ;;
       create <- bound_method ac "create_admin" ;;
       invoke env create [] default_admin_kwargs ;;
       logger "info" "Created default admin account")
    (fun e =>
       logger "error" ("Failed to verify admin account: " +:+ e) ;;
       try_except
         (_emergency_admin_repair ;;
          ret tt)
         (fun repair_error =>
            logger "error" ("Emergency admin repair failed: " +:+ repair_error))).

Definition _ensure_dr_john_smith_available : A unit :=
  try_except
    (fc <- getattr_self "faculty_controller" ;;
     faculty <- call_method env fc "get_faculty_by_name" [VStr "Dr. John Smith"] ;;
     if negb (truthy faculty) then
       fc <- getattr_self "faculty_controller" ;;
       create <- bound_method fc "create_faculty" ;;
       invoke env create []
         [("name", VStr "Dr. John Smith"); ("department", VStr "Computer Science");
          ("ble_id", VStr "A1:B2:C3:D4:E5:F6"); ("always_available", VBool true)] ;;
       logger "info" "Created Dr. John Smith faculty member"
     else ret tt)
    (fun e => logger "error" ("Failed to ensure Dr. John Smith is available: " +:+ e)).

(** The five controller classes, in the order [__init__] instantiates
    them, with the attribute each is stored in. *)
Definition controllers : list (string * string) :=
  [("rfid_controller", "RFIDController");
   ("faculty_controller", "FacultyController");
   ("consultation_controller", "ConsultationController");
   ("admin_controller", "AdminController");
   ("faculty_response_controller", "FacultyResponseController")].

(** [ConsultEaseApp.__init__]; [argv] is [sys.argv]. *)
Definition __init__ (argv : value) (fullscreen : value) : A unit :=
  logger "info" "Initializing ConsultEase application" ;;
  app <- construct env "QApplication" [argv] [] ;;
  setattr_self "app" app ;;
  app <- getattr_self "app" ;;
  call_method env app "setApplicationName" [VStr "ConsultEase"] ;;
  call_fn env "icons.initialize" [] ;;
  logger "info" "Initialized icons" ;;
  try_except
    (app <- getattr_self "app" ;;
     set <- bound_method app "setStyleSheet" ;;
     sheet <- call_fn env "ConsultEaseTheme.get_base_stylesheet" [] ;;
     invoke env set [sheet] [] ;;
     logger "info" "Applied centralized theme stylesheet")
    (fun e =>
       logger "error" ("Failed to apply theme stylesheet: " +:+ e) ;;
       try_except
         (theme <- _get_theme_preference ;;
          app <- getattr_self "app" ;;
          call_fn env "apply_stylesheet" [app; theme] ;;
          logger "info" ("Applied fallback " +:+ py_str theme +:+ " theme stylesheet"))
         (fun e2 => logger "error" ("Failed to apply fallback stylesheet: " +:+ e2))) ;;
  logger "info" "Performing hardware validation..." ;;
  hardware_status <- call_fn env "log_hardware_status" [] ;;
  logger "info" "Initializing database and ensuring admin account integrity..." ;;
  call_fn env "init_db" [] ;;
  logger "info" "Starting system monitoring..." ;;
  call_fn env "start_system_monitoring" [] ;;
  logger "info" "Initializing system coordinator" ;;
  c <- call_giving env (Call (Fn "get_system_coordinator") [] []) coordinator ;;
  setattr_self "system_coordinator" c ;;
  _register_system_services ;;
  c <- getattr_self "system_coordinator" ;;
  started <- call_method_bool env c "start_system" [] ;;
  (if negb started then
     logger "error" "Failed to start system coordinator" ;;
     raise (SystemExit 1)
   else ret tt) ;;
  o <- construct env "RFIDController" [] [] ;;
  setattr_self "rfid_controller" o ;;
  o <- construct env "FacultyController" [] [] ;;
  setattr_self "faculty_controller" o ;;
  o <- construct env "ConsultationController" [] [] ;;
  setattr_self "consultation_controller" o ;;
  o <- construct env "AdminController" [] [] ;;
  setattr_self "admin_controller" o ;;
  o <- construct env "FacultyResponseController" [] [] ;;
  setattr_self "faculty_response_controller" o ;;
  ac <- getattr_self "admin_controller" ;;
  first_time <- call_method_bool env ac "is_first_time_setup" [] ;;
  (if first_time then
     logger "info" "First-time setup detected. Admin account creation will be handled by the AdminLoginWindow."
   else
     logger "info" "Existing admin accounts found or expected. Ensuring default admin and verifying." ;;
     ac <- getattr_self "admin_controller" ;;
     call_method env ac "ensure_default_admin" [] ;;
     _verify_admin_account_startup) ;;
  setattr_self "login_window" VNone ;;
  setattr_self "dashboard_window" VNone ;;
  setattr_self "admin_login_window" VNone ;;
  setattr_self "admin_dashboard_window" VNone ;;
  logger "info" "Starting RFID controller" ;;
  rc <- getattr_self "rfid_controller" ;;
  call_method env rc "start" [] ;;
  rc <- getattr_self "rfid_controller" ;;
  call_method env rc "register_callback" [VMethod self "handle_rfid_scan"] ;;
  logger "info" "Starting faculty controller" ;;
  fc <- getattr_self "faculty_controller" ;;
  call_method env fc "start" [] ;;
  logger "info" "Starting consultation controller" ;;
  cc <- getattr_self "consultation_controller" ;;
  call_method env cc "start" [] ;;
  logger "info" "Starting faculty response controller" ;;
  frc <- getattr_self "faculty_response_controller" ;;
  call_method env frc "start" [] ;;
  _ensure_dr_john_smith_available ;;
  setattr_self "current_student" VNone ;;
  tm <- construct env "WindowTransitionManager" [] [("duration", VInt 300)] ;;
  setattr_self "transition_manager" tm ;;
  logger "info" "Initialized window transition manager" ;;
  try_except
    (rfid_service <- call_fn env "get_rfid_service" [] ;;
     logger "info" ("RFID service initialized: " +:+ py_str rfid_service))
    (fun e => logger "error" ("Failed to verify RFID service: " +:+ e)) ;;
  setattr_self "fullscreen" fullscreen.

End App.
End Main.

(** ** scripts/migrations/add_consultation_response_fields.py *)
Module Migration.

(** A column of a table, as [sa.Column(name, type, nullable=...)] gives it. *)
Record Column : Type := mkColumn {
  col_name : string;
  col_type : string;
  nullable : bool
}.

(** The database schema: the columns of each table, in order. *)
Abbreviation Schema := (gmap string (list Column)).

Definition column_info (c : Column) : value :=
  VDict [("name", VStr (col_name c)); ("type", VStr (col_type c));
         ("nullable", VBool (nullable c))].

Definition has_column (name : string) (cols : list Column) : bool :=
  existsb (fun c => String.eqb name (col_name c)) cols.

(** [v[k]] *)
Definition subscript {S} (v : value) (k : string) : M S value :=
  match v with
  | VDict d =>
      match assoc k d with
      | Some x => ret x
      | None => raise (PyException ("KeyError: " +:+ k))
      end
  | _ => raise (PyException "TypeError: object is not subscriptable")
  end.

(** [[col['name'] for col in l]] *)
Fixpoint names {S} (l : list value) : M S (list value) :=
  match l with
  | [] => ret []
  | col :: l' =>
      n <- subscript col "name" ;;
      ns <- names l' ;;
      ret (n :: ns)
  end.

Definition iterate {S} (v : value) : M S (list value) :=
  match v with
  | VList l => ret l
  | _ => raise (PyException "TypeError: object is not iterable")
  end.

Section Migration.
Variable env : Env.

(** [inspector.get_columns(table)]: the columns the database has for the
    table; SQLAlchemy raises [NoSuchTableError] for a table that does not
    exist. *)
Definition get_columns (inspector : value) (table : string) : M Schema value :=
  match inspector with
  | VObj _ _ =>
      fun w =>
        let ev := Call (Meth inspector "get_columns") [VStr table] [] in
        match raises env (log w) ev with
        | Some msg =>
            (Raise (PyException msg), mkWorld (log w ++ [(ev, Raised msg)]) (store w))
        | None =>
            match store w !! table with
            | Some cols =>
                let v := VList (map column_info cols) in
                (Ok v, mkWorld (log w ++ [(ev, Returned v)]) (store w))
            | None =>
                let msg := "NoSuchTableError: " +:+ table in
                (Raise (PyException msg), mkWorld (log w ++ [(ev, Raised msg)]) (store w))
            end
        end
  | _ => attribute_error "get_columns"
  end.

(** [op.add_column(table, sa.Column(...))]: the database adds the column
    at the end of the table; it refuses a table that does not exist and a
    column name the table already has. *)
Definition add_column (table : string) (c : Column) : M Schema unit :=
  fun w =>
    let ev := Call (Fn "op.add_column")
                [VStr table; VObj "Column" [("name", VStr (col_name c));
                                            ("type", VStr (col_type c));
                                            ("nullable", VBool (nullable c))]]
                [] in
    match raises env (log w) ev with
    | Some msg =>
        (Raise (PyException msg), mkWorld (log w ++ [(ev, Raised msg)]) (store w))
    | None =>
        match store w !! table with
        | Some cols =>
            if has_column (col_name c) cols then
              let msg := "OperationalError: duplicate column name: " +:+ col_name c in
              (Raise (PyException msg), mkWorld (log w ++ [(ev, Raised msg)]) (store w))
            else
              (Ok tt, mkWorld (log w ++ [(ev, Returned VNone)])
                        (<[table := cols ++ [c]]> (store w)))
        | None =>
            let msg := "OperationalError: no such table: " +:+ table in
            (Raise (PyException msg), mkWorld (log w ++ [(ev, Raised msg)]) (store w))
        end
    end.

Definition upgrade : M Schema bool :=
  logger "info" "Starting database schema upgrade for consultation response fields" ;;
  try_except
    (engine <- call_fn env "get_db_engine" [] ;;
     inspector <- call_fn env "sa.inspect" [engine] ;;
     cols <- get_columns inspector "consultations" ;;
     cols <- iterate cols ;;
     columns <- names cols ;;
     (if negb (str_in "declined_at" columns) then
        logger "info" "Adding declined_at column to consultations table" ;;
        add_column "consultations" (mkColumn "declined_at" "DateTime" true)
      else ret tt) ;;
     (if negb (str_in "response_message" columns) then
        logger "info" "Adding response_message column to consultations table" ;;
        add_column "consultations" (mkColumn "response_message" "String" true)
      else ret tt) ;;
     logger "info" "Schema upgrade completed successfully" ;;
     ret true)
    (fun e =>
       logger "error" ("Error during schema upgrade: " +:+ e) ;;
       ret false).

End Migration.
End Migration.

(** ** Vocabulary of the statements *)
Module Spec.

(** The entry is a call of the module-level function [f]. *)
Definition is_fn (f : string) (e : entry) : bool :=
  match target (fst e) with
  | Fn g => String.eqb f g
  | Meth _ _ => false
  end.

(** The entry is a call of the method [m], on any receiver. *)
Definition is_meth (m : string) (e : entry) : bool :=
  match target (fst e) with
  | Fn _ => false
  | Meth _ n => String.eqb m n
  end.

(** The entry is a [logger.error] report. *)
Definition is_error_report (e : entry) : bool := is_fn "logger.error" e.

(** The run from [w] ended in [w'] without a call raising and without an
    error being reported. *)
Definition clean {S} (w w' : World S) : bool :=
  negb (existsb (fun e => raised e || is_error_report e) (trace_since w w')).

(** The entries that follow the first call that raised. *)
Fixpoint after_first_raise (t : history) : history :=
  match t with
  | [] => []
  | e :: t' => if raised e then t' else after_first_raise t'
  end.

(** The entry [e2] comes right after [e1] in [t]. *)
Definition adjacent (e1 e2 : entry) (t : history) : Prop :=
  exists t1 t2, t = t1 ++ e1 :: e2 :: t2.

(** [m] only appends to the log, every entry it appends satisfies [P], it
    takes a store to one related to it by [R], and an exception it raises
    satisfies [E]. *)
Definition tame {S A} (P : entry -> Prop) (R : S -> S -> Prop) (E : exn -> Prop)
    (m : M S A) : Prop :=
  forall w,
    exists t, log (snd (m w)) = log w ++ t /\ Forall P t /\
              R (store w) (store (snd (m w))) /\
              match fst (m w) with
              | Ok _ => True
              | Raise e => E e
              end.

Definition is_exception (e : exn) : Prop := exists msg, e = PyException msg.
Definition any_exn (_ : exn) : Prop := True.
Definition no_exn (_ : exn) : Prop := False.

(** [m] raises nothing but exceptions of class [Exception]. *)
Definition catchable {S A} (m : M S A) : Prop :=
  forall w e w', m w = (Raise e, w') -> exists msg, e = PyException msg.

(** [f] runs [op] under [try: ... except Exception], answers [val x] when
    [op] returns [x] and [False] when [op] raises; it never raises itself,
    and it adds nothing to what [op] did but the error report. *)
Definition guards {S A} (f : M S bool) (op : M S A) (val : A -> bool) : Prop :=
  forall w,
    exists b w', f w = (Ok b, w') /\
      match op w with
      | (Ok x, w1) => b = val x /\ w' = w1
      | (Raise _, w1) =>
          b = false /\ store w' = store w1 /\
          exists msg, log w' = log w1 ++ [(Call (Fn "logger.error") [VStr msg] [], Returned VNone)]
      end.

(** The entry is the instantiation of one of the five controllers. *)
Definition is_controller_construct (e : entry) : bool :=
  match target (fst e) with
  | Fn cls => existsb (String.eqb cls) (map snd Main.controllers)
  | Meth _ _ => false
  end.

(** What [start_system] returned, when the entry is a call of it that
    returned. *)
Definition start_result (e : entry) : option bool :=
  if is_meth "start_system" e then
    match snd e with
    | Returned (VBool b) => Some b
    | _ => None
    end
  else None.

(** The entry is neither the instantiation of a controller nor a return of
    [start_system]. *)
Definition before_start (e : entry) : Prop :=
  is_controller_construct e = false /\ start_result e = None.

(** The entry is not a return of [start_system]. *)
Definition after_start (e : entry) : Prop := start_result e = None.

(** [QTimer.singleShot(5000, self.handle_faculty_updated)] *)
Definition refresh_timer : event :=
  Call (Fn "QTimer.singleShot")
    [VInt 5000; VMethod Main.self "handle_faculty_updated"] [].

Definition is_refresh_timer (e : entry) : bool :=
  match fst e with
  | Call (Fn "QTimer.singleShot")
      [VInt 5000; VMethod (VObj "ConsultEaseApp" []) "handle_faculty_updated"] [] => true
  | _ => false
  end.

Definition not_refresh_timer (e : entry) : Prop := is_refresh_timer e = false.

(** The window [dw] was put on screen: shown, or handed to the transition
    manager as the window to go to. *)
Definition displayed (dw : value) (t : history) : Prop :=
  (exists r, (Call (Meth dw "show") [] [], Returned r) ∈ t) \/
  (exists tm from r, (Call (Meth tm "transition") [from; dw] [], Returned r) ∈ t).

(** The call returned a value that is true ([create_consultation]: a
    consultation object). *)
Definition returned_truthy (e : entry) : bool :=
  match snd e with
  | Returned v => truthy v
  | Raised _ => false
  end.

(** [create_consultation] returned a consultation object. *)
Definition created (t : history) : bool :=
  existsb (fun e => is_meth "create_consultation" e && returned_truthy e) t.

(** [create_consultation] returned nothing, or raised. *)
Definition refused (t : history) : bool :=
  existsb (fun e => is_meth "create_consultation" e && negb (returned_truthy e)) t.

(** An exception was caught and reported. *)
Definition reported (t : history) : bool := existsb is_error_report t.

(** Showing an error message on a window raised. *)
Definition display_failed (t : history) : bool :=
  existsb (fun e => is_meth "show_error" e && raised e) t.

(** What a window attribute holds: [None], or a window. *)
Definition window_slot (v : value) : bool :=
  match v with
  | VNone | VObj _ _ => true
  | _ => false
  end.

(** What [_start_mqtt_service], [_stop_mqtt_service] and
    [_check_mqtt_health] attempt. *)
Definition mqtt_connect (env : Env) : Main.A value :=
  mqtt_service <- Main.get_async_mqtt_service env ;;
  call_method env mqtt_service "connect" [].

Definition mqtt_disconnect (env : Env) : Main.A value :=
  mqtt_service <- Main.get_async_mqtt_service env ;;
  call_method env mqtt_service "disconnect" [].

Definition mqtt_is_connected (env : Env) : Main.A bool :=
  mqtt_service <- Main.get_async_mqtt_service env ;;
  call_method_bool env mqtt_service "is_connected" [].

(** The calls and log entries the statements speak of. *)
Definition get_config_call : event := Call (Fn "get_config") [] [].
Definition hide_call (v : value) : event := Call (Meth v "hide") [] [].
Definition visible_call (v : value) : event := Call (Meth v "isVisible") [] [].
Definition show_error_call (lw : value) (msg : string) : event :=
  Call (Meth lw "show_error") [VStr msg] [].

Definition scan_logged (uid : value) : entry :=
  (Call (Fn "logger.info") [VStr ("RFID scan detected: " +:+ py_str uid)] [],
   Returned VNone).

Definition unknown_tag_logged (uid : value) : entry :=
  (Call (Fn "logger.warning") [VStr ("Unknown RFID tag: " +:+ py_str uid)] [],
   Returned VNone).

(** The two stores agree on every attribute of [self] outside [names]. *)
Definition outside (names : list string) (s s' : Main.App) : Prop :=
  forall n, n ∉ names -> Main.attrs s' !! n = Main.attrs s !! n.

Definition anything {T} (_ _ : T) : Prop := True.
Definition any_entry (_ : entry) : Prop := True.

(** The two columns the migration is about, and those of them a table
    still lacks. *)
Definition response_columns : list Migration.Column :=
  [Migration.mkColumn "declined_at" "DateTime" true;
   Migration.mkColumn "response_message" "String" true].

Definition missing (cols : list Migration.Column) : list Migration.Column :=
  List.filter (fun c => negb (Migration.has_column (Migration.col_name c) cols))
    response_columns.

End Spec.
Import Spec.

(** ** A sample run

    An environment in which every call returns, and the states a session
    goes through in it: start-up, the login window, a student's scan. *)
Module Sample.
Import Main.

Definition person : value :=
  VObj "Record" [("id", VInt 7); ("name", VStr "Ann");
                 ("password_hash", VStr "pbkdf2$1f0e"); ("email", VStr "ann@consultease.local")].

Definition calm : Env := {|
  raises := fun _ _ => None;
  returns := fun _ _ => person;
  returns_bool := fun _ _ => true
|}.

(** The consultation history cannot be read: the database is locked. *)
Definition locked : Env := {|
  raises := fun _ ev =>
    match target ev with
    | Meth _ "get_student_consultations" => Some "database is locked"
    | _ => None
    end;
  returns := fun _ _ => person;
  returns_bool := fun _ _ => true
|}.

(** The add of [response_message] fails once, on the first attempt. *)
Definition flaky : Env := {|
  raises := fun h ev =>
    match ev with
    | Call (Fn "op.add_column") [_; VObj _ (("name", VStr "response_message") :: _)] _ =>
        if existsb (is_fn "op.add_column") (List.filter raised h) then None
        else Some "database is locked"
    | _ => None
    end;
  returns := fun _ _ => person;
  returns_bool := fun _ _ => true
|}.

(** [start_system()] answers [False]. *)
Definition refusing : Env := {|
  raises := fun _ _ => None;
  returns := fun _ _ => person;
  returns_bool := fun _ ev =>
    match target ev with
    | Meth _ "start_system" => false
    | _ => true
    end
|}.

Definition ann : value := VObj "Student" [("id", VInt 7); ("name", VStr "Ann")].
Definition dr_smith : value :=
  VObj "Faculty" [("id", VInt 3); ("name", VStr "Dr. John Smith")].

Definition fresh : World App := mkWorld [] (mkApp ∅ ∅).

(** [self.system_coordinator] is set, nothing is registered yet. *)
Definition with_coordinator : World App :=
  mkWorld [] (mkApp {["system_coordinator" := coordinator]} ∅).

(** After [ConsultEaseApp(fullscreen=False)]. *)
Definition booted : World App :=
  snd (__init__ calm (VList [VStr "main.py"]) (VBool false) fresh).

(** After [run()] has shown the login window. *)
Definition at_login : World App := snd (show_login_window calm booted).

(** After Ann has scanned her tag. *)
Definition at_dashboard : World App :=
  snd (handle_rfid_scan calm ann (VStr "04A1B2C3") at_login).

(** A database whose [consultations] table predates the migration. *)
Definition old_schema : World Migration.Schema :=
  mkWorld [] {["consultations" :=
                 [Migration.mkColumn "id" "Integer" false;
                  Migration.mkColumn "status" "Enum" false]]}.

End Sample.
(** ** central_system/main.py, continued

    The rest of [ConsultEaseApp]: the administrator's windows and sign-in,
    the window dispatcher, the student update handler, [run] and
    [cleanup]. *)
Module Session.
Import Main.

(** [lambda: self.show_password_change_dialog(admin, forced=True)]: a
    function object that closes over [admin]. *)
Definition password_change_lambda (admin : value) : value :=
  VObj "function" [("__name__", VStr "<lambda>"); ("admin", admin)].

(** The exit status [sys.exit(v)] gives the process: [v] for an integer
    (a boolean is one), 0 for [None], 1 for anything else. *)
Definition exit_status (v : value) : Z :=
  match v with
  | VNone => 0
  | VInt n => n
  | VBool b => if b then 1 else 0
  | _ => 1
  end.

(** [sys.exit(v)] *)
Definition sys_exit {S A} (v : value) : M S A :=
  raise (SystemExit (exit_status v)).

Section Methods.
Variable env : Env.

Definition run : A unit :=
  logger "info" "Starting ConsultEase application" ;;
  show_login_window env ;;
  app <- getattr_self "app" ;;
  code <- call_method env app "exec_" [] ;;
  sys_exit code.

Definition cleanup : A unit :=
  logger "info" "Cleaning up resources before exit" ;;
  try_except
    (rc <- getattr_self "rfid_controller" ;;
     call_method env rc "stop" [] ;;
     fc <- getattr_self "faculty_controller" ;;
     call_method env fc "stop" [] ;;
     cc <- getattr_self "consultation_controller" ;;
     call_method env cc "stop" [] ;;
     call_fn env "close_db" [] ;;
     mqtt_service <- get_async_mqtt_service env ;;
     call_method env mqtt_service "disconnect" [] ;;
     logger "info" "Cleanup completed successfully")
    (fun e => logger "error" ("Cleanup failed: " +:+ e)).

Definition show_admin_login_window : A unit :=
  logger "info" "Showing admin login window" ;;
  alw <- getattr_self "admin_login_window" ;;
  (if negb (truthy alw) then
     alw <- construct env "AdminLoginWindow"
              [VMethod self "handle_window_change";
               VMethod self "handle_admin_authenticated"] [] ;;
     setattr_self "admin_login_window" alw ;;
     logger "info" "Created admin login window"
   else ret tt) ;;
  active_window <-
    (b <- shown env "login_window" ;;
     if b then getattr_self "login_window"
     else
       b <- shown env "dashboard_window" ;;
       if b then getattr_self "dashboard_window"
       else
         b <- shown env "admin_dashboard_window" ;;
         if b then getattr_self "admin_dashboard_window"
         else ret VNone) ;;
  hide_if_present env "login_window" ;;
  hide_if_present env "dashboard_window" ;;
  hide_if_present env "admin_dashboard_window" ;;
  (if truthy active_window then
     tm <- getattr_self "transition_manager" ;;
     transition <- bound_method tm "transition" ;;
     alw <- getattr_self "admin_login_window" ;;
     invoke env transition [active_window; alw] [] ;;
     ret tt
   else
     alw <- getattr_self "admin_login_window" ;;
     call_method env alw "show" [] ;;
     fs <- getattr_self "fullscreen" ;;
     if truthy fs then
       alw <- getattr_self "admin_login_window" ;;
       call_method env alw "showFullScreen" [] ;;
       ret tt
     else ret tt) ;;
  ac <- getattr_self "admin_controller" ;;
  is_first_time <- call_method_bool env ac "is_first_time_setup" [] ;;
  (if is_first_time then
     logger "info" "This is a first-time setup, showing admin creation dialog" ;;
     alw <- getattr_self "admin_login_window" ;;
     call_method env alw "show_first_time_setup" [] ;;
     ret tt
   else ret tt) ;;
  logger "info" "Admin login window shown".

Definition show_admin_dashboard_window (admin : value) : A unit :=
  name <- (if truthy admin then getattr admin "username"
           else ret (VStr "None")) ;;
  logger "info" ("Showing admin dashboard window for admin: " +:+ py_str name) ;;
  adw <- getattr_self "admin_dashboard_window" ;;
  (if negb (truthy adw) then
     fc <- getattr_self "faculty_controller" ;;
     cc <- getattr_self "consultation_controller" ;;
     ac <- getattr_self "admin_controller" ;;
     adw <- construct env "AdminDashboardWindow"
              [VMethod self "handle_window_change"; fc; cc; ac] [] ;;
     setattr_self "admin_dashboard_window" adw ;;
     logger "info" "Created admin dashboard window"
   else ret tt) ;;
  (if truthy admin then
     adw <- getattr_self "admin_dashboard_window" ;;
     call_method env adw "set_admin" [admin] ;;
     force <- getattr admin "force_change_password" ;;
     if truthy force then
       logger "info" "Admin needs to change password, showing password change dialog" ;;
       call_ env (Call (Fn "QTimer.singleShot")
                    [VInt 500; password_change_lambda admin] [])
     else ret tt
   else ret tt) ;;
  active_window <-
    (b <- shown env "login_window" ;;
     if b then getattr_self "login_window"
     else
       b <- shown env "dashboard_window" ;;
       if b then getattr_self "dashboard_window"
       else
         b <- shown env "admin_login_window" ;;
         if b then getattr_self "admin_login_window"
         else ret VNone) ;;
  hide_if_present env "login_window" ;;
  hide_if_present env "dashboard_window" ;;
  hide_if_present env "admin_login_window" ;;
  (if truthy active_window then
     tm <- getattr_self "transition_manager" ;;
     transition <- bound_method tm "transition" ;;
     adw <- getattr_self "admin_dashboard_window" ;;
     invoke env transition [active_window; adw] [] ;;
     ret tt
   else
     adw <- getattr_self "admin_dashboard_window" ;;
     call_method env adw "show" [] ;;
     fs <- getattr_self "fullscreen" ;;
     if truthy fs then
       adw <- getattr_self "admin_dashboard_window" ;;
       call_method env adw "showFullScreen" [] ;;
       ret tt
     else ret tt) ;;
  logger "info" "Admin dashboard window shown".

Definition handle_admin_authenticated (credentials : value) : A (bool * string) :=
  u <- Migration.subscript credentials "username" ;;
  logger "info" ("Admin authentication attempt: " +:+ py_str u) ;;
  try_except
    (ac <- getattr_self "admin_controller" ;;
     authenticate <- bound_method ac "authenticate_admin" ;;
     u <- Migration.subscript credentials "username" ;;
     p <- Migration.subscript credentials "password" ;;
     admin <- invoke env authenticate [u; p] [] ;;
     if truthy admin then
       name <- getattr admin "username" ;;
       logger "info" ("Admin authenticated: " +:+ py_str name) ;;
       show_admin_dashboard_window admin ;;
       name <- getattr admin "username" ;;
       logger "info" ("Admin " +:+ py_str name +:+ " authenticated successfully") ;;
       ret (true, "Authentication successful")
     else
       u <- Migration.subscript credentials "username" ;;
       logger "warning" ("Admin authentication failed: " +:+ py_str u) ;;
       ret (false, "Invalid username or password"))
    (fun e =>
       logger "error" ("Admin authentication error: " +:+ e) ;;
       ret (false, "Authentication error: " +:+ e)).

Definition handle_student_updated : A unit :=
  logger "debug" "Student update triggered" ;;
  try_except
    (b <- shown env "dashboard_window" ;;
     b <- (if b then cs <- getattr_self "current_student" ;; ret (truthy cs)
           else ret false) ;;
     (if b then
        ac <- getattr_self "admin_controller" ;;
        get <- bound_method ac "get_student_by_id" ;;
        cs <- getattr_self "current_student" ;;
        sid <- getattr cs "id" ;;
        updated_student <- invoke env get [sid] [] ;;
        if truthy updated_student then
          setattr_self "current_student" updated_student ;;
          dw <- getattr_self "dashboard_window" ;;
          call_method env dw "set_student" [updated_student] ;;
          ret tt
        else ret tt
      else ret tt) ;;
     b <- shown env "admin_dashboard_window" ;;
     if b then
       ac <- getattr_self "admin_controller" ;;
       all_students <- call_method env ac "get_all_students" [] ;;
       adw <- getattr_self "admin_dashboard_window" ;;
       call_method env adw "update_student_list" [all_students] ;;
       ret tt
     else ret tt)
    (fun e => logger "error" ("Student update error: " +:+ e)).

Definition handle_password_changed (success : value) : A unit :=
  logger "info" ("Password change result: " +:+ py_str success).

Definition handle_window_change (window_name data : value) : A unit :=
  logger "info" ("Window change requested: " +:+ py_str window_name) ;;
  if eq_str "login" window_name then show_login_window env
  else if eq_str "dashboard" window_name then show_dashboard_window env data
  else if eq_str "admin_login" window_name then show_admin_login_window
  else if eq_str "admin_dashboard" window_name then show_admin_dashboard_window data
  else logger "warning" ("Unknown window: " +:+ py_str window_name).

End Methods.
End Session.

(** ** scripts/migrations/add_consultation_response_fields.py, continued

    [downgrade] and [main]. *)
Module Rollback.
Import Migration.

(** The columns of a table without the column [name]. *)
Definition without (name : string) (cols : list Column) : list Column :=
  List.filter (fun c => negb (String.eqb name (col_name c))) cols.

Section Rollback.
Variable env : Env.

(** [op.drop_column(table, name)]: the database removes the column of
    that name; it refuses a table that does not exist and a column the
    table does not have. *)
Definition drop_column (table name : string) : M Schema unit :=
  fun w =>
    let ev := Call (Fn "op.drop_column") [VStr table; VStr name] [] in
    match raises env (log w) ev with
    | Some msg =>
        (Raise (PyException msg), mkWorld (log w ++ [(ev, Raised msg)]) (store w))
    | None =>
        match store w !! table with
        | Some cols =>
            if has_column name cols then
              (Ok tt, mkWorld (log w ++ [(ev, Returned VNone)])
                        (<[table := without name cols]> (store w)))
            else
              let msg := "OperationalError: no such column: " +:+ name in
              (Raise (PyException msg), mkWorld (log w ++ [(ev, Raised msg)]) (store w))
        | None =>
            let msg := "OperationalError: no such table: " +:+ table in
            (Raise (PyException msg), mkWorld (log w ++ [(ev, Raised msg)]) (store w))
        end
    end.

Definition downgrade : M Schema bool :=
  logger "info" "Starting database schema downgrade to remove consultation response fields" ;;
  try_except
    (drop_column "consultations" "declined_at" ;;
     drop_column "consultations" "response_message" ;;
     logger "info" "Schema downgrade completed successfully" ;;
     ret true)
    (fun e =>
       logger "error" ("Error during schema downgrade: " +:+ e) ;;
       ret false).

(** [main()]; [argv] is [sys.argv]. *)
Definition main (argv : list string) : M Schema Z :=
  logger "info" "Starting consultation response fields migration" ;;
  success <-
    (if (1 <? length argv)%nat
        && match argv !! 1%nat with
           | Some a => String.eqb a "downgrade"
           | None => false
           end
     then downgrade
     else upgrade env) ;;
  if success then
    logger "info" "Migration completed successfully" ;;
    ret 0
  else
    logger "error" "Migration failed" ;;
    ret 1.

End Rollback.
End Rollback.

(** ** Vocabulary of the statements, continued *)
Module Terms.
Import Main.

(** The log entry [logger.<level>(msg)] leaves. *)
Definition logged (level msg : string) : entry :=
  (Call (Fn ("logger." +:+ level)) [VStr msg] [], Returned VNone).

(** The entry is a [logger] call. *)
Definition is_logger (e : entry) : bool :=
  match target (fst e) with
  | Fn f => String.prefix "logger." f
  | Meth _ _ => false
  end.

(** The calls of a trace that leave the program: everything but the
    [logger] entries. *)
Definition calls (t : history) : history :=
  List.filter (fun e => negb (is_logger e)) t.

(** The name of the function or method an entry calls. *)
Definition callee_name (e : entry) : string :=
  match target (fst e) with
  | Fn f => f
  | Meth _ m => m
  end.

(** [admin_controller.get_admin_by_username('admin')] *)
Definition admin_lookup (ac : value) : event :=
  Call (Meth ac "get_admin_by_username") [VStr "admin"] [].

(** The value has the attribute [name], and it is true. *)
Definition has_true (name : string) (v : value) : bool :=
  match v with
  | VObj _ fields =>
      match assoc name fields with
      | Some x => truthy x
      | None => false
      end
  | _ => false
  end.

(** The entry is [logger.<level>(msg)]. *)
Definition is_logged (level msg : string) (e : entry) : bool :=
  match fst e with
  | Call (Fn f) [VStr m] [] => String.eqb f ("logger." +:+ level) && String.eqb m msg
  | _ => false
  end.

(** The entry is a call that reads or writes the administrators'
    accounts: a method of the admin controller that [__init__] and the
    repair use, or an update of the database. *)
Definition touches_admin (e : entry) : bool :=
  match target (fst e) with
  | Meth _ m =>
      existsb (String.eqb m)
        ["ensure_default_admin"; "get_admin_by_username"; "create_admin";
         "hash_password"; "query"; "update"; "commit"]
  | Fn _ => false
  end.

(** What [is_first_time_setup] returned, when the entry is a call of it
    that returned. *)
Definition first_time_result (e : entry) : option bool :=
  if is_meth "is_first_time_setup" e then
    match snd e with
    | Returned (VBool b) => Some b
    | _ => None
    end
  else None.

(** The entry neither touches the accounts nor is a return of
    [is_first_time_setup]. *)
Definition admin_idle (e : entry) : bool :=
  negb (touches_admin e)
  && match first_time_result e with
     | None => true
     | Some _ => false
     end.

(** What [__init__] leaves in the attributes of [self] when it returns. *)
Definition initial_attrs (fullscreen : value) : list (string * value) :=
  [("app", VObj "QApplication" []);
   ("system_coordinator", coordinator);
   ("rfid_controller", VObj "RFIDController" []);
   ("faculty_controller", VObj "FacultyController" []);
   ("consultation_controller", VObj "ConsultationController" []);
   ("admin_controller", VObj "AdminController" []);
   ("faculty_response_controller", VObj "FacultyResponseController" []);
   ("login_window", VNone);
   ("dashboard_window", VNone);
   ("admin_login_window", VNone);
   ("admin_dashboard_window", VNone);
   ("current_student", VNone);
   ("transition_manager", VObj "WindowTransitionManager" []);
   ("fullscreen", fullscreen)].

(** The three callables [_register_system_services] registers for a
    service. *)
Definition registered (s : ServiceType) : Service :=
  match s with
  | DATABASE => mkService (VMethod self "_start_database_service")
                  (VMethod self "_stop_database_service")
                  (VMethod self "_check_database_health")
  | MQTT => mkService (VMethod self "_start_mqtt_service")
              (VMethod self "_stop_mqtt_service")
              (VMethod self "_check_mqtt_health")
  | UI => mkService (VMethod self "_start_ui_service")
            (VMethod self "_stop_ui_service")
            (VMethod self "_check_ui_health")
  end.

(** The value is an instance that has the attribute [name]. *)
Definition has_attr (name : string) (v : value) : bool :=
  match v with
  | VObj _ fields =>
      match assoc name fields with
      | Some _ => true
      | None => false
      end
  | _ => false
  end.

(** [m] leaves the attributes of [self] and the registry as they were,
    however it ends. *)
Definition read_only {B} (m : A B) : Prop :=
  forall w, store (snd (m w)) = store w.

(** The attribute [name] of [self], when it holds [v], still holds it
    afterwards. *)
Definition stays (name : string) (v : value) (s s' : App) : Prop :=
  attrs s !! name = Some v -> attrs s' !! name = Some v.

(** The attributes of [self] that hold the four windows. *)
Definition window_attrs : list string :=
  ["login_window"; "dashboard_window"; "admin_login_window"; "admin_dashboard_window"].

(** Every window that exists in [s] is still the same window in [s']. *)
Definition keeps_windows (s s' : App) : Prop :=
  forall n v, n ∈ window_attrs ->
    attrs s !! n = Some v -> truthy v = true -> attrs s' !! n = Some v.

(** [m] never replaces a window that exists, however it ends. *)
Definition preserves_windows {B} (m : A B) : Prop :=
  forall w, keeps_windows (store w) (store (snd (m w))).

(** The classes of the four windows, and the class of the window
    [handle_window_change] shows for a name. *)
Definition window_classes : list string :=
  ["LoginWindow"; "DashboardWindow"; "AdminLoginWindow"; "AdminDashboardWindow"].

Definition window_class (name : value) : option string :=
  if eq_str "login" name then Some "LoginWindow"
  else if eq_str "dashboard" name then Some "DashboardWindow"
  else if eq_str "admin_login" name then Some "AdminLoginWindow"
  else if eq_str "admin_dashboard" name then Some "AdminDashboardWindow"
  else None.

(** The entry creates a window of a class other than [cls]. *)
Definition creates_other (cls : option string) (e : entry) : bool :=
  match target (fst e) with
  | Fn f =>
      existsb (String.eqb f) window_classes
      && negb (match cls with
               | Some c => String.eqb f c
               | None => false
               end)
  | Meth _ _ => false
  end.

(** [QTimer.singleShot(500, lambda: self.show_password_change_dialog(admin, forced=True))] *)
Definition password_timer (admin : value) : event :=
  Call (Fn "QTimer.singleShot") [VInt 500; Session.password_change_lambda admin] [].

(** The entry neither shows the first-time-setup dialog nor is a return
    of [is_first_time_setup]. *)
Definition setup_idle (e : entry) : bool :=
  negb (is_meth "show_first_time_setup" e)
  && match first_time_result e with
     | None => true
     | Some _ => false
     end.

(** [authenticate_admin] returned an account. *)
Definition authenticated (t : history) : bool :=
  existsb (fun e => is_meth "authenticate_admin" e && returned_truthy e) t.

(** [op.drop_column('consultations', name)] *)
Definition drop_call (name : string) : event :=
  Call (Fn "op.drop_column") [VStr "consultations"; VStr name] [].

(** The value is an instance of a class. *)
Definition is_obj (v : value) : bool :=
  match v with
  | VObj _ _ => true
  | _ => false
  end.

(** A log that has grown entry by entry. *)
Definition grown (base es : history) : history :=
  fold_left (fun h e => h ++ [e]) es base.

End Terms.
Import Terms.

(** ** The sample run, continued *)
Module Cast.
Import Main Sample.

(** The default administrator, who still has to change the password. *)
Definition root : value :=
  VObj "Admin" [("username", VStr "admin"); ("force_change_password", VBool true)].

Definition login : value :=
  VDict [("username", VStr "admin"); ("password", VStr "TempPass123!")].

(** The database after the migration. *)
Definition upgraded : World Migration.Schema :=
  snd (Migration.upgrade calm old_schema).

End Cast.

(** ** The monad and the log *)
Module PyFacts.
Section Facts.
Context {S : Type}.

Lemma bind_inv {A B} (m : M S A) (k : A -> M S B) w r w' :
  bind m k w = (r, w') ->
  (exists a w1, m w = (Ok a, w1) /\ k a w1 = (r, w')) \/
  (exists e, m w = (Raise e, w') /\ r = Raise e).
Proof.
  unfold bind. destruct (m w) as [[a|e] w1]; intros H.
  - left. eauto.
  - right. inversion H; subst. eauto.
Qed.

Lemma bind_ok_inv {A B} (m : M S A) (k : A -> M S B) w b w' :
  bind m k w = (Ok b, w') ->
  exists a w1, m w = (Ok a, w1) /\ k a w1 = (Ok b, w').
Proof.
  intros H. apply bind_inv in H as [H | (e & _ & H)]; [done | discriminate].
Qed.

Lemma trace_since_app (w w' : World S) t :
  log w' = log w ++ t -> trace_since w w' = t.
Proof. unfold trace_since. intros ->. apply drop_app_length. Qed.

Lemma trace_since_refl (w : World S) : trace_since w w = [].
Proof. unfold trace_since. apply drop_all. Qed.


Lemma adjacent_app_l e1 e2 (t s : history) :
  adjacent e1 e2 t -> adjacent e1 e2 (t ++ s).
Proof.
  intros (t1 & t2 & ->). exists t1, (t2 ++ s).
  by rewrite <- app_assoc.
Qed.

Lemma adjacent_app_r e1 e2 (p t : history) :
  adjacent e1 e2 t -> adjacent e1 e2 (p ++ t).
Proof.
  intros (t1 & t2 & ->). exists (p ++ t1), t2.
  by rewrite <- app_assoc.
Qed.

End Facts.

(** Looks for a known pair of adjacent entries inside a concatenation. *)
Ltac find_adjacent :=
  first [ eassumption
        | apply adjacent_app_l; find_adjacent
        | apply adjacent_app_r; find_adjacent ].
End PyFacts.
Import PyFacts.

(** Brings the entries a run appended into the open. *)
Ltac trace_norm :=
  unfold trace_since; cbn [log fst snd];
  rewrite <- ?app_assoc;
  first [ rewrite drop_app_length | rewrite drop_all ];
  cbn [app].
(** ** Runs that only append to the log *)
Module TameFacts.
Section Tame.
Context {S : Type}.
Variable env : Env.
Variable P : entry -> Prop.
Variable R : S -> S -> Prop.
Variable E : exn -> Prop.
Hypothesis R_refl : forall s, R s s.
Hypothesis R_trans : forall a b c, R a b -> R b c -> R a c.

Lemma tame_ret {A} (a : A) : tame P R E (ret a).
Proof. intros w. exists []. cbn. rewrite app_nil_r. auto. Qed.

Lemma tame_raise {A} e : E e -> tame P R E (@raise S A e).
Proof. intros He w. exists []. cbn. rewrite app_nil_r. auto. Qed.

Lemma tame_attribute_error {A} name :
  E (PyException ("AttributeError: " +:+ name)) ->
  tame P R E (@attribute_error S A name).
Proof. apply tame_raise. Qed.

Lemma tame_bind {A B} (m : M S A) (k : A -> M S B) :
  tame P R E m -> (forall a, tame P R E (k a)) -> tame P R E (bind m k).
Proof.
  intros Hm Hk w. unfold bind.
  destruct (Hm w) as (t1 & E1 & F1 & R1 & X1).
  destruct (m w) as [[a|e] w1]; cbn in *.
  - destruct (Hk a w1) as (t2 & E2 & F2 & R2 & X2).
    exists (t1 ++ t2). rewrite E2, E1, <- app_assoc.
    split; [done|]. split; [by apply Forall_app|eauto].
  - eauto.
Qed.

Lemma tame_try_except {A} (m : M S A) (h : string -> M S A) :
  tame P R E m -> (forall e, tame P R E (h e)) -> tame P R E (try_except m h).
Proof.
  intros Hm Hh w. unfold try_except.
  destruct (Hm w) as (t1 & E1 & F1 & R1 & X1).
  destruct (m w) as [[a|[msg|c]] w1]; cbn in *; eauto.
  destruct (Hh msg w1) as (t2 & E2 & F2 & R2 & X2).
  exists (t1 ++ t2). rewrite E2, E1, <- app_assoc.
  split; [done|]. split; [by apply Forall_app|eauto].
Qed.

(** A [try] whose body raises exceptions of class [Exception] only lets
    nothing through but what its handler raises. *)
Lemma tame_try_catch {A} (m : M S A) (h : string -> M S A) :
  tame P R is_exception m -> (forall e, tame P R E (h e)) ->
  tame P R E (try_except m h).
Proof.
  intros Hm Hh w. unfold try_except.
  destruct (Hm w) as (t1 & E1 & F1 & R1 & X1).
  destruct (m w) as [[a|[msg|c]] w1]; cbn in *; eauto.
  - destruct (Hh msg w1) as (t2 & E2 & F2 & R2 & X2).
    exists (t1 ++ t2). rewrite E2, E1, <- app_assoc.
    split; [done|]. split; [by apply Forall_app|eauto].
  - by destruct X1.
Qed.

Lemma tame_record e : P e -> tame P R E (record e).
Proof. intros He w. exists [e]. cbn. auto. Qed.

Lemma tame_logger level msg :
  P (Call (Fn ("logger." +:+ level)) [VStr msg] [], Returned VNone) ->
  tame P R E (logger level msg).
Proof. apply tame_record. Qed.

Hypothesis E_exception : forall msg, E (PyException msg).

Lemma tame_call ev : (forall o, P (ev, o)) -> tame P R E (call env ev).
Proof.
  intros He w. unfold call. destruct (raises env (log w) ev); cbn; eauto 8.
Qed.

Lemma tame_call_bool ev : (forall o, P (ev, o)) -> tame P R E (call_bool env ev).
Proof.
  intros He w. unfold call_bool. destruct (raises env (log w) ev); cbn; eauto 8.
Qed.

Lemma tame_call_giving ev v :
  (forall o, P (ev, o)) -> tame P R E (call_giving env ev v).
Proof.
  intros He w. unfold call_giving. destruct (raises env (log w) ev); cbn; eauto 8.
Qed.

Lemma tame_getattr o name : tame P R E (@getattr S o name).
Proof.
  unfold getattr, attribute_error.
  destruct o; try (apply tame_raise; auto).
  destruct (assoc name fields); [apply tame_ret | apply tame_raise; auto].
Qed.

Lemma tame_bound_method o name : tame P R E (@bound_method S o name).
Proof.
  unfold bound_method, attribute_error.
  destruct o; first [apply tame_ret | apply tame_raise; auto].
Qed.

Lemma tame_bind_bound_method {A} (o : value) (n : string) (k : value -> M S A) :
  tame P R E (k (VMethod o n)) -> tame P R E (bind (bound_method o n) k).
Proof.
  intros Hk. destruct o; try (apply Hk).
  all: intros w; exists []; cbn; rewrite app_nil_r; auto.
Qed.

End Tame.

(** Runs of [tame] code, as facts about the two worlds. *)
Lemma tame_run {S A} P R E (m : M S A) w r w' :
  tame P R E m -> m w = (r, w') ->
  exists t, log w' = log w ++ t /\ Forall P t /\ R (store w) (store w') /\
            match r with Ok _ => True | Raise e => E e end.
Proof. intros H Eq. specialize (H w). by rewrite Eq in H. Qed.

End TameFacts.
Import TameFacts.

(** ** main.py: what the methods leave alone *)
Module MainFacts.
Import Main.

Create HintDb app.
Create HintDb tame.
#[global] Hint Unfold shown hide_if_present get_db get_async_mqtt_service
  _register_system_services _start_database_service _stop_database_service
  _check_database_health _start_mqtt_service _stop_mqtt_service _check_mqtt_health
  _get_theme_preference show_login_window _start_ui_service _stop_ui_service
  _check_ui_health show_dashboard_window handle_student_authenticated
  handle_rfid_scan handle_consultation_request handle_faculty_updated
  _emergency_admin_repair _verify_admin_account_startup
  _ensure_dr_john_smith_available __init__ call_ call_fn construct : app.

Lemma anything_refl {T} (s : T) : anything s s.
Proof. exact I. Qed.

Lemma anything_trans {T} (a b c : T) : anything a b -> anything b c -> anything a c.
Proof. intros _ _. exact I. Qed.

Lemma outside_refl names s : outside names s s.
Proof. by intros n _. Qed.

Lemma outside_trans names a b c :
  outside names a b -> outside names b c -> outside names a c.
Proof. intros H1 H2 n Hn. rewrite H2, H1; auto. Qed.

Lemma outside_insert names s n v :
  n ∈ names -> outside names s (mkApp (<[n := v]> (attrs s)) (services s)).
Proof.
  intros Hin k Hk. cbn. apply lookup_insert_ne. intros ->. contradiction.
Qed.

Lemma outside_services names s sv :
  outside names s (mkApp (attrs s) sv).
Proof. by intros k _. Qed.

#[global] Hint Resolve anything_refl anything_trans outside_refl outside_trans : tame.

Section Frames.
Variable env : Env.
Variable P : entry -> Prop.
Variable R : App -> App -> Prop.
Variable E : exn -> Prop.
Hypothesis R_refl : forall s, R s s.
Hypothesis E_exception : forall msg, E (PyException msg).

Lemma tame_getattr_self name : tame P R E (getattr_self name).
Proof.
  intros w. exists []. unfold getattr_self.
  destruct (attrs_of w !! name); cbn; rewrite app_nil_r; auto.
Qed.

Lemma tame_setattr_self name v :
  (forall s, R s (mkApp (<[name := v]> (attrs s)) (services s))) ->
  tame P R E (setattr_self name v).
Proof. intros H w. exists []. cbn. rewrite app_nil_r. auto. Qed.

Lemma tame_register_service c k a b h :
  (forall s sv, R s (mkApp (attrs s) sv)) ->
  tame P R E (register_service c k a b h).
Proof.
  intros H. unfold register_service, attribute_error.
  destruct c; try by apply tame_raise; auto.
  repeat (match goal with
          | |- context [match ?x with _ => _ end] => destruct x
          end; try by apply tame_raise; auto).
  intros w. exists []. cbn. rewrite app_nil_r. auto.
Qed.
End Frames.

(** Decomposes a goal [tame P R m] along the structure of [m]. *)
Ltac tame_side :=
  intros; cbv beta;
  match goal with
  | |- any_entry _ => exact I
  | |- anything _ _ => exact I
  | |- outside _ ?s ?s => apply outside_refl
  | |- outside _ _ (mkApp (<[_ := _]> _) _) => apply outside_insert; set_solver
  | |- outside _ _ (mkApp _ _) => apply outside_services
  | |- outside _ _ _ => eapply outside_trans; eassumption
  | |- _ = _ => reflexivity
  | |- before_start _ => split; reflexivity
  | |- not_refresh_timer _ => reflexivity
  | |- after_start _ => reflexivity
  | |- True => exact I
  | |- any_exn _ => exact I
  | |- is_exception _ => eexists; reflexivity
  end.

Ltac tame_step :=
  match goal with
  | |- tame _ _ _ (bind (bound_method _ _) _) => apply tame_bind_bound_method
  | |- tame _ _ _ (bind _ _) => apply tame_bind
  | |- tame _ _ no_exn (try_except _ _) => apply tame_try_catch
  | |- tame _ _ _ (try_except _ _) => apply tame_try_except
  | |- tame _ _ _ (ret _) => apply tame_ret
  | |- tame _ _ _ (raise _) => apply tame_raise
  | |- tame _ _ _ (attribute_error _) => apply tame_attribute_error
  | |- tame _ _ _ (logger _ _) => apply tame_logger
  | |- tame _ _ _ (record _) => apply tame_record
  | |- tame _ _ _ (call _ _) => apply tame_call
  | |- tame _ _ _ (call_bool _ _) => apply tame_call_bool
  | |- tame _ _ _ (call_giving _ _ _) => apply tame_call_giving
  | |- tame _ _ _ (getattr _ _) => apply tame_getattr
  | |- tame _ _ _ (bound_method _ _) => apply tame_bound_method
  | |- tame _ _ _ (getattr_self _) => apply tame_getattr_self
  | |- tame _ _ _ (setattr_self _ _) => apply tame_setattr_self
  | |- tame _ _ _ (register_service _ _ _ _ _) => apply tame_register_service
  | |- tame _ _ _ (if ?b then _ else _) => destruct b
  | |- tame _ _ _ (let _ := _ in _) => cbv zeta
  | |- tame _ _ _ (match ?v with _ => _ end) => destruct v
  | |- tame _ _ _ (invoke _ _ _ _) => unfold invoke
  | |- tame _ _ _ (call_method _ _ _ _) => unfold call_method
  | |- tame _ _ _ (call_method_bool _ _ _ _) => unfold call_method_bool
  | |- tame _ _ _ (dict_get _ _ _ _) => unfold dict_get
  | |- tame _ _ _ _ => progress autounfold with app
  | |- forall _, tame _ _ _ _ => intros ?
  | |- _ => tame_side
  end.

Ltac tame_tac := repeat tame_step.

(** One statement further into a run: either the statement returned and the
    run goes on, or it raised and the run is over; in both cases the log has
    grown by entries that satisfy [P]. *)
Lemma advance {S A B} (P : entry -> Prop) (m : M S A) (k : A -> M S B)
    (w w0 : World S) r w' T :
  tame P anything any_exn m ->
  log w0 = log w ++ T -> Forall P T ->
  bind m k w0 = (r, w') ->
  (exists a w1 T', k a w1 = (r, w') /\ log w1 = log w ++ T' /\ Forall P T') \/
  (exists T', log w' = log w ++ T' /\ Forall P T' /\ exists e, r = Raise e).
Proof.
  intros Hm Hl HF H.
  apply bind_inv in H as [(a & w1 & H1 & H) | (e & H1 & ->)];
    apply (tame_run _ _ _ _ _ _ _ Hm) in H1 as (t & E & F & _).
  - left. exists a, w1, (T ++ t). rewrite E, Hl, <- app_assoc.
    split; [done|]. split; [done|]. by apply Forall_app.
  - right. exists (T ++ t). rewrite E, Hl, <- app_assoc.
    split; [done|]. split; [by apply Forall_app | eauto].
Qed.

Ltac advance_in P H Hl HF :=
  eapply (advance P) in H; [ | solve [tame_tac] | exact Hl | exact HF ];
  clear Hl HF;
  destruct H as [(? & ? & ? & H & Hl & HF) | (? & Hl & HF & ? & ->)].

Section Init.
Variable env : Env.

Lemma call_method_bool_inv {S} o m a (w w1 : World S) r :
  call_method_bool env o m a w = (r, w1) ->
  (exists b, r = Ok b /\
     log w1 = log w ++ [(Call (Meth o m) a [], Returned (VBool b))]) \/
  (exists e, r = Raise e /\
     (log w1 = log w \/
      exists msg, log w1 = log w ++ [(Call (Meth o m) a [], Raised msg)])).
Proof.
  unfold call_method_bool, call_bool, attribute_error, raise.
  destruct o; try (intros [= <- <-]; right; eauto).
  destruct (raises env (log w) _); intros [= <- <-]; cbn; eauto 8.
Qed.


End Init.

(** *** The coordinator's registry *)

(** C1.  With [self.system_coordinator] in place (as [__init__] leaves it),
    [_register_system_services] returns after registering DATABASE, MQTT and
    UI, each with its start, stop and health-check method of [self]; the
    registry is otherwise unchanged, so from an empty registry it holds
    exactly these three services. *)
Theorem register_system_services_three (w : World App) :
  attrs_of w !! "system_coordinator" = Some coordinator ->
  let out := _register_system_services w in
  let reg := services_of (snd out) in
  fst out = Ok tt /\
  attrs_of (snd out) = attrs_of w /\
  reg = <[UI := mkService (VMethod self "_start_ui_service")
                          (VMethod self "_stop_ui_service")
                          (VMethod self "_check_ui_health")]>
        (<[MQTT := mkService (VMethod self "_start_mqtt_service")
                             (VMethod self "_stop_mqtt_service")
                             (VMethod self "_check_mqtt_health")]>
        (<[DATABASE := mkService (VMethod self "_start_database_service")
                                 (VMethod self "_stop_database_service")
                                 (VMethod self "_check_database_health")]>
           (services_of w))) /\
  (services_of w = ∅ -> dom reg = {[DATABASE; MQTT; UI]}).
Proof.
  intros Hc. cbv zeta.
  unfold _register_system_services, try_except, bind, getattr_self.
  rewrite Hc. cbn.
  split; [done|]. split; [done|]. split; [done|].
  intros ->. rewrite !dom_insert_L. set_solver.
Qed.

(** *** The nine service callables *)
Section Services.
Variable env : Env.

Lemma catchable_tame {B} (op : A B) :
  tame any_entry anything is_exception op -> catchable op.
Proof.
  intros H w e w' Hop. destruct (H w) as (_ & _ & _ & _ & He).
  by rewrite Hop in He.
Qed.

Lemma guards_intro {B} (f : A bool) (op : A B) (val : B -> bool) (what : string) :
  catchable op ->
  (forall w, f w =
             try_except (x <- op ;; ret (val x))
               (fun e => logger "error" (what +:+ e) ;; ret false) w) ->
  guards f op val.
Proof.
  intros Hc Hf w. rewrite Hf. unfold try_except, bind, ret, logger, record.
  destruct (op w) as [[x|e] w1] eqn:Hop; cbn.
  - eauto.
  - destruct (Hc _ _ _ Hop) as [msg ->]. cbn. eauto 10.
Qed.

(** C3.  Each of the nine callables runs its operation under
    [try ... except Exception]: it never raises, it answers [True] when
    the operation returns ([_check_mqtt_health]: the boolean
    [is_connected()] returned) and [False] when the operation raises. *)
Theorem service_callables_return_booleans :
  guards (_start_database_service env) (get_db env) (fun _ => true) /\
  guards (_stop_database_service env) (get_db env) (fun _ => true) /\
  guards (_check_database_health env) (get_db env) (fun _ => true) /\
  guards (_start_mqtt_service env) (mqtt_connect env) (fun _ => true) /\
  guards (_stop_mqtt_service env) (mqtt_disconnect env) (fun _ => true) /\
  guards (_check_mqtt_health env) (mqtt_is_connected env) (fun b => b) /\
  guards (_start_ui_service env) (show_login_window env) (fun _ => true) /\
  guards _stop_ui_service (ret tt) (fun _ => true) /\
  guards _check_ui_health (ret tt) (fun _ => true).
Proof.
  repeat split.
  1-3: eapply guards_intro; [apply catchable_tame; tame_tac | done].
  1-3: eapply guards_intro;
    [ apply catchable_tame; unfold mqtt_connect, mqtt_disconnect, mqtt_is_connected;
      tame_tac
    | intros w;
      unfold _start_mqtt_service, _stop_mqtt_service, _check_mqtt_health,
        mqtt_connect, mqtt_disconnect, mqtt_is_connected, try_except, bind;
      destruct (get_async_mqtt_service env w) as [[v|e] w1]; [|reflexivity];
      match goal with
      | |- context [call_method env v ?m ?a w1] =>
          destruct (call_method env v m a w1) as [[?|?] ?]
      | |- context [call_method_bool env v ?m ?a w1] =>
          destruct (call_method_bool env v m a w1) as [[?|?] ?]
      end; reflexivity ].
  - eapply guards_intro; [apply catchable_tame; tame_tac | done].
  - intros w. eexists _, _. split; [reflexivity|]. by cbn.
  - intros w. eexists _, _. split; [reflexivity|]. by cbn.
Qed.
End Services.

(** *** Runs of straight-line code *)

(** Runs straight-line code call by call, splitting on what the
    environment answers and on the shape of the values it hands back. *)
Ltac run_step :=
  match goal with
  | |- context [match raises ?e ?h ?ev with _ => _ end] =>
      destruct (raises e h ev) eqn:?
  | |- context [match ?v with VNone => _ | _ => _ end] =>
      is_var v; destruct v
  | |- context [match returns ?e ?h ?ev with VNone => _ | _ => _ end] =>
      destruct (returns e h ev) eqn:?
  | |- context [match assoc ?k ?d with _ => _ end] =>
      destruct (assoc k d) eqn:?
  | |- context [if returns_bool ?e ?h ?ev then _ else _] =>
      destruct (returns_bool e h ev) eqn:?
  end.

Ltac run :=
  repeat (cbv beta iota zeta delta
               [fst snd log store bind ret raise try_except record logger call call_bool
                call_giving call_ call_fn call_method call_method_bool invoke
                bound_method attribute_error getattr dict_get construct];
          try run_step).

Section Attempts.
Variable env : Env.

(** C6.  Exactly one attempt, no retry.  A run of
    [_start_database_service] consists of one call of [get_db()] and,
    when that raised, the error report; a run of [_start_mqtt_service]
    asks for the MQTT service exactly once and calls [connect()] on it at
    most once: once when it was handed an object, and not at all when
    getting the service failed.  Each answers [True] when its attempt
    went through and [False] on the first failure, having done nothing
    after the failure but report it. *)
Theorem start_services_attempt_once (w : World App) :
  (let out := _start_mqtt_service env w in
   let t := trace_since w (snd out) in
   length (List.filter (is_fn "get_async_mqtt_service") t) = 1%nat /\
   (length (List.filter (is_meth "connect") t) <= 1)%nat /\
   (exists o t1,
      t = (Call (Fn "get_async_mqtt_service") [] [], o) :: t1 /\
      match o with
      | Returned svc =>
          if is_obj svc then
            exists o2 t2,
              t1 = (Call (Meth svc "connect") [] [], o2) :: t2 /\
              match o2 with
              | Returned _ => t2 = [] /\ fst out = Ok true
              | Raised msg =>
                  t2 = [logged "error" ("Failed to start MQTT service: " +:+ msg)] /\
                  fst out = Ok false
              end
          else
            exists msg,
              t1 = [logged "error" ("Failed to start MQTT service: " +:+ msg)] /\
              fst out = Ok false
      | Raised msg =>
          t1 = [logged "error" ("Failed to start MQTT service: " +:+ msg)] /\
          fst out = Ok false
      end) /\
   (existsb raised t = true ->
      fst out = Ok false /\
      forallb is_error_report (after_first_raise t) = true)) /\
  (let out := _start_database_service env w in
   let t := trace_since w (snd out) in
   length (List.filter (is_fn "get_db") t) = 1%nat /\
   (exists o,
      match o with
      | Returned _ =>
          t = [(Call (Fn "get_db") [] [], o)] /\ fst out = Ok true
      | Raised msg =>
          t = [(Call (Fn "get_db") [] [], o);
               logged "error" ("Failed to start database service: " +:+ msg)] /\
          fst out = Ok false
      end) /\
   (existsb raised t = true ->
      fst out = Ok false /\
      forallb is_error_report (after_first_raise t) = true)).
Proof.
  cbv zeta. split.
  - unfold _start_mqtt_service, get_async_mqtt_service. run.
    all: trace_norm.
    all: split; [cbv -[raises returns returns_bool]; reflexivity|].
    all: split; [cbv -[raises returns returns_bool Nat.le]; lia|].
    all: split; [ | cbv -[raises returns returns_bool]; intros; try discriminate; done].
    all: eexists _, _; split; [reflexivity|]; cbn [is_obj].
    all: try (eexists _, _; split; [reflexivity|]).
    all: try (eexists; split; reflexivity).
    all: split; reflexivity.
  - unfold _start_database_service, get_db. run.
    all: trace_norm.
    all: split; [cbv -[raises returns returns_bool]; reflexivity|].
    all: split; [ | cbv -[raises returns returns_bool]; intros; try discriminate; done].
    all: eexists (Returned _) + eexists (Raised _); split; reflexivity.
Qed.

Lemma in_strs_light_dark v :
  in_strs v ["light"; "dark"] = true -> v = VStr "light" \/ v = VStr "dark".
Proof.
  unfold in_strs, existsb, eq_str. destruct v; try discriminate.
  destruct (String.eqb_spec "light" s) as [<-|_]; [auto|].
  destruct (String.eqb_spec "dark" s) as [<-|_]; [auto|]. discriminate.
Qed.

Lemma theme_choice v :
  let theme := if negb (in_strs v ["light"; "dark"]) then VStr "dark" else v in
  @Ok value theme = Ok (VStr "light") \/ @Ok value theme = Ok (VStr "dark").
Proof.
  cbv zeta. destruct (in_strs v ["light"; "dark"]) eqn:Hin; cbn; [|auto].
  destruct (in_strs_light_dark _ Hin) as [-> | ->]; auto.
Qed.

(** C9.  [_get_theme_preference] always returns, and what it returns is
    ['light'] or ['dark']: ['dark'] when a call raised or an error was
    reported; and, for a configuration that is a dictionary of
    dictionaries, the configured theme when that is one of the two and
    ['dark'] when it is anything else. *)
Theorem get_theme_preference_light_or_dark (w : World App) :
  let out := _get_theme_preference env w in
  (fst out = Ok (VStr "light") \/ fst out = Ok (VStr "dark")) /\
  (clean w (snd out) = false -> fst out = Ok (VStr "dark")) /\
  (forall config ui theme,
     raises env (log w) get_config_call = None ->
     returns env (log w) get_config_call = VDict config ->
     assoc "ui" config = Some (VDict ui) ->
     assoc "theme" ui = Some theme ->
     fst out = Ok (if in_strs theme ["light"; "dark"] then theme else VStr "dark")).
Proof.
  cbv zeta. unfold _get_theme_preference, clean.
  split; [|split].
  - run. all: first [apply theme_choice | auto].
  - run.
    all: trace_norm; cbv -[raises returns returns_bool in_strs];
      first [reflexivity | discriminate].
  - intros config ui theme Hr Hv Hui Ht.
    unfold get_config_call in *.
    cbv beta iota zeta delta [fst snd bind ret try_except call call_fn dict_get].
    rewrite Hr. cbv beta iota zeta. rewrite Hv. cbv beta iota zeta.
    rewrite Hui. cbv beta iota zeta. rewrite Ht.
    by destruct (in_strs theme ["light"; "dark"]).
Qed.
End Attempts.

(** *** Runs that return *)

(** One statement further into a run that returns: the statement returned,
    the log has grown by what it appended, and the store is still related to
    the first one. *)
Lemma advance_ok {S A B} (P : entry -> Prop) (R : S -> S -> Prop)
    (m : M S A) (k : A -> M S B) (w w0 : World S) b w' T :
  tame P R any_exn m ->
  (forall x y z, R x y -> R y z -> R x z) ->
  log w0 = log w ++ T -> R (store w) (store w0) ->
  bind m k w0 = (Ok b, w') ->
  exists a w1 t,
    m w0 = (Ok a, w1) /\ k a w1 = (Ok b, w') /\
    log w1 = log w0 ++ t /\
    log w1 = log w ++ (T ++ t) /\ Forall P t /\ R (store w) (store w1).
Proof.
  intros Hm Ht Hl HR H.
  apply bind_ok_inv in H as (a & w1 & H1 & H).
  destruct (tame_run _ _ _ _ _ _ _ Hm H1) as (t & E & F & R1 & _).
  exists a, w1, t. split; [done|]. split; [done|]. split; [done|].
  rewrite E, Hl, <- app_assoc. eauto 10.
Qed.

(** [step_ok names H hook]: one statement further in the run [H], keeping
    the log and the attributes outside [names] related to the first world;
    [hook Hs Ht HR] may record what the statement did, from its run [Hs],
    the entries [Ht] it appended and the attributes [HR] it started from. *)
Ltac step_ok names H hook :=
  match type of H with
  | bind _ _ ?w0 = _ =>
      match goal with
      | Hl : log w0 = log ?w ++ _, HR : outside names (store ?w) (store w0) |- _ =>
          let Hs := fresh "Hstep" in
          let Ht := fresh "Hnew" in
          let Hl' := fresh "Hlog" in
          let HR' := fresh "Hout" in
          eapply (advance_ok any_entry (outside names)) in H;
          [ | solve [tame_tac] | apply outside_trans | exact Hl | exact HR ];
          destruct H as (? & ? & ? & Hs & H & Ht & Hl' & _ & HR');
          try hook Hs Ht HR;
          clear Hl HR Ht
      end
  end.

(** Names the world the rest of the run [H] starts from, and what is known
    of it. *)
Ltac name_end H :=
  match type of H with
  | ?m ?we = _ =>
      match goal with Le : log we = _ |- _ => rename Le into Lend end;
      match goal with Re : outside _ _ (store we) |- _ => rename Re into Rend end
  end.

Ltac start_ok names w :=
  assert (log w = log w ++ []) by (by rewrite app_nil_r);
  assert (outside names (store w) (store w)) by apply outside_refl.

Section Windows.
Variable env : Env.

(** [if self.w: self.w.hide()], when it returns, has hidden the window
    the attribute holds. *)
Lemma hide_if_present_ok name (w w1 : World App) u t :
  hide_if_present env name w = (Ok u, w1) ->
  log w1 = log w ++ t ->
  forall v, attrs_of w !! name = Some v -> truthy v = true ->
            exists r, (hide_call v, Returned r) ∈ t.
Proof.
  unfold hide_if_present, getattr_self, bind.
  intros H E v Hv Ht. rewrite Hv, Ht, Hv in H.
  unfold call_method, attribute_error, raise, call, ret in H.
  destruct v; try discriminate.
  destruct (raises env (log w) _); [discriminate|].
  injection H as _ <-. cbn in E. apply app_inv_head in E as <-.
  eexists. apply list_elem_of_singleton. reflexivity.
Qed.

(** Records, after a [hide] statement, what it has hidden. *)
Ltac note_hidden Hs Ht HR :=
  match type of Hs with
  | hide_if_present _ ?n _ = _ =>
      let D := fresh "Hhidden" in
      pose proof (hide_if_present_ok _ _ _ _ _ Hs Ht) as D;
      rewrite (HR n ltac:(by intros ?%list_elem_of_singleton)) in D
  end.

(** C8.  When [show_login_window] returns, [current_student] is [None] and
    every one of the dashboard, admin-login and admin-dashboard windows
    that exists has been hidden during the call, on every path. *)
Theorem show_login_window_resets (w w' : World App) :
  show_login_window env w = (Ok tt, w') ->
  attrs_of w' !! "current_student" = Some VNone /\
  forall name v,
    name ∈ ["dashboard_window"; "admin_login_window"; "admin_dashboard_window"] ->
    attrs_of w' !! name = Some v -> truthy v = true ->
    exists r, (hide_call v, Returned r) ∈ trace_since w w'.
Proof.
  intros H. unfold show_login_window in H.
  start_ok ["login_window"] w.
  do 13 step_ok ["login_window"] H note_hidden.
  name_end H.
  cbv [bind setattr_self logger record ret] in H. injection H as <-.
  cbn [log store attrs].
  erewrite trace_since_app
    by (cbn [log]; rewrite Lend, <- app_assoc; reflexivity).
  split; [apply lookup_insert_eq|].
  intros name v Hname Hv Ht.
  assert (Hne : name <> "current_student" /\ name ∉ ["login_window"]).
  { repeat (apply elem_of_cons in Hname as [-> | Hname]);
      [ | | | by apply elem_of_nil in Hname ];
      (split; [done | by intros ?%list_elem_of_singleton]). }
  destruct Hne as [Hne1 Hne2].
  assert (Hw : attrs_of w !! name = Some v).
  { rewrite lookup_insert_ne in Hv by done.
    rewrite <- Hv. symmetry. by apply Rend. }
  repeat (apply elem_of_cons in Hname as [-> | Hname]);
    [ | | | by apply elem_of_nil in Hname ].
  all: match goal with
       | D : forall v, attrs_of ?w0 !! ?n = Some v -> _,
         Hw : attrs_of ?w0 !! ?n = Some _ |- _ =>
           destruct (D _ Hw Ht) as [r Hr]
       end;
    exists r; rewrite !elem_of_app; tauto.
Qed.
End Windows.

(** *** The dashboard *)
Section Dashboard.
Variable env : Env.

(** Runs the statement under the arrow call by call. *)
Ltac run_hyp :=
  repeat (cbv beta iota zeta delta
            [fst snd bind ret raise try_except record logger call call_bool
             call_giving call_ call_fn call_method call_method_bool invoke
             bound_method attribute_error getattr getattr_self setattr_self
             construct shown hide_if_present];
          cbn [log store attrs services];
          try match goal with
            | |- context [match raises ?e ?h ?ev with _ => _ end] =>
                destruct (raises e h ev);
                [ | try (generalize (returns e h ev); intros ?);
                    try (generalize (returns_bool e h ev); intros ?) ]
            | |- context [match attrs ?s !! ?n with _ => _ end] =>
                destruct (attrs s !! n) eqn:?
            | |- context [match ?v with VNone => _ | _ => _ end] =>
                is_var v; destruct v
            | |- context [match returns ?e ?h ?ev with VNone => _ | _ => _ end] =>
                destruct (returns e h ev) eqn:?
            | |- context [match assoc ?k ?d with _ => _ end] =>
                destruct (assoc k d) eqn:?
            | |- context [if returns_bool ?e ?h ?ev then _ else _] =>
                destruct (returns_bool e h ev) eqn:?
            | |- context [if truthy ?v then _ else _] =>
                destruct (truthy v) eqn:?
            | |- (Raise _, _) = (Ok _, _) -> _ => discriminate
            end).

(** The statements of [show_dashboard_window] that refresh the dashboard
    for a student. *)
Lemma refresh_for_student_ok sd (w w1 : World App) u t :
  (if truthy sd then
     dw <- getattr_self "dashboard_window" ;;
     call_method env dw "set_student" [sd] ;;
     fc <- getattr_self "faculty_controller" ;;
     available_faculty <- call_method env fc "get_available_faculty" [] ;;
     dw <- getattr_self "dashboard_window" ;;
     call_method env dw "update_faculty_list" [available_faculty] ;;
     cc <- getattr_self "consultation_controller" ;;
     get <- bound_method cc "get_student_consultations" ;;
     sid <- getattr sd "id" ;;
     consultation_history <- invoke env get [sid] [] ;;
     dw <- getattr_self "dashboard_window" ;;
     call_method env dw "update_consultation_history" [consultation_history] ;;
     ret tt
   else ret tt) w = (Ok u, w1) ->
  log w1 = log w ++ t ->
  truthy sd = true ->
  exists fc dw faculty r,
    attrs_of w !! "faculty_controller" = Some fc /\
    attrs_of w !! "dashboard_window" = Some dw /\
    adjacent (Call (Meth fc "get_available_faculty") [] [], Returned faculty)
             (Call (Meth dw "update_faculty_list") [faculty] [], Returned r) t.
Proof.
  intros H E Hsd. rewrite Hsd in H. revert H.
  run_hyp.
  all: intros [= <- <-]; cbn [log] in E; rewrite <- !app_assoc in E;
    apply app_inv_head in E as <-.
  all: repeat match goal with
         | H : Some _ = Some _ |- _ => injection H as <- <-
         end.
  all: eexists _, _, _, _; split; [reflexivity|]; split; [reflexivity|];
    eexists [_], _; reflexivity.
Qed.

(** The statements that put the dashboard window on screen. *)
Lemma display_dashboard_ok active (w w1 : World App) u t :
  (if truthy active then
     tm <- getattr_self "transition_manager" ;;
     transition <- bound_method tm "transition" ;;
     dw <- getattr_self "dashboard_window" ;;
     invoke env transition [active; dw] [] ;;
     ret tt
   else
     dw <- getattr_self "dashboard_window" ;;
     call_method env dw "show" [] ;;
     fs <- getattr_self "fullscreen" ;;
     if truthy fs then
       dw <- getattr_self "dashboard_window" ;;
       call_method env dw "showFullScreen" [] ;;
       ret tt
     else ret tt) w = (Ok u, w1) ->
  log w1 = log w ++ t ->
  exists dw, attrs_of w !! "dashboard_window" = Some dw /\ displayed dw t.
Proof.
  intros H E. revert H. unfold displayed.
  run_hyp.
  all: intros [= <- <-]; cbn [log] in E; rewrite <- ?app_assoc in E;
    apply app_inv_head in E as <-.
  all: repeat match goal with
         | H : Some _ = Some _ |- _ => injection H as <- <-
         end.
  all: eexists; split; [reflexivity|].
  all: first [ left; eexists; cbn; apply elem_of_cons; by left
             | right; do 3 eexists; cbn; apply elem_of_cons; by left ].
Qed.

Lemma call__ok ev (w w1 : World App) u :
  call_ env ev w = (Ok u, w1) ->
  exists r, log w1 = log w ++ [(ev, Returned r)] /\ store w1 = store w.
Proof.
  unfold call_, call, bind, ret.
  destruct (raises env (log w) ev); [discriminate|].
  intros [= <- <-]. eauto.
Qed.

Lemma setattr_self_ok name v (w w1 : World App) u :
  setattr_self name v w = (Ok u, w1) ->
  attrs_of w1 !! name = Some v.
Proof. intros [= <- <-]. apply lookup_insert_eq. Qed.

(** Records, after a statement of [show_dashboard_window], what it did. *)
Ltac note_dashboard Hs Ht HR :=
  let D := fresh "Hdone" in
  first [ pose proof (refresh_for_student_ok _ _ _ _ _ Hs Ht) as D
        | pose proof (display_dashboard_ok _ _ _ _ _ Hs Ht) as D ];
  try rewrite (HR "dashboard_window" ltac:(apply not_elem_of_nil)) in D;
  try rewrite (HR "faculty_controller" ltac:(apply not_elem_of_nil)) in D.

(** What a call of [show_dashboard_window] that returns has done. *)
Lemma show_dashboard_window_ok sd (w w' : World App) u :
  show_dashboard_window env sd w = (Ok u, w') ->
  exists dw t,
    attrs_of w' !! "current_student" = Some sd /\
    attrs_of w' !! "dashboard_window" = Some dw /\
    log w' = log w ++ t /\
    displayed dw t /\
    (exists t0 r, t = t0 ++ [(refresh_timer, Returned r)]) /\
    (truthy sd = true ->
     exists fc faculty r,
       attrs_of w' !! "faculty_controller" = Some fc /\
       adjacent (Call (Meth fc "get_available_faculty") [] [], Returned faculty)
                (Call (Meth dw "update_faculty_list") [faculty] [], Returned r) t).
Proof.
  intros H. unfold show_dashboard_window in H.
  start_ok ["current_student"; "dashboard_window"] w.
  do 3 step_ok ["current_student"; "dashboard_window"] H idtac.
  match goal with
  | Hs : setattr_self _ _ _ = _ |- _ => apply setattr_self_ok in Hs; rename Hs into Hcs
  end.
  eapply (tame_run any_entry (outside ["dashboard_window"]) any_exn) in H as Hkeep;
    [ | solve [tame_tac] ].
  destruct Hkeep as (_ & _ & _ & Hkeep & _).
  rewrite <- (Hkeep "current_student") in Hcs
    by (by intros ?%list_elem_of_singleton).
  do 2 step_ok ["current_student"; "dashboard_window"] H idtac.
  name_end H. rename Lend into Lmid. clear Rend.
  match type of H with bind _ _ ?wm = _ => start_ok (@nil string) wm end.
  do 6 step_ok (@nil string) H note_dashboard.
  name_end H.
  apply bind_ok_inv in H as (? & wl & Hlg & H).
  cbv [logger record] in Hlg. injection Hlg as Hwl. subst wl.
  apply call__ok in H as (r & El & Es). cbn [log store] in El, Es.
  match goal with
  | D : exists dw, _ /\ displayed dw _ |- _ => destruct D as (dw & Hdw & Hdisp)
  end.
  match type of Lmid with
  | _ = _ ++ ?TA =>
      match type of Lend with
      | _ = _ ++ ?TB =>
          exists dw, ((TA ++ TB ++ [(Call (Fn "logger.info") [VStr "Dashboard window shown"] [],
                                     Returned VNone)])
                      ++ [(refresh_timer, Returned r)])
      end
  end.
  split; [exact Hcs|].
  split; [rewrite Es, <- Hdw; apply Rend, not_elem_of_nil|].
  split; [rewrite El, Lend, Lmid, <- !app_assoc; reflexivity|].
  split.
  { destruct Hdisp as [(r0 & Hin) | (tm & a & r0 & Hin)];
      [left; exists r0 | right; exists tm, a, r0]; rewrite !elem_of_app; tauto. }
  split; [eauto|].
  intros Hsd.
  match goal with
  | D : truthy sd = true -> _ |- _ =>
      destruct (D Hsd) as (fc & dw' & faculty & r1 & Hfc & Hdw' & Hadj)
  end.
  rewrite Hdw in Hdw'. injection Hdw' as <-.
  exists fc, faculty, r1.
  split; [rewrite Es, <- Hfc; apply Rend, not_elem_of_nil|].
  find_adjacent.
Qed.



(** Records what [show_dashboard_window] did, after the statement that
    calls it. *)
Ltac note_shown Hs Ht HR :=
  let D := fresh "Hshown" in
  pose proof (show_dashboard_window_ok _ _ _ _ Hs) as D;
  destruct D as (? & ? & ? & ? & D & ? & _ & _);
  rewrite Ht in D; apply app_inv_head in D; subst.

(** What a call of [handle_student_authenticated] that returns has done. *)
Lemma handle_student_authenticated_ok sd (w w' : World App) u :
  handle_student_authenticated env sd w = (Ok u, w') ->
  exists dw t,
    attrs_of w' !! "current_student" = Some sd /\
    attrs_of w' !! "dashboard_window" = Some dw /\
    log w' = log w ++ t /\
    displayed dw t.
Proof.
  intros H. unfold handle_student_authenticated in H.
  start_ok ["current_student"; "dashboard_window"] w.
  do 5 step_ok ["current_student"; "dashboard_window"] H note_shown.
  name_end H.
  eapply (tame_run any_entry (outside []) any_exn) in H as (t & E & _ & Hsame & _);
    [ | solve [tame_tac] ].
  match goal with
  | Hd : displayed ?dw _ |- _ => exists dw; eexists
  end.
  split; [rewrite Hsame by apply not_elem_of_nil; eassumption|].
  split; [rewrite Hsame by apply not_elem_of_nil; eassumption|].
  split; [rewrite E, Lend, <- app_assoc; reflexivity|].
  match goal with
  | Hd : displayed _ _ |- _ =>
      destruct Hd as [(r0 & Hin) | (tm & a & r0 & Hin)];
      [left; exists r0 | right; exists tm, a, r0]; rewrite !elem_of_app; tauto
  end.
Qed.

(** C4, as the code has it.  A scan that [handle_rfid_scan] handles to the
    end authenticates the student exactly when a student object comes
    with the tag: then [current_student] is that student and the
    dashboard window has been put on screen.  For an unknown tag nothing
    of [self] changes and no window is put on screen: the scan is logged,
    and the error message is shown on the login window when there is
    one. *)
Theorem handle_rfid_scan_authenticates student uid (w w' : World App) :
  handle_rfid_scan env student uid w = (Ok tt, w') ->
  if truthy student then
    attrs_of w' !! "current_student" = Some student /\
    exists dw, attrs_of w' !! "dashboard_window" = Some dw /\
               displayed dw (trace_since w w')
  else
    store w' = store w /\
    exists lw, attrs_of w !! "login_window" = Some lw /\
      if truthy lw then
        exists r, trace_since w w' =
                  [scan_logged uid; unknown_tag_logged uid;
                   (show_error_call lw ("Unknown RFID tag: " +:+ py_str uid), Returned r)]
      else trace_since w w' = [scan_logged uid; unknown_tag_logged uid].
Proof.
  intros H. unfold handle_rfid_scan in H.
  destruct (truthy student) eqn:Hst.
  - start_ok (@nil string) w.
    do 4 step_ok (@nil string) H idtac.
    name_end H.
    apply handle_student_authenticated_ok in H as (dw & t & Hcs & Hdw & E & Hd).
    split; [done|]. exists dw. split; [done|].
    erewrite trace_since_app by (rewrite E, Lend, <- app_assoc; reflexivity).
    destruct Hd as [(r0 & Hin) | (tm & a & r0 & Hin)];
      [left; exists r0 | right; exists tm, a, r0]; rewrite !elem_of_app; tauto.
  - revert H. unfold scan_logged, unknown_tag_logged, show_error_call.
    run_hyp.
    all: intros [= <-]; cbn [store log]; split; [by destruct w|].
    all: eexists; split; [reflexivity|].
    all: repeat match goal with
           | H : truthy _ = _ |- _ => rewrite H
           | H : Some _ = Some _ |- _ => injection H as <-
           end.
    all: try eexists; trace_norm; reflexivity.
Qed.
End Dashboard.

(** *** Consultation requests *)
Section Requests.
Variable env : Env.

(** Runs the statement call by call, on every path. *)
Ltac run_all :=
  repeat (cbv beta iota zeta delta
            [fst snd bind ret raise try_except record logger call call_bool
             call_giving call_ call_fn call_method call_method_bool invoke
             bound_method attribute_error getattr getattr_self setattr_self
             construct shown hide_if_present];
          cbn [log store attrs services];
          try match goal with
            | H : attrs ?s !! ?n = _ |- context [attrs ?s !! ?n] => rewrite H
            | |- context [match raises ?e ?h ?ev with _ => _ end] =>
                destruct (raises e h ev);
                [ | try (generalize (returns e h ev); intros ?) ]
            | |- context [match attrs ?s !! ?n with _ => _ end] =>
                destruct (attrs s !! n) eqn:?
            | |- context [match ?v with VNone => _ | _ => _ end] =>
                is_var v; destruct v
            | |- context [match assoc ?k ?d with _ => _ end] =>
                destruct (assoc k d) eqn:?
            | |- context [if truthy ?v then _ else _] =>
                destruct (truthy v) eqn:?
            end).

(** C5, as the code has it.  [handle_consultation_request] returns
    [(True, "Consultation request sent")] exactly when
    [create_consultation] returned a consultation object and no exception
    was caught afterwards; when [create_consultation] returned nothing or
    raised, it returns [(False, m)] for some message [m], unless showing
    the error on the dashboard raised in turn. *)
Theorem handle_consultation_request_outcome faculty message course_code
    (w : World App) :
  (exists dw, attrs_of w !! "dashboard_window" = Some dw /\ window_slot dw = true) ->
  let out := handle_consultation_request env faculty message course_code w in
  let t := trace_since w (snd out) in
  (fst out = Ok (true, "Consultation request sent") <->
   created t = true /\ reported t = false) /\
  (refused t = true -> display_failed t = false ->
   exists m, fst out = Ok (false, m)).
Proof.
  intros (dw & Hdw & Hslot). cbv zeta.
  destruct (handle_consultation_request env faculty message course_code w)
    as [r w'] eqn:H.
  cbn [fst snd]. revert H. unfold handle_consultation_request.
  destruct dw; try discriminate; clear Hslot.
  all: run_all.
  all: intros [= <- <-].
  all: first [ rewrite trace_since_refl | trace_norm ].
  all: cbv [created reported refused display_failed is_error_report returned_truthy
            raised is_fn is_meth existsb target fst snd].
  all: repeat match goal with H : truthy _ = _ |- _ => rewrite H end.
  all: cbn.
  all: try (split; [split; [intros [=] | intros []; try discriminate]
                   | intros; try discriminate; eauto]).
  all: first [ done | eauto ].
Qed.
End Requests.

End MainFacts.
(** ** Symbolic runs *)
Module RunFacts.
Import Main.

Lemma grown_app (base es : history) : grown base es = base ++ es.
Proof.
  unfold grown. revert base.
  induction es as [|e es IH]; intros base; cbn; [by rewrite app_nil_r|].
  by rewrite IH, <- app_assoc.
Qed.

Lemma filter_none {T} (p : T -> bool) (l : list T) :
  existsb p l = false -> List.filter p l = [].
Proof.
  induction l as [|x l IH]; [done|]. cbn.
  destruct (p x); [done|]. exact IH.
Qed.

(** A value with a true attribute is an instance, and is itself true. *)
Lemma has_true_inv name v :
  has_true name v = true ->
  exists cls fields x, v = VObj cls fields /\ assoc name fields = Some x /\ truthy x = true.
Proof.
  destruct v; try discriminate. cbn.
  destruct (assoc name fields) as [x|] eqn:Ha; [|discriminate].
  intros Hx. by exists cls, fields, x.
Qed.

Lemma existsb_none {T} (p : T -> bool) (l : list T) :
  Forall (fun x => p x = false) l -> existsb p l = false.
Proof. induction 1 as [|x l Hx _ IH]; [done|]. cbn. by rewrite Hx, IH. Qed.

(** Runs of [tame] code, with the result and the world they end in. *)
Lemma tame_runs {S B} P R E (m : M S B) :
  tame P R E m ->
  forall w, exists r w' t,
    m w = (r, w') /\ log w' = log w ++ t /\ Forall P t /\ R (store w) (store w') /\
    match r with Ok _ => True | Raise e => E e end.
Proof.
  intros H w. destruct (H w) as (t & Hl & HP & HR & HE).
  destruct (m w) as [r w']. exists r, w', t. auto.
Qed.

Lemma trace_since_grown {S} (w : World S) (es : history) (s : S) :
  trace_since w (mkWorld (grown (log w) es) s) = es.
Proof. unfold trace_since. cbn [log]. rewrite grown_app. apply drop_app_length. Qed.

Section Objects.
Variable env : Env.
Context {S : Type}.

(** Only instances have methods and attributes. *)
Lemma call_method_no v m a :
  is_obj v = false -> @call_method env S v m a = attribute_error m.
Proof. by destruct v. Qed.

Lemma call_method_bool_no v m a :
  is_obj v = false -> @call_method_bool env S v m a = attribute_error m.
Proof. by destruct v. Qed.

Lemma bound_method_no v m :
  is_obj v = false -> @bound_method S v m = attribute_error m.
Proof. by destruct v. Qed.

Lemma getattr_no v n :
  is_obj v = false -> @getattr S v n = attribute_error n.
Proof. by destruct v. Qed.
End Objects.

Ltac appended l base acc :=
  lazymatch l with
  | base => acc
  | ?l' ++ [?e] => appended l' base (e :: acc)
  end.

(** Brings the entries a run appended into the open. *)
Ltac trace_open :=
  lazymatch goal with
  | |- context [trace_since ?w (mkWorld ?l ?s)] =>
      let es := appended l (log w) (@nil entry) in
      change (trace_since w (mkWorld l s)) with
        (trace_since w (mkWorld (grown (log w) es) s));
      rewrite (trace_since_grown w es s)
  | |- context [trace_since ?w ?w] => rewrite (trace_since_refl w)
  end.

(** Names the string literals of the goal, so that the runs carry names
    instead of texts. *)
Ltac name_strings :=
  repeat match goal with
    | |- context [String ?a ?b] =>
        let s := constr:(String a b) in
        let x := fresh "txt" in set (x := s)
    end.

(** Puts the texts back in the place of their names. *)
Ltac unname_strings :=
  repeat match goal with
    | x := _ : string |- _ => subst x
    end.

(** Splits on whether [v] is an instance. *)
Ltac obj_split v :=
  let Hv := fresh "Hobj" in
  destruct (is_obj v) eqn:Hv;
  [ destruct v; try discriminate Hv; clear Hv | ].

(** Runs the code call by call, on every path: splits on what the
    environment answers, on the attributes of [self] and on the shape and
    truth of the values that come back. *)
Ltac exec_split :=
  match goal with
  | H : attrs ?s !! ?n = _ |- context [attrs ?s !! ?n] => rewrite H
  | H : truthy ?v = _ |- context [truthy ?v] => rewrite H
  | H : assoc ?k ?d = _ |- context [assoc ?k ?d] => rewrite H
  | |- context [<[?a:=?x]> ?m !! ?a] => rewrite (lookup_insert_eq m a x)
  | |- context [<[?a:=?x]> ?m !! ?b] =>
      rewrite (lookup_insert_ne m a b x)
        by (let E := fresh in intros E; vm_compute in E; discriminate E)
  | H : is_obj ?v = false |- context [call_method ?e ?v ?m ?a] =>
      rewrite (call_method_no e v m a H)
  | H : is_obj ?v = false |- context [call_method_bool ?e ?v ?m ?a] =>
      rewrite (call_method_bool_no e v m a H)
  | H : is_obj ?v = false |- context [bound_method ?v ?m] =>
      rewrite (bound_method_no v m H)
  | H : is_obj ?v = false |- context [getattr ?v ?n] =>
      rewrite (getattr_no v n H)
  | |- context [call_method _ ?v _ _] =>
      first [ is_var v; obj_split v | cbv delta [call_method] ]
  | |- context [call_method_bool _ ?v _ _] =>
      first [ is_var v; obj_split v | cbv delta [call_method_bool] ]
  | |- context [bound_method ?v _] =>
      first [ is_var v; obj_split v | cbv delta [bound_method] ]
  | |- context [getattr ?v _] =>
      first [ is_var v; obj_split v | cbv delta [getattr] ]
  | |- context [match raises ?e ?h ?ev with _ => _ end] =>
      destruct (raises e h ev);
      [ | try (generalize (returns e h ev); intros ?);
          try (generalize (returns_bool e h ev); intros ?) ]
  | |- context [match attrs ?s !! ?n with _ => _ end] =>
      destruct (attrs s !! n) eqn:?
  | |- context [match ?v with VNone => _ | _ => _ end] =>
      is_var v; destruct v
  | |- context [match assoc ?k ?d with _ => _ end] =>
      destruct (assoc k d) eqn:?
  | |- context [if truthy ?v then _ else _] =>
      destruct (truthy v) eqn:?
  | |- context [if negb (truthy ?v) then _ else _] =>
      destruct (truthy v) eqn:?
  | |- context [if ?b then _ else _] =>
      is_var b; destruct b
  end.

Ltac exec :=
  repeat (cbv beta iota zeta delta
            [fst snd bind ret raise try_except record logger call call_bool
             call_giving call_ call_fn invoke attribute_error getattr_self
             setattr_self construct shown hide_if_present get_db
             get_async_mqtt_service negb];
          cbn [log store attrs services];
          try exec_split).

(** Writes the log of the world a run ended in as the first log and what
    was appended. *)
Ltac log_open :=
  lazymatch goal with
  | |- context [mkWorld (?l ++ [?e]) ?s] =>
      lazymatch l with
      | context [log ?w] =>
          let es := appended (l ++ [e]) (log w) (@nil entry) in
          change (l ++ [e]) with (grown (log w) es);
          rewrite (grown_app (log w) es)
      end
  end.

(** The same for a goal [l = log w ++ _]. *)
Ltac chain_open :=
  lazymatch goal with
  | |- ?l = log ?w ++ _ =>
      let es := appended l (log w) (@nil entry) in
      change l with (grown (log w) es);
      rewrite (grown_app (log w) es)
  end.

(** Sets the statement about a run [H] aside while the run is executed,
    and brings it back for the result and the world the run ended in. *)
Ltac hold_post H :=
  match type of H with
  | _ = (?r, ?w') =>
      pattern r, w';
      match goal with
      | |- ?F r w' => let post := fresh "post" in set (post := F)
      end;
      revert H
  end.

Ltac release_post :=
  intros [= <- <-];
  match goal with
  | |- ?post _ _ => subst post
  end;
  cbv beta; cbn [store log].

(** Steps over a block [f] of a symbolic run that leaves [self] alone,
    with what [Hf] knows of it. *)
Ltac pass f Hf :=
  match goal with
  | |- context [f ?W] =>
      let rs := fresh "rs" in
      let Ws := fresh "Ws" in
      let ts := fresh "ts" in
      let Hl := fresh "Hlog" in
      let HP := fresh "Hquiet" in
      let Hst := fresh "Hsame" in
      destruct (Hf W) as (rs & Ws & ts & -> & Hl & HP & Hst & _);
      cbn [log store] in Hl, Hst; destruct rs
  end.

(** The same for a block that raises nothing but exceptions. *)
Ltac block f Hf :=
  match goal with
  | |- context [f ?W] =>
      let rs := fresh "rs" in
      let Ws := fresh "Ws" in
      let ts := fresh "ts" in
      let Hl := fresh "Hlog" in
      let HP := fresh "Hquiet" in
      let HE := fresh "Hexn" in
      destruct (Hf W) as (rs & Ws & ts & -> & Hl & HP & _ & HE);
      cbn [log] in Hl; destruct rs; [ clear HE | destruct HE as [? ->] ]
  end.

(** The same for a function of one argument, an exception handler for
    instance. *)
Ltac after f Hf :=
  match goal with
  | |- context [f ?a ?W] =>
      let rs := fresh "rs" in
      let Ws := fresh "Ws" in
      let ts := fresh "ts" in
      let Hl := fresh "Hlog" in
      let HP := fresh "Hquiet" in
      destruct (Hf a W) as (rs & Ws & ts & -> & Hl & HP & _ & _);
      cbn [log] in Hl; destruct rs
  end.

(** Writes the trace of a run that passed over blocks as one list. *)
Ltac trace_flat :=
  unfold trace_since; cbn [log];
  repeat match goal with
    | H : log ?W = _ |- context [log ?W] => is_var W; rewrite H
    end;
  rewrite <- ?app_assoc, drop_app_length; cbn [app].

(** No entry of a trace made of known entries and of quiet blocks
    satisfies the test. *)
Ltac none_in_trace :=
  apply existsb_none;
  repeat first [ apply Forall_app; split
               | apply Forall_cons; split; [reflexivity|]
               | by apply Forall_nil
               | assumption ].

(** Finds the entries that come before a given end of a trace. *)
Ltac split_trace :=
  (exists []) + (eexists [_]) + (eexists [_; _]) + (eexists [_; _; _])
  + (eexists [_; _; _; _]) + (eexists [_; _; _; _; _])
  + (eexists [_; _; _; _; _; _]) + (eexists [_; _; _; _; _; _; _])
  + (eexists [_; _; _; _; _; _; _; _]) + (eexists [_; _; _; _; _; _; _; _; _])
  + (eexists [_; _; _; _; _; _; _; _; _; _])
  + (eexists [_; _; _; _; _; _; _; _; _; _; _])
  + (eexists [_; _; _; _; _; _; _; _; _; _; _; _]).

End RunFacts.
Import RunFacts.

(** ** main.py: start-up *)
Module StartupFacts.
Import Main MainFacts.

Section Accounts.
Variable env : Env.

(** X1.  [_emergency_admin_repair] never raises and changes nothing of
    [self]; it answers [True] only when its last step, looking the
    account up again, found an account with a password hash; and it
    creates an account at most once, right after the first lookup found
    none, with the default credentials and the obligation to change the
    password. *)
Theorem emergency_admin_repair_outcome (w : World App) :
  let out := _emergency_admin_repair env w in
  let t := trace_since w (snd out) in
  store (snd out) = store w /\
  (exists b, fst out = Ok b) /\
  (fst out = Ok true ->
   exists t0 ac admin,
     t = t0 ++ [(admin_lookup ac, Returned admin);
                logged "info" "Emergency admin repair successful"] /\
     has_true "password_hash" admin = true) /\
  (existsb (is_meth "create_admin") t = true ->
   exists ac found r t1,
     t = logged "info" "Performing emergency admin account repair"
         :: (admin_lookup ac, Returned found)
         :: logged "info" "Admin account not found, creating new account"
         :: (Call (Meth ac "create_admin") [] default_admin_kwargs, r) :: t1 /\
     truthy found = false /\
     existsb (is_meth "create_admin") t1 = false).
Proof.
  cbv zeta. destruct (_emergency_admin_repair env w) as [r w'] eqn:H.
  cbn [fst snd]. revert H.
  unfold _emergency_admin_repair, default_admin_kwargs, logged, admin_lookup.
  name_strings. exec.
  all: intros [= <- <-]; cbn [store log].
  all: trace_open.
  all: split; [by destruct w|].
  all: split; [eauto|].
  all: split; [ first [ by intros [=]
                      | intros _; split_trace; eexists _, _;
                        split; [reflexivity|]; cbn;
                        repeat match goal with H : _ = _ |- _ => rewrite H end;
                        reflexivity ] | ].
  all: intros Hc; vm_compute in Hc; try discriminate Hc.
  all: eexists _, _, _, _; split; [reflexivity|]; split; [assumption|reflexivity].
Qed.

(** A run of the repair, as the code that calls it sees it: it returns,
    it has announced itself once, at its start, and [self] is as it
    was. *)
Lemma emergency_admin_repair_runs (w : World App) :
  exists b t,
    _emergency_admin_repair env w
    = (Ok b, mkWorld (log w ++ logged "info" "Performing emergency admin account repair" :: t)
               (store w)) /\
    existsb (is_logged "info" "Performing emergency admin account repair") t = false.
Proof.
  unfold _emergency_admin_repair, default_admin_kwargs, logged.
  name_strings. exec.
  all: eexists _, _; split; [log_open; reflexivity | reflexivity].
Qed.

(** X2.  [_verify_admin_account_startup] always returns; it runs the
    emergency repair at most once; and when the account it looks up has
    a password hash and an email it does nothing more: the run ends
    after two log entries, without any other call. *)
Theorem verify_admin_account_startup_repairs (w : World App) :
  let out := _verify_admin_account_startup env w in
  let t := trace_since w (snd out) in
  fst out = Ok tt /\
  store (snd out) = store w /\
  (length (List.filter (is_logged "info" "Performing emergency admin account repair") t)
   <= 1)%nat /\
  (forall ac admin t1,
     t = logged "info" "Verifying admin account during startup"
         :: (admin_lookup ac, Returned admin) :: t1 ->
     has_true "password_hash" admin = true ->
     has_true "email" admin = true ->
     t1 = [logged "info" "Admin account exists, verifying integrity";
           logged "info" "Admin account verification successful"]).
Proof.
  cbv zeta. destruct (_verify_admin_account_startup env w) as [r w'] eqn:H.
  cbn [fst snd]. revert H.
  unfold _verify_admin_account_startup, default_admin_kwargs, logged, admin_lookup.
  pose proof emergency_admin_repair_runs as Hrep. unfold logged in Hrep.
  revert Hrep. generalize (_emergency_admin_repair env). intros repair Hrep.
  name_strings.
  repeat (exec;
          try match goal with
            | |- context [repair ?W] =>
                let b := fresh "b" in
                let tr := fresh "tr" in
                let Hr := fresh "Hr" in
                let Hn := fresh "Hn" in
                destruct (Hrep W) as (b & tr & Hr & Hn);
                rewrite Hr; clear Hr
            end).
  all: intros [= <- <-]; cbn [store].
  all: split; [reflexivity|].
  all: split; [by destruct w|].
  all: unname_strings.
  all: unfold trace_since; cbn [log]; rewrite <- ?app_assoc, drop_app_length.
  all: split;
    [ rewrite ?List.filter_app; cbn [List.filter];
      rewrite ?filter_none by assumption; vm_compute; lia | ].
  all: intros ac admin t1 Ht Hh He; cbn [app] in Ht.
  all: apply has_true_inv in Hh as (c1 & f1 & x1 & -> & Ha1 & Hx1).
  all: apply has_true_inv in He as (c2 & f2 & x2 & Heq & Ha2 & Hx2).
  all: simplify_eq; try discriminate.
  all: first [reflexivity | congruence].
Qed.

(** X3.  [_ensure_dr_john_smith_available] always returns and changes nothing
    of [self]; when the lookup finds the faculty member nothing else is
    done; and [create_faculty] is called at most once, right after a
    lookup that found nobody, for a member who is always available. *)
Theorem ensure_dr_john_smith_creates_when_missing (w : World App) :
  let out := _ensure_dr_john_smith_available env w in
  let t := trace_since w (snd out) in
  fst out = Ok tt /\
  store (snd out) = store w /\
  (forall fc found t1,
     t = (Call (Meth fc "get_faculty_by_name") [VStr "Dr. John Smith"] [], Returned found)
         :: t1 ->
     truthy found = true -> t1 = []) /\
  (existsb (is_meth "create_faculty") t = true ->
   exists fc found r t1,
     t = (Call (Meth fc "get_faculty_by_name") [VStr "Dr. John Smith"] [], Returned found)
         :: (Call (Meth fc "create_faculty") []
               [("name", VStr "Dr. John Smith"); ("department", VStr "Computer Science");
                ("ble_id", VStr "A1:B2:C3:D4:E5:F6"); ("always_available", VBool true)],
             r)
         :: t1 /\
     truthy found = false /\
     existsb (is_meth "create_faculty") t1 = false).
Proof.
  cbv zeta. destruct (_ensure_dr_john_smith_available env w) as [r w'] eqn:H.
  cbn [fst snd]. revert H. unfold _ensure_dr_john_smith_available.
  name_strings. exec.
  all: intros [= <- <-]; cbn [store log].
  all: trace_open.
  all: split; [reflexivity|].
  all: split; [by destruct w|].
  all: split; [ intros fc found t1 Ht Hf; simplify_eq; first [reflexivity | congruence] | ].
  all: intros Hc; vm_compute in Hc; try discriminate Hc.
  all: eexists _, _, _, _; split; [reflexivity|]; split; [assumption|reflexivity].
Qed.
End Accounts.

Section Bootstrap.
Variable env : Env.

(** X4.  Until [__init__] has assigned [self.login_window], the UI service
    cannot start: [_start_ui_service] answers [False], having created
    and shown no window; it reports the failure and leaves [self] as it
    was. *)
Theorem start_ui_service_before_windows (w : World App) :
  attrs_of w !! "login_window" = None ->
  exists msg,
    _start_ui_service env w
    = (Ok false,
       mkWorld (log w ++ [logged "info" "Showing login window";
                          logged "error" ("Failed to start UI service: " +:+ msg)])
         (store w)).
Proof.
  unfold _start_ui_service, show_login_window, logged.
  name_strings. intros Hlw. exec. eexists. log_open. reflexivity.
Qed.

(** The runs of [__init__], seen from the call of [is_first_time_setup]:
    either it never returned, or it returned [True] and no call after it
    touches the accounts, or it returned [False]; no call before it
    touches the accounts. *)
Lemma init_first_time_runs argv fullscreen w r w' :
  __init__ env argv fullscreen w = (r, w') ->
  exists t, log w' = log w ++ t /\
    (Forall (fun e => admin_idle e = true) t \/
     (exists t0 e0 t1, t = t0 ++ e0 :: t1 /\
        Forall (fun e => admin_idle e = true) t0 /\
        first_time_result e0 = Some true /\ touches_admin e0 = false /\
        Forall (fun e => admin_idle e = true) t1) \/
     (exists t0 e0 t1, t = t0 ++ e0 :: t1 /\
        Forall (fun e => admin_idle e = true) t0 /\
        first_time_result e0 = Some false /\
        Forall (fun e => first_time_result e = None) t1)).
Proof.
  intros H. unfold __init__ in H.
  assert (Hl : log w = log w ++ []) by (by rewrite app_nil_r).
  assert (HF : Forall (fun e => admin_idle e = true) []) by constructor.
  repeat (advance_in (fun e => admin_idle e = true) H Hl HF; [ | eauto ]).
  match goal with T : list entry |- _ =>
    match type of Hl with _ = _ ++ T => rename T into t0 end
  end.
  apply bind_inv in H as [(b & w1 & H1 & H) | (e & H1 & ->)];
    apply call_method_bool_inv in H1 as [(b' & Hb & E) | (e' & He & E)];
    try discriminate.
  - injection Hb as <-. rewrite Hl, <- app_assoc in E. destruct b.
    + cbv beta iota in H.
      eapply tame_run in H as (t1 & E1 & F1 & _ & _);
        [ | instantiate (1 := any_exn); instantiate (1 := anything);
            instantiate (1 := fun e => admin_idle e = true); tame_tac ].
      eexists. split; [rewrite E1, E, <- !app_assoc; reflexivity|].
      right; left. eexists _, _, _. split; [reflexivity|]. eauto.
    + eapply tame_run in H as (t1 & E1 & F1 & _ & _);
        [ | instantiate (1 := any_exn); instantiate (1 := anything);
            instantiate (1 := fun e => first_time_result e = None); tame_tac ].
      eexists. split; [rewrite E1, E, <- !app_assoc; reflexivity|].
      right; right. eexists _, _, _. split; [reflexivity|]. eauto.
  - destruct E as [E | (msg & E)]; rewrite Hl in E.
    + eauto.
    + rewrite <- app_assoc in E. eexists; split; [exact E|]. left.
      apply Forall_app; split; [done|]. repeat constructor.
Qed.

(** X5.  In a first-time setup [__init__] leaves the accounts alone: when
    [is_first_time_setup()] has returned [True], no call of the run —
    before or after it — reads or writes the administrators' accounts;
    and a run in which such a call is made is one in which
    [is_first_time_setup()] returned [False]. *)
Theorem init_first_time_setup_leaves_accounts argv fullscreen w :
  let out := __init__ env argv fullscreen w in
  let t := trace_since w (snd out) in
  (Exists (fun e => first_time_result e = Some true) t ->
     Forall (fun e => touches_admin e = false) t) /\
  (Exists (fun e => touches_admin e = true) t ->
     Exists (fun e => first_time_result e = Some false) t).
Proof.
  cbv zeta. destruct (__init__ env argv fullscreen w) as [r w'] eqn:H.
  apply init_first_time_runs in H as (t & E & H). cbn [fst snd].
  rewrite (trace_since_app _ _ _ E).
  assert (Hq : forall l, Forall (fun e => admin_idle e = true) l ->
               Forall (fun e => touches_admin e = false) l /\
               ~ Exists (fun e => touches_admin e = true) l /\
               ~ Exists (fun e => first_time_result e = Some true) l).
  { intros l Hl. rewrite !Exists_exists, !Forall_forall in *.
    assert (Hi : forall e, e ∈ l -> touches_admin e = false /\ first_time_result e = None).
    { intros e He. specialize (Hl e He). unfold admin_idle in Hl.
      apply andb_true_iff in Hl as [Ha Hb]. apply negb_true_iff in Ha.
      split; [done|]. by destruct (first_time_result e). }
    repeat split.
    - intros e He. by destruct (Hi e He).
    - intros (e & He & Hs). destruct (Hi e He). congruence.
    - intros (e & He & Hs). destruct (Hi e He). congruence. }
  destruct H as [H | [(t0 & e0 & t1 & -> & H0 & Hs & Ht & H1) |
                      (t0 & e0 & t1 & -> & H0 & Hs & H1)]].
  - destruct (Hq _ H) as (F & N1 & N2). split; intros; [done | contradiction].
  - destruct (Hq _ H0) as (F0 & N0 & _), (Hq _ H1) as (F1 & N1 & _).
    split.
    + intros _. apply Forall_app; split; [done|]. by constructor.
    + rewrite Exists_app, Exists_cons. intros [?|[He|?]]; try contradiction.
      congruence.
  - destruct (Hq _ H0) as (_ & _ & N0). split.
    + rewrite Exists_app, Exists_cons. intros [?|[He|He]]; try contradiction.
      * congruence.
      * rewrite Exists_exists in He. destruct He as (e & He & Hs').
        rewrite Forall_forall in H1. specialize (H1 e He). cbv beta in H1.
        congruence.
    + intros _. rewrite Exists_app, Exists_cons. auto.
Qed.

Lemma construct_ok {S} cls a kw (w w1 : World S) v :
  construct env cls a kw w = (Ok v, w1) -> v = VObj cls [] /\ store w1 = store w.
Proof.
  unfold construct, call_giving. destruct (raises env (log w) _); [discriminate|].
  by intros [= <- <-].
Qed.

Lemma call_giving_ok {S} ev x (w w1 : World S) v :
  call_giving env ev x w = (Ok v, w1) -> v = x /\ store w1 = store w.
Proof.
  unfold call_giving. destruct (raises env (log w) _); [discriminate|].
  by intros [= <- <-].
Qed.

(** With the coordinator in place the registration goes through. *)
Lemma register_system_services_ok (w w1 : World App) u :
  attrs_of w !! "system_coordinator" = Some coordinator ->
  _register_system_services w = (Ok u, w1) ->
  store w1 = mkApp (attrs_of w)
               (<[UI := registered UI]>
                  (<[MQTT := registered MQTT]>
                     (<[DATABASE := registered DATABASE]> (services_of w)))).
Proof.
  intros Hc. unfold _register_system_services, try_except, bind, getattr_self.
  rewrite Hc. cbn. destruct u. by intros [= <-].
Qed.

(** One statement further in a run of [__init__] that returns, keeping
    track of what [self] and the registry hold. *)
Ltac init_step H Hst :=
  let Hs := fresh "Hs" in
  let a := fresh "a" in
  let w1 := fresh "w" in
  apply bind_ok_inv in H as (a & w1 & Hs & H);
  first
    [ lazymatch type of Hs with setattr_self _ _ _ = _ => idtac end;
      unfold setattr_self in Hs; injection Hs as _ Hs;
      apply (f_equal store) in Hs; cbn [store] in Hs;
      rewrite Hst in Hs; cbn [attrs services] in Hs; symmetry in Hs
    | lazymatch type of Hs with construct _ _ _ _ _ = _ => idtac end;
      apply construct_ok in Hs as (-> & Hs); rewrite Hst in Hs
    | lazymatch type of Hs with call_giving _ _ _ _ = _ => idtac end;
      apply call_giving_ok in Hs as (-> & Hs); rewrite Hst in Hs
    | lazymatch type of Hs with _register_system_services _ = _ => idtac end;
      apply register_system_services_ok in Hs;
      [ rewrite Hst in Hs; cbn [attrs services] in Hs
      | rewrite Hst; cbn [attrs]; apply lookup_insert_eq ]
    | eapply (tame_run any_entry eq any_exn) in Hs as (_ & _ & _ & Hs & _);
      [ | solve [tame_tac; congruence] ];
      rewrite Hst in Hs; symmetry in Hs ];
  clear Hst; rename Hs into Hst; try clear a.

(** X6.  When [__init__] returns, [self] holds every attribute the other
    methods read: the application, the coordinator, the five
    controllers, the four windows (none created yet), no current
    student, the transition manager and the full-screen flag; its other
    attributes are as they were; and the three services are
    registered. *)
Theorem init_establishes_attributes argv fullscreen (w w' : World App) :
  __init__ env argv fullscreen w = (Ok tt, w') ->
  (forall n v, (n, v) ∈ initial_attrs fullscreen -> attrs_of w' !! n = Some v) /\
  outside (fst <$> initial_attrs fullscreen) (store w) (store w') /\
  (forall s, services_of w' !! s = Some (registered s)).
Proof.
  intros H. unfold __init__ in H.
  assert (Hst : store w = mkApp (attrs_of w) (services_of w)) by (by destruct w as [? []]).
  repeat init_step H Hst.
  unfold setattr_self in H. injection H as <-. cbn [store attrs services].
  rewrite Hst. cbn [attrs services]. clear.
  split; [|split].
  - intros n v Hin. unfold initial_attrs in Hin.
    repeat (apply elem_of_cons in Hin as [[= -> ->] | Hin]);
      [ .. | by apply elem_of_nil in Hin ].
    all: repeat first [ apply lookup_insert_eq | rewrite lookup_insert_ne by done ].
  - intros n Hn. cbn [attrs].
    rewrite !lookup_insert_ne; [reflexivity | ..].
    all: intros <-; apply Hn; cbn; set_solver.
  - intros []; repeat first [ apply lookup_insert_eq | rewrite lookup_insert_ne by done ].
Qed.
End Bootstrap.
End StartupFacts.
(** ** main.py: the handlers *)
Module HandlerFacts.
Import Main MainFacts.

Section Handlers.
Variable env : Env.




(** X8.  Without a student signed in, a consultation request is not
    answered with [(False, message)]: reading the student's id raises
    before the [try] block is entered, nothing is logged and
    [create_consultation] is not called. *)
Theorem consultation_request_without_student faculty message course_code
    (w : World App) cs :
  attrs_of w !! "current_student" = Some cs ->
  is_obj cs = false ->
  exists msg,
    handle_consultation_request env faculty message course_code w
    = (Raise (PyException msg), w).
Proof.
  intros Hcs Hobj. unfold handle_consultation_request, bind at 1, getattr_self.
  rewrite Hcs. unfold bind at 1. rewrite (getattr_no cs "id" Hobj).
  eexists. reflexivity.
Qed.

(** X9.  A consultation is requested at most once per call, as the first
    thing the handler does after logging the request, and in the name
    of the student who is signed in: with that student's id, the id of
    the faculty member, the message and the course code as they were
    given. *)
Theorem consultation_request_for_current_student faculty message course_code
    (w : World App) :
  let out := handle_consultation_request env faculty message course_code w in
  let t := trace_since w (snd out) in
  existsb (is_meth "create_consultation") t = true ->
  exists cs cc sid fid o t1,
    attrs_of w !! "current_student" = Some cs /\
    attrs_of w !! "consultation_controller" = Some cc /\
    getattr cs "id" w = (Ok sid, w) /\
    getattr faculty "id" w = (Ok fid, w) /\
    t = logged "info" ("Consultation request: " +:+ py_str sid +:+ " -> "
                       +:+ py_str fid +:+ " (" +:+ py_str course_code +:+ ")")
        :: (Call (Meth cc "create_consultation") []
              [("student_id", sid); ("faculty_id", fid);
               ("request_message", message); ("course_code", course_code)], o)
        :: t1 /\
    existsb (is_meth "create_consultation") t1 = false.
Proof.
  cbv zeta. destruct (handle_consultation_request env faculty message course_code w)
    as [r w'] eqn:H.
  cbn [fst snd]. hold_post H. unfold handle_consultation_request.
  match goal with
  | |- context [try_except _ ?h] =>
      assert (Hh : forall msg W, exists r W' t,
                 h msg W = (r, W') /\ log W' = log W ++ t /\
                 Forall (fun e => is_meth "create_consultation" e = false) t /\
                 store W = store W' /\
                 match r with Ok _ => True | Raise e => any_exn e end)
        by (intros msg; apply tame_runs; tame_tac; apply @eq_trans);
      revert Hh; generalize h; intros handler Hh
  end.
  match goal with
  | |- context [bind (getattr_self "dashboard_window") ?k] =>
      let m := constr:(bind (getattr_self "dashboard_window") k) in
      pose proof (tame_runs (fun e => is_meth "create_consultation" e = false)
                    eq is_exception m ltac:(tame_tac; apply @eq_trans)) as Hone;
      revert Hone; generalize m; intros one Hone
  end.
  match goal with
  | |- context [bind (getattr_self "dashboard_window") ?k] =>
      let m := constr:(bind (getattr_self "dashboard_window") k) in
      pose proof (tame_runs (fun e => is_meth "create_consultation" e = false)
                    eq is_exception m ltac:(tame_tac; apply @eq_trans)) as Htwo;
      revert Htwo; generalize m; intros two Htwo
  end.
  name_strings.
  repeat (exec; try first [block one Hone | block two Htwo | after handler Hh]).
  all: release_post.
  all: unname_strings.
  all: first [ trace_open | trace_flat ].
  all: unfold logged; intros Hc;
    first [ vm_compute in Hc; discriminate Hc
          | exfalso;
            match type of Hc with
            | ?x = true =>
                assert (Hn : x = false) by none_in_trace;
                rewrite Hn in Hc; discriminate Hc
            end
          | clear Hc ].
  all: eexists _, _, _, _, _, _.
  all: split; [first [eassumption | reflexivity]|].
  all: split; [first [eassumption | reflexivity]|].
  all: split; [cbn; by repeat match goal with H : assoc _ _ = _ |- _ => rewrite H end|].
  all: split; [cbn; by repeat match goal with H : assoc _ _ = _ |- _ => rewrite H end|].
  all: split; [reflexivity|].
  all: none_in_trace.
Qed.

Lemma read_only_tame {B} (m : A B) :
  tame any_entry eq any_exn m -> read_only m.
Proof. intros H w. destruct (H w) as (_ & _ & _ & Hs & _). by symmetry. Qed.

(** X10.  The handlers of requests and refreshes, the theme lookup, the
    service callables of the database and of MQTT read [self] and never
    write it: however they end, every attribute and the registry are as
    they were. *)
Theorem handlers_are_read_only faculty message course_code :
  read_only (handle_consultation_request env faculty message course_code) /\
  read_only (handle_faculty_updated env) /\
  read_only (_get_theme_preference env) /\
  read_only (_start_database_service env) /\
  read_only (_stop_database_service env) /\
  read_only (_check_database_health env) /\
  read_only (_start_mqtt_service env) /\
  read_only (_stop_mqtt_service env) /\
  read_only (_check_mqtt_health env).
Proof.
  repeat split; apply read_only_tame; tame_tac; congruence.
Qed.

(** Finishes the side conditions of a [tame] goal about [stays]. *)
Ltac stays_side :=
  unfold stays; intros; cbn [attrs];
  first [ assumption
        | apply lookup_insert_eq
        | rewrite lookup_insert_ne by done; assumption
        | eauto ].

Lemma show_dashboard_window_keeps_student sd :
  tame any_entry (stays "current_student" sd) any_exn (show_dashboard_window env sd).
Proof. tame_tac; stays_side. Qed.

(** X11.  A scan that comes with a student makes that student the current
    one before anything is displayed, and nothing undoes it: when
    [handle_rfid_scan] ends — also when showing the dashboard raised —
    [current_student] is the student of the scan. *)
Theorem rfid_scan_keeps_student_when_display_fails student uid (w : World App) :
  has_attr "id" student = true ->
  has_attr "name" student = true ->
  attrs_of (snd (handle_rfid_scan env student uid w)) !! "current_student"
  = Some student.
Proof.
  intros Hid Hname. destruct student as [| | | | | |cls fields|]; try discriminate.
  cbn in Hid, Hname.
  destruct (assoc "id" fields) as [sid|] eqn:Eid; [|discriminate].
  destruct (assoc "name" fields) as [name|] eqn:Ename; [|discriminate].
  clear Hid Hname.
  pose proof (show_dashboard_window_keeps_student (VObj cls fields)) as Hshow.
  unfold handle_rfid_scan, handle_student_authenticated.
  revert Hshow. generalize (show_dashboard_window env (VObj cls fields)).
  intros show Hshow. cbn [truthy].
  revert Eid Ename. name_strings. intros Eid Ename.
  exec.
  match goal with
  | |- context [show ?W] =>
      destruct (Hshow W) as (_ & _ & _ & Hkept & _);
      destruct (show W) as [[u|e] W']
  end.
  all: cbn [snd] in Hkept; exec; apply Hkept; apply lookup_insert_eq.
Qed.
End Handlers.
End HandlerFacts.
(** ** main.py: the session *)
Module SessionFacts.
Import Main Session MainFacts.

#[global] Hint Unfold run cleanup show_admin_login_window show_admin_dashboard_window
  handle_admin_authenticated handle_student_updated handle_password_changed
  handle_window_change sys_exit Migration.subscript : app.

Section Session.
Variable env : Env.

(** X12.  [cleanup] never raises and leaves [self] as it was.  It stops the
    RFID, faculty and consultation controllers, closes the database and
    disconnects MQTT, in this order, and gives up at the first step that
    fails: nothing follows a failure but its report, so what comes
    later in the list is left running.  It reports success exactly
    when all six calls returned. *)
Theorem cleanup_stops_at_first_failure (w : World App) :
  let out := cleanup env w in
  let t := trace_since w (snd out) in
  fst out = Ok tt /\
  store (snd out) = store w /\
  (callee_name <$> calls t)
    `prefix_of` ["stop"; "stop"; "stop"; "close_db"; "get_async_mqtt_service"; "disconnect"] /\
  (forall rc fc cc,
     attrs_of w !! "rfid_controller" = Some rc ->
     attrs_of w !! "faculty_controller" = Some fc ->
     attrs_of w !! "consultation_controller" = Some cc ->
     (fst <$> take 3 (calls t))
       `prefix_of` [Call (Meth rc "stop") [] []; Call (Meth fc "stop") [] [];
                    Call (Meth cc "stop") [] []]) /\
  (existsb raised t = true ->
   forallb is_error_report (after_first_raise t) = true) /\
  existsb (is_logged "info" "Cleanup completed successfully") t
  = negb (existsb raised t) && (length (calls t) =? 6)%nat.
Proof.
  cbv zeta. destruct (cleanup env w) as [r w'] eqn:H.
  cbn [fst snd]. revert H. unfold cleanup.
  name_strings. exec.
  all: intros [= <- <-]; cbn [store log].
  all: trace_open.
  all: unname_strings.
  all: split; [reflexivity|].
  all: split; [by destruct w|].
  all: split; [vm_compute; eexists; reflexivity|].
  all: split;
    [ intros rc fc cc Hrc Hfc Hcc; simplify_eq; vm_compute; eexists; reflexivity | ].
  all: split; [ intros Hc; vm_compute in Hc; first [discriminate Hc | reflexivity] | ].
  all: reflexivity.
Qed.

(** X13.  [handle_student_updated] never raises and writes nothing of [self]
    but [current_student]; and it replaces the current student only by
    a student record that [get_student_by_id] returned, asked after the
    dashboard window had answered that it is visible: when the lookup
    returns [None] the current student stays. *)
Theorem handle_student_updated_replaces_student (w : World App) :
  let out := handle_student_updated env w in
  let t := trace_since w (snd out) in
  fst out = Ok tt /\
  outside ["current_student"] (store w) (store (snd out)) /\
  services_of (snd out) = services_of w /\
  (attrs_of (snd out) !! "current_student" = attrs_of w !! "current_student" \/
   exists dw ac sid updated t1,
     t = logged "debug" "Student update triggered"
         :: (visible_call dw, Returned (VBool true))
         :: (Call (Meth ac "get_student_by_id") [sid] [], Returned updated) :: t1 /\
     truthy updated = true /\
     attrs_of (snd out) !! "current_student" = Some updated).
Proof.
  cbv zeta. destruct (handle_student_updated env w) as [r w'] eqn:H.
  cbn [fst snd]. revert H. unfold handle_student_updated, logged, visible_call.
  name_strings. exec.
  all: intros [= <- <-]; cbn [store log attrs services].
  all: trace_open.
  all: unname_strings.
  all: split; [reflexivity|].
  all: split; [ intros k Hk; cbn [attrs];
                first [ reflexivity | apply lookup_insert_ne; set_solver ] | ].
  all: split; [reflexivity|].
  all: first [ left; first [reflexivity | assumption]
             | right; eexists _, _, _, _, _; split; [reflexivity|];
               split; [assumption | apply lookup_insert_eq] ].
Qed.

Lemma show_login_window_runs :
  forall w : World App, exists r w' t,
    show_login_window env w = (r, w') /\ log w' = log w ++ t /\
    Forall any_entry t /\ anything (store w) (store w') /\
    match r with Ok _ => True | Raise e => is_exception e end.
Proof. apply tame_runs. tame_tac. Qed.

(** X14.  [run] does not return: it ends in an exception of the login window
    or of the event loop, or in [SystemExit] — and in [SystemExit] only
    after [exec_()] has returned, with the status [exec_()] gave. *)
Theorem run_never_returns (w : World App) :
  let out := run env w in
  let t := trace_since w (snd out) in
  (exists e, fst out = Raise e) /\
  (forall c, fst out = Raise (SystemExit c) ->
   exists app v t0,
     t = t0 ++ [(Call (Meth app "exec_") [] [], Returned v)] /\
     c = exit_status v).
Proof.
  cbv zeta. destruct (run env w) as [r w'] eqn:H.
  cbn [fst snd]. revert H. unfold run, sys_exit.
  pose proof show_login_window_runs as Hshow.
  revert Hshow. generalize (show_login_window env). intros show Hshow.
  name_strings. exec.
  match goal with
  | |- context [show ?W] =>
      destruct (Hshow W) as (rs & Ws & ts & -> & Hl & _ & _ & He)
  end.
  cbn [log] in Hl. destruct rs as [u|e]; cbn in He; exec.
  all: intros [= <- <-]; cbn [store log]; split; [eauto|].
  all: intros c Hc; try discriminate Hc.
  all: injection Hc as Hc.
  all: try (lazymatch type of He with
            | is_exception _ => destruct He as [msg ->]; discriminate Hc
            end).
  all: subst c.
  all: unfold trace_since; cbn [log]; rewrite Hl, <- !app_assoc, drop_app_length.
  all: rewrite app_assoc; eexists _, _, _; split; reflexivity.
Qed.

(** *** Windows are created once *)

Lemma keeps_windows_refl s : keeps_windows s s.
Proof. by intros n v _ H _. Qed.

Lemma keeps_windows_trans a b c :
  keeps_windows a b -> keeps_windows b c -> keeps_windows a c.
Proof. intros H1 H2 n v Hn Hv Ht. eauto. Qed.

Lemma keeps_windows_insert s n x :
  existsb (String.eqb n) window_attrs = false ->
  keeps_windows s (mkApp (<[n := x]> (attrs s)) (services s)).
Proof.
  intros Hn k v Hk Hv _. cbn. rewrite lookup_insert_ne; [done|].
  intros ->. apply not_true_iff_false in Hn. apply Hn.
  apply existsb_exists. exists k. split; [|apply String.eqb_refl].
  by apply list_elem_of_In.
Qed.

(** [if not self.w: self.w = ...] keeps the windows: it writes [self.w]
    only when it holds no window. *)
Lemma tame_unless_present {B} P E n (create : A unit) (rest : A B) :
  (forall msg, E (PyException msg)) ->
  tame P (outside [n]) E create ->
  tame P keeps_windows E rest ->
  tame P keeps_windows E
    (v <- getattr_self n ;;
     (if negb (truthy v) then create else ret tt) ;;
     rest).
Proof.
  intros HE Hc Hr w.
  match goal with |- context [bind ?a ?k w] => set (m := bind a k) end.
  destruct (attrs_of w !! n) as [v|] eqn:Hv.
  - destruct (truthy v) eqn:Ht.
    + assert (Hm : m w = rest w).
      { unfold m, bind, getattr_self, ret. by rewrite Hv, Ht. }
      rewrite Hm. apply Hr.
    + destruct (Hc w) as (t1 & E1 & F1 & R1 & X1).
      destruct (create w) as [[[]|e] w1] eqn:Hcw; cbn [fst snd] in *.
      * assert (Hm : m w = rest w1).
        { unfold m, bind, getattr_self. rewrite Hv, Ht. cbn [negb].
          by rewrite Hcw. }
        rewrite Hm.
        destruct (Hr w1) as (t2 & E2 & F2 & R2 & X2).
        exists (t1 ++ t2). rewrite E2, E1, <- app_assoc.
        split; [done|]. split; [by apply Forall_app|]. split; [|done].
        intros k x Hk Hx Hxt. apply R2; [done| |done].
        destruct (decide (k = n)) as [->|Hne]; [congruence|].
        rewrite R1; [done|]. by intros ?%list_elem_of_singleton.
      * assert (Hm : m w = (Raise e, w1)).
        { unfold m, bind, getattr_self. rewrite Hv, Ht. cbn [negb].
          by rewrite Hcw. }
        rewrite Hm. cbn [fst snd].
        exists t1. split; [done|]. split; [done|]. split; [|done].
        intros k x Hk Hx Hxt.
        destruct (decide (k = n)) as [->|Hne]; [congruence|].
        rewrite R1; [done|]. by intros ?%list_elem_of_singleton.
  - assert (Hm : m w = (Raise (PyException ("AttributeError: " +:+ n)), w)).
    { unfold m, bind, getattr_self. by rewrite Hv. }
    rewrite Hm. exists []. cbn. rewrite app_nil_r.
    split; [done|]. split; [done|]. split; [apply keeps_windows_refl | apply HE].
Qed.

(** Decomposes a goal about [keeps_windows] along the code. *)
Ltac keeps_side :=
  first [ apply keeps_windows_refl
        | apply keeps_windows_trans
        | intros; apply keeps_windows_insert; reflexivity ].

Ltac keeps_tac :=
  repeat first [ apply tame_unless_present | tame_step | keeps_side ].

Lemma preserves_windows_tame {B} (m : A B) :
  tame any_entry keeps_windows any_exn m -> preserves_windows m.
Proof. intros H w. by destruct (H w) as (_ & _ & _ & Hs & _). Qed.

(** X15.  A window is created once: no method of the application replaces a
    window that exists.  Whatever is asked of the application and
    however the call ends, each of the four window attributes that held
    a window still holds the same one. *)
Theorem windows_are_created_once :
  preserves_windows (show_login_window env) /\
  (forall student_data, preserves_windows (show_dashboard_window env student_data)) /\
  preserves_windows (show_admin_login_window env) /\
  (forall admin, preserves_windows (show_admin_dashboard_window env admin)) /\
  (forall window_name data, preserves_windows (handle_window_change env window_name data)) /\
  (forall student rfid_uid, preserves_windows (handle_rfid_scan env student rfid_uid)) /\
  (forall credentials, preserves_windows (handle_admin_authenticated env credentials)) /\
  (forall faculty message course_code,
     preserves_windows (handle_consultation_request env faculty message course_code)) /\
  preserves_windows (handle_faculty_updated env) /\
  preserves_windows (handle_student_updated env) /\
  preserves_windows (_start_ui_service env) /\
  preserves_windows (run env) /\
  preserves_windows (cleanup env).
Proof.
  repeat split; intros; apply preserves_windows_tame.
  all: keeps_tac.
Qed.

(** *** The dispatcher *)

(** X16.  [handle_window_change] creates no window but the one it is asked
    for; and asked for a name it does not know — any value but the four
    names — it calls nothing and changes nothing: the request and a
    warning are logged. *)
Theorem handle_window_change_dispatch window_name data (w : World App) :
  let out := handle_window_change env window_name data w in
  let t := trace_since w (snd out) in
  Forall (fun e => creates_other (window_class window_name) e = false) t /\
  (window_class window_name = None ->
   out = (Ok tt,
          mkWorld (log w ++ [logged "info" ("Window change requested: "
                                            +:+ py_str window_name);
                             logged "warning" ("Unknown window: "
                                               +:+ py_str window_name)])
            (store w))).
Proof.
  cbv zeta. unfold handle_window_change, window_class.
  destruct (eq_str "login" window_name);
    [ | destruct (eq_str "dashboard" window_name);
        [ | destruct (eq_str "admin_login" window_name);
            [ | destruct (eq_str "admin_dashboard" window_name) ] ] ].
  1-4: split; [|discriminate].
  1-4: match goal with
       | |- Forall ?P (trace_since ?w0 (snd (?m ?w0))) =>
           destruct (tame_runs P anything any_exn m ltac:(tame_tac) w0)
             as (r & w' & t & -> & Hl & HP & _)
       end;
       cbn [snd]; by rewrite (trace_since_app _ _ _ Hl).
  split.
  - unfold bind, logger, record. cbn [snd].
    erewrite trace_since_app by (cbn [log]; rewrite <- app_assoc; reflexivity).
    by repeat constructor.
  - intros _. unfold bind, logger, record, logged. cbn [log store].
    by rewrite <- app_assoc.
Qed.

(** *** The administrator's windows *)

(** One statement further in a run that returns, all entries so far
    satisfying [P]. *)
Ltac walk P H Hl HF :=
  eapply (advance P) in H; [ | solve [tame_tac] | exact Hl | exact HF ];
  clear Hl HF;
  destruct H as [(? & ? & ? & H & Hl & HF) | (? & _ & _ & ? & [=])].

(** X17.  When [show_admin_login_window] returns it has asked
    [is_first_time_setup()] once, as its last question, and has shown
    the first-time-setup dialog of the admin login window exactly when
    the answer was [True]. *)
Theorem show_admin_login_window_first_time (w w' : World App) :
  show_admin_login_window env w = (Ok tt, w') ->
  exists t0 ac first_time t1,
    trace_since w w'
    = t0 ++ (Call (Meth ac "is_first_time_setup") [] [], Returned (VBool first_time)) :: t1 /\
    Forall (fun e => setup_idle e = true) t0 /\
    if first_time then
      exists alw r,
        attrs_of w' !! "admin_login_window" = Some alw /\
        t1 = [logged "info" "This is a first-time setup, showing admin creation dialog";
              (Call (Meth alw "show_first_time_setup") [] [], Returned r);
              logged "info" "Admin login window shown"]
    else t1 = [logged "info" "Admin login window shown"].
Proof.
  intros H. unfold show_admin_login_window in H.
  assert (Hl : log w = log w ++ []) by (by rewrite app_nil_r).
  assert (HF : Forall (fun e => setup_idle e = true) []) by constructor.
  repeat walk (fun e => setup_idle e = true) H Hl HF.
  match goal with T : list entry |- _ =>
    match type of Hl with _ = _ ++ T => rename T into t0 end
  end.
  apply bind_ok_inv in H as (b & w1 & H1 & H).
  apply call_method_bool_inv in H1 as [(b' & [= <-] & E) | (e' & [=] & _)].
  match type of E with
  | context [Call (Meth ?v _) _ _] => exists t0, v, b
  end.
  revert H. unfold logged. destruct b.
  - name_strings. exec.
    all: intros [= <-]; cbn [store attrs].
    all: eexists; split;
      [ unfold trace_since; cbn [log]; rewrite E, Hl, <- !app_assoc, drop_app_length;
        reflexivity | ].
    all: split; [done|]. all: eexists _, _; split; [eassumption | reflexivity].
  - name_strings. exec.
    intros [= <-]. eexists; split;
      [ unfold trace_since; cbn [log]; rewrite E, Hl, <- !app_assoc, drop_app_length;
        reflexivity | ].
    split; [done | reflexivity].
Qed.

(** The statements of [show_admin_dashboard_window] that hand the
    administrator to the window. *)
Lemma set_admin_ok admin (w w1 : World App) u :
  (if truthy admin then
     adw <- getattr_self "admin_dashboard_window" ;;
     call_method env adw "set_admin" [admin] ;;
     force <- getattr admin "force_change_password" ;;
     if truthy force then
       logger "info" "Admin needs to change password, showing password change dialog" ;;
       call_ env (Call (Fn "QTimer.singleShot")
                    [VInt 500; password_change_lambda admin] [])
     else ret tt
   else ret tt) w = (Ok u, w1) ->
  exists tm, log w1 = log w ++ tm /\
    if has_true "force_change_password" admin then
      exists adw r1 r2,
        tm = [(Call (Meth adw "set_admin") [admin] [], Returned r1);
              logged "info" "Admin needs to change password, showing password change dialog";
              (password_timer admin, Returned r2)]
    else Forall (fun e => is_fn "QTimer.singleShot" e = false) tm.
Proof.
  unfold logged, password_timer, has_true. destruct u.
  destruct (truthy admin) eqn:Ht.
  - name_strings. exec.
    all: intros [= <-]; cbn [log].
    all: eexists; split; [chain_open; reflexivity|].
    all: repeat match goal with H : _ = _ |- _ => rewrite H end.
    all: first [ eexists _, _, _; reflexivity | by repeat constructor ].
  - intros [= <-]. exists []. split; [by rewrite app_nil_r|].
    by destruct admin.
Qed.

(** X18.  When [show_admin_dashboard_window] returns, the administrator has
    been asked to change the password exactly when the account says so:
    if [admin.force_change_password] is true the password dialog was
    scheduled, 500 ms on and for this administrator, right after the
    window received the administrator; otherwise no timer was set. *)
Theorem show_admin_dashboard_window_password_dialog admin (w w' : World App) :
  show_admin_dashboard_window env admin w = (Ok tt, w') ->
  if has_true "force_change_password" admin then
    exists t0 adw r1 r2 t1,
      trace_since w w'
      = t0 ++ [(Call (Meth adw "set_admin") [admin] [], Returned r1);
               logged "info" "Admin needs to change password, showing password change dialog";
               (password_timer admin, Returned r2)] ++ t1 /\
      Forall (fun e => is_fn "QTimer.singleShot" e = false) t0 /\
      Forall (fun e => is_fn "QTimer.singleShot" e = false) t1
  else Forall (fun e => is_fn "QTimer.singleShot" e = false) (trace_since w w').
Proof.
  intros H. unfold show_admin_dashboard_window in H.
  assert (Hl : log w = log w ++ []) by (by rewrite app_nil_r).
  assert (HF : Forall (fun e => is_fn "QTimer.singleShot" e = false) []) by constructor.
  do 4 walk (fun e => is_fn "QTimer.singleShot" e = false) H Hl HF.
  match goal with T : list entry |- _ =>
    match type of Hl with _ = _ ++ T => rename T into t0 end
  end.
  apply bind_ok_inv in H as (u & w1 & H1 & H).
  apply set_admin_ok in H1 as (tm & E1 & Hm).
  eapply (tame_run (fun e => is_fn "QTimer.singleShot" e = false) anything any_exn)
    in H as (t1 & E2 & F2 & _); [ | solve [tame_tac] ].
  assert (E : trace_since w w' = t0 ++ tm ++ t1).
  { apply trace_since_app. by rewrite E2, E1, Hl, <- !app_assoc. }
  rewrite E. destruct (has_true "force_change_password" admin).
  - destruct Hm as (adw & r1 & r2 & ->). by exists t0, adw, r1, r2, t1.
  - by rewrite !Forall_app.
Qed.

(** *** The administrator's sign-in *)

Lemma show_admin_dashboard_window_runs admin :
  forall w : World App, exists r w' t,
    show_admin_dashboard_window env admin w = (r, w') /\ log w' = log w ++ t /\
    Forall (fun e => is_error_report e = false) t /\ anything (store w) (store w') /\
    match r with Ok _ => True | Raise e => is_exception e end.
Proof. apply tame_runs. tame_tac. Qed.

(** Steps over a call of [f] in a symbolic run, with what [Hf] knows of
    it. *)
Ltac meet f Hf :=
  match goal with
  | |- context [f ?a ?W] =>
      let rs := fresh "rs" in
      let Ws := fresh "Ws" in
      let ts := fresh "ts" in
      let Hl := fresh "Hlog" in
      let HP := fresh "Hquiet" in
      let HE := fresh "Hexn" in
      destruct (Hf a W) as (rs & Ws & ts & -> & Hl & HP & _ & HE);
      cbn [log] in Hl; destruct rs;
      [ clear HE | destruct HE as [? ->] ]
  end.

(** X19.  [handle_admin_authenticated] answers with a pair, unless the
    credentials hold no user name (then it raises before doing
    anything).  It answers [True] only when [authenticate_admin]
    returned an account and nothing failed afterwards; and as long as
    [authenticate_admin] has not returned an account nothing is done
    with the windows or with [self]: the run consists of log entries
    and, at most, the call of [authenticate_admin]. *)
Theorem handle_admin_authenticated_outcome credentials (w : World App) :
  let out := handle_admin_authenticated env credentials w in
  let t := trace_since w (snd out) in
  ((exists b m, fst out = Ok (b, m)) \/
   (snd out = w /\ exists msg, fst out = Raise (PyException msg))) /\
  (forall m, fst out = Ok (true, m) ->
     m = "Authentication successful" /\ authenticated t = true /\ reported t = false) /\
  (authenticated t = false ->
     store (snd out) = store w /\
     forallb (fun e => is_logger e || is_meth "authenticate_admin" e) t = true).
Proof.
  cbv zeta. destruct (handle_admin_authenticated env credentials w) as [r w'] eqn:H.
  cbn [fst snd]. revert H.
  unfold handle_admin_authenticated, Migration.subscript.
  assert (Hshow := show_admin_dashboard_window_runs).
  revert Hshow. generalize (show_admin_dashboard_window env). intros show Hshow.
  name_strings. exec.
  all: try meet show Hshow.
  all: exec.
  all: intros [= <- <-]; cbn [store log].
  all: unname_strings.
  all: first [ trace_open
             | unfold trace_since; cbn [log];
               rewrite Hlog, <- !app_assoc, drop_app_length; cbn [app] ].
  all: split; [ first [ left; eexists _, _; reflexivity
                      | right; split; [by destruct w | eexists; reflexivity] ] | ].
  all: assert (Hauth : forall e1 e2 rest,
                 is_meth "authenticate_admin" e2 && returned_truthy e2 = true ->
                 authenticated (e1 :: e2 :: rest) = true)
    by (intros e1 e2 rest He2; unfold authenticated; cbn [existsb];
        rewrite He2; apply orb_true_r).
  all: split.
  all: first
    [ (* the answer *)
      intros m Hm;
      first [ discriminate Hm
            | injection Hm as <-; split; [reflexivity|];
              split; [ by apply Hauth | ];
              unfold reported; apply existsb_none;
              repeat first [ apply Forall_cons; split; [reflexivity|]
                           | apply Forall_app; split; [assumption|]
                           | by apply Forall_nil ] ]
    | (* before an account is returned *)
      intros Hc;
      first [ split; [reflexivity | vm_compute; reflexivity]
            | exfalso; apply not_true_iff_false in Hc; apply Hc; by apply Hauth ] ].
Qed.
End Session.
End SessionFacts.

(** ** The migration *)
Module MigrationFacts.
Import Migration.

Section Upgrade.
Variable env : Env.

Lemma names_column_info {S} (cols : list Column) (w : World S) :
  names (map column_info cols) w = (Ok (map (fun c => VStr (col_name c)) cols), w).
Proof.
  induction cols as [|c cols IH]; [done|].
  change (names (map column_info (c :: cols)) w)
    with (bind (subscript (column_info c) "name")
            (fun n => bind (names (map column_info cols))
                        (fun ns => ret (n :: ns))) w).
  unfold bind, subscript, column_info, ret. cbn -[names].
  unfold column_info in IH. rewrite IH. reflexivity.
Qed.

Lemma str_in_names name (cols : list Column) :
  str_in name (map (fun c => VStr (col_name c)) cols) = has_column name cols.
Proof.
  unfold str_in, has_column. induction cols as [|c cols IH]; [done|].
  cbn. by rewrite IH.
Qed.

Lemma has_column_app name (cols cols' : list Column) :
  has_column name (cols ++ cols') = has_column name cols || has_column name cols'.
Proof. unfold has_column. apply existsb_app. Qed.

Lemma has_column_snoc name (cols : list Column) c :
  has_column name (cols ++ [c]) = has_column name cols || String.eqb name (col_name c).
Proof. rewrite has_column_app. unfold has_column at 2. cbn. by rewrite orb_false_r. Qed.

(** Runs the migration call by call, on every path. *)
Ltac run_upgrade :=
  repeat (cbv beta iota zeta delta
            [fst snd bind ret raise try_except record logger call call_fn
             attribute_error get_columns add_column iterate col_name col_type
             nullable negb];
          cbn [log store];
          rewrite ?names_column_info, ?str_in_names, ?lookup_insert_eq,
            ?has_column_snoc;
          cbn [col_name String.eqb Ascii.eqb Bool.eqb orb];
          try match goal with
            | H : ?s !! ?n = _ |- context [?s !! ?n] => rewrite H
            | H : has_column ?n ?c = _ |- context [has_column ?n ?c] => rewrite H
            | |- context [match raises ?e ?h ?ev with _ => _ end] =>
                destruct (raises e h ev);
                [ | try (generalize (returns e h ev); intros ?) ]
            | |- context [match ?s !! ?n with _ => _ end] =>
                destruct (s !! n) eqn:?
            | |- context [match ?v with VNone => _ | _ => _ end] =>
                is_var v; destruct v
            | |- context [if negb (has_column ?n ?c) then _ else _] =>
                destruct (has_column n c) eqn:?
            | |- context [if has_column ?n ?c then _ else _] =>
                destruct (has_column n c) eqn:?
            end).

(** What one run of [upgrade] does to the schema: it never raises; it
    touches the [consultations] table only, adding at its end the missing
    columns in order and stopping at the first failure; it answers [True]
    exactly when no call raised, and then all the missing columns are
    there. *)
Lemma upgrade_run (w : World Schema) :
  let out := upgrade env w in
  exists b, fst out = Ok b /\
    (b = clean w (snd out)) /\
    match store w !! "consultations" with
    | None => store (snd out) = store w /\ b = false
    | Some cols =>
        exists added,
          store (snd out) = <["consultations" := cols ++ added]> (store w) /\
          added `prefix_of` missing cols /\
          (b = true -> added = missing cols)
    end.
Proof.
  cbv zeta. destruct (upgrade env w) as [r w'] eqn:H. cbn [fst snd].
  revert H. unfold upgrade, clean.
  run_upgrade.
  all: intros Hrun; apply pair_equal_spec in Hrun as [<- <-]; cbn [store log].
  all: eexists; split; [reflexivity|].
  all: split; [trace_norm; reflexivity|].
  all: try (split; done).
  all: unfold missing, response_columns; cbn [List.filter col_name];
    repeat match goal with
      | H : has_column _ _ = _ |- _ => rewrite H
      end; cbn [negb].
  all: rewrite ?insert_insert_eq, <- ?app_assoc; cbn [app].
  all: first [ eexists; split; [reflexivity|]
             | exists []; split; [by rewrite app_nil_r, insert_id|] ].
  all: split; [ first [ apply prefix_nil | reflexivity | by eexists [_] ]
              | intros; first [ discriminate | reflexivity ] ].
Qed.
Lemma missing_after (cols : list Column) : missing (cols ++ missing cols) = [].
Proof.
  unfold missing, response_columns. cbn [List.filter col_name].
  rewrite !has_column_app.
  destruct (has_column "declined_at" cols) eqn:Hd,
           (has_column "response_message" cols) eqn:Hr; cbn; reflexivity.
Qed.

(** C10, as the code has it.  [upgrade()] never raises and answers
    [True] exactly when no step threw; it adds [declined_at] and
    [response_message] to the [consultations] table only where the table
    lacks them, in this order, and stops at the first step that throws;
    after a run that answered [True] a second run leaves every table
    with the columns it had. *)
Theorem upgrade_idempotent (w : World Schema) :
  let once := upgrade env w in
  let twice := upgrade env (snd once) in
  (exists b, fst once = Ok b /\ b = clean w (snd once)) /\
  match store w !! "consultations" with
  | None => store (snd once) = store w
  | Some cols =>
      exists added,
        store (snd once) = <["consultations" := cols ++ added]> (store w) /\
        added `prefix_of` missing cols /\
        (fst once = Ok true -> added = missing cols)
  end /\
  (fst once = Ok true -> store (snd twice) = store (snd once)).
Proof.
  cbv zeta.
  destruct (upgrade_run w) as (b & Hb & Hclean & Hstore).
  destruct (upgrade_run (snd (upgrade env w))) as (b' & Hb' & _ & Hstore').
  split; [eauto|].
  destruct (store w !! "consultations") as [cols|] eqn:Hcols.
  - destruct Hstore as (added & Hs & Hp & Hall).
    split.
    { exists added. split; [done|]. split; [done|].
      intros Ht. rewrite Hb in Ht. injection Ht as ->. auto. }
    intros Ht. rewrite Hb in Ht. injection Ht as ->.
    rewrite (Hall eq_refl) in Hs.
    rewrite Hs, lookup_insert_eq in Hstore'.
    destruct Hstore' as (added' & Hs' & Hp' & _).
    rewrite missing_after in Hp'. apply prefix_nil_inv in Hp' as ->.
    rewrite app_nil_r in Hs'. rewrite Hs', Hs. apply insert_insert_eq.
  - destruct Hstore as (Hs & ->). split; [done|].
    intros Ht. rewrite Hb in Ht. discriminate.
Qed.
End Upgrade.
End MigrationFacts.
(** ** The migration: [downgrade] and [main] *)
Module RollbackFacts.
Import Migration Rollback MigrationFacts.

(** Runs the migration call by call, on every path. *)
Ltac exec_db :=
  repeat (cbv beta iota zeta delta
            [fst snd bind ret raise try_except record logger call call_fn
             attribute_error get_columns add_column drop_column iterate col_name
             col_type nullable negb upgrade downgrade];
          cbn [log store];
          rewrite ?names_column_info, ?str_in_names, ?lookup_insert_eq,
            ?has_column_snoc;
          cbn [col_name String.eqb Ascii.eqb Bool.eqb orb];
          try match goal with
            | H : ?s !! ?n = _ |- context [?s !! ?n] => rewrite H
            | H : has_column ?n ?c = _ |- context [has_column ?n ?c] => rewrite H
            | |- context [match raises ?e ?h ?ev with _ => _ end] =>
                destruct (raises e h ev);
                [ | try (generalize (returns e h ev); intros ?) ]
            | |- context [match ?s !! ?n with _ => _ end] =>
                destruct (s !! n) eqn:?
            | |- context [match ?v with VNone => _ | _ => _ end] =>
                is_var v; destruct v
            | |- context [if negb (has_column ?n ?c) then _ else _] =>
                destruct (has_column n c) eqn:?
            | |- context [if has_column ?n ?c then _ else _] =>
                destruct (has_column n c) eqn:?
            end).

Lemma has_column_without name other (cols : list Column) :
  String.eqb other name = false ->
  has_column name (without other cols) = has_column name cols.
Proof.
  intros Hne. unfold has_column, without.
  induction cols as [|c cols IH]; [done|]. cbn.
  destruct (String.eqb_spec other (col_name c)) as [<-|_]; cbn.
  - rewrite IH. rewrite String.eqb_sym, Hne. done.
  - by rewrite IH.
Qed.

Lemma without_absent name (cols : list Column) :
  has_column name cols = false -> without name cols = cols.
Proof.
  unfold has_column, without.
  induction cols as [|c cols IH]; [done|]. cbn.
  intros [Hc Hr]%orb_false_iff. rewrite Hc. cbn. by rewrite IH.
Qed.

Section Rollback.
Variable env : Env.

(** X20.  [downgrade] never raises and answers [True] exactly when no step
    threw.  It drops [declined_at], then [response_message], without
    looking whether they exist, and gives up at the first step that
    throws: when the first drop fails the second is not attempted. *)
Theorem downgrade_stops_at_first_failure (w : World Schema) :
  let out := downgrade env w in
  let t := trace_since w (snd out) in
  (exists b, fst out = Ok b /\ b = clean w (snd out)) /\
  (fst <$> calls t) `prefix_of` [drop_call "declined_at"; drop_call "response_message"] /\
  (length (calls t) = 2%nat \/ existsb raised t = true) /\
  (existsb raised t = true ->
   forallb is_error_report (after_first_raise t) = true).
Proof.
  cbv zeta. destruct (downgrade env w) as [r w'] eqn:H. cbn [fst snd].
  revert H. unfold drop_call, clean. exec_db.
  all: intros [= <- <-]; cbn [store log].
  all: trace_open.
  all: split; [eexists; split; reflexivity|].
  all: split; [vm_compute; eexists; reflexivity|].
  all: split; [vm_compute; auto|].
  all: intros Hc; vm_compute in Hc; first [discriminate Hc | reflexivity].
Qed.

(** What one run of [downgrade] does to the schema. *)
Lemma downgrade_run (w : World Schema) :
  let out := downgrade env w in
  exists b, fst out = Ok b /\
    match store w !! "consultations" with
    | None => store (snd out) = store w /\ b = false
    | Some cols =>
        (b = true ->
         has_column "declined_at" cols = true /\
         has_column "response_message" cols = true /\
         store (snd out)
         = <["consultations" := without "response_message" (without "declined_at" cols)]>
             (store w)) /\
        (has_column "declined_at" cols = false ->
         b = false /\ store (snd out) = store w)
    end.
Proof.
  cbv zeta. destruct (downgrade env w) as [r w'] eqn:H. cbn [fst snd].
  revert H.
  destruct (store w !! "consultations") as [cols|] eqn:Hcols.
  - pose proof (has_column_without "response_message" "declined_at" cols eq_refl) as Hw.
    exec_db.
    all: rewrite ?Hw.
    all: exec_db.
    all: intros [= <- <-]; cbn [store log].
    all: eexists; split; [reflexivity|].
    all: split; [ intros Hb; try discriminate Hb | intros Hd; try discriminate Hd ].
    all: rewrite ?insert_insert_eq.
    all: try (split; [reflexivity | split; [congruence | reflexivity]]).
    all: try (split; [reflexivity|]; reflexivity).
    all: try congruence.
  - exec_db.
    all: intros [= <- <-]; cbn [store log].
    all: eexists; split; [reflexivity|]. all: by split.
Qed.

(** X21.  [downgrade] is not guarded as [upgrade] is.  It answers [True] only
    when the table had both columns, and then it has removed exactly
    these two, from the [consultations] table and from no other; on a
    table that lacks [declined_at] it answers [False] and removes
    nothing, [response_message] included. *)
Theorem downgrade_drops_both_or_fails (w : World Schema) cols :
  store w !! "consultations" = Some cols ->
  let out := downgrade env w in
  (fst out = Ok true ->
   has_column "declined_at" cols = true /\
   has_column "response_message" cols = true /\
   store (snd out)
   = <["consultations" := without "response_message" (without "declined_at" cols)]>
       (store w)) /\
  (has_column "declined_at" cols = false ->
   fst out = Ok false /\ store (snd out) = store w).
Proof.
  intros Hcols. cbv zeta.
  destruct (downgrade_run w) as (b & Hb & Hrun). rewrite Hcols in Hrun.
  destruct Hrun as [Hyes Hno]. rewrite Hb. split.
  - intros [= ->]. auto.
  - intros Hd. destruct (Hno Hd) as [-> Hs]. auto.
Qed.

(** X22.  Upgrading a table that has neither column and downgrading it again
    gives the schema back as it was: when both runs answer [True] every
    table has the columns it had, in the order it had them. *)
Theorem upgrade_then_downgrade_restores (w : World Schema) cols :
  store w !! "consultations" = Some cols ->
  has_column "declined_at" cols = false ->
  has_column "response_message" cols = false ->
  let up := upgrade env w in
  let down := downgrade env (snd up) in
  fst up = Ok true -> fst down = Ok true ->
  store (snd down) = store w.
Proof.
  intros Hcols Hd Hr. cbv zeta. intros Hup Hdown.
  destruct (upgrade_run env w) as (b & Hb & _ & Hrun).
  rewrite Hcols in Hrun. destruct Hrun as (added & Hs & _ & Hall).
  rewrite Hb in Hup. injection Hup as ->. rewrite (Hall eq_refl) in Hs.
  assert (Hm : missing cols = response_columns).
  { unfold missing, response_columns. cbn [List.filter col_name].
    by rewrite Hd, Hr. }
  rewrite Hm in Hs. unfold response_columns in Hs.
  destruct (downgrade_run (snd (upgrade env w))) as (b' & Hb' & Hrun').
  rewrite Hs, lookup_insert_eq in Hrun'. destruct Hrun' as [Hyes _].
  rewrite Hb' in Hdown. injection Hdown as ->.
  destruct (Hyes eq_refl) as (_ & _ & ->).
  rewrite insert_insert_eq.
  assert (Hback : without "response_message"
                    (without "declined_at"
                       (cols ++ [mkColumn "declined_at" "DateTime" true;
                                 mkColumn "response_message" "String" true]))
                  = cols).
  { unfold without at 2. rewrite List.filter_app. fold (without "declined_at" cols).
    rewrite (without_absent _ _ Hd). cbn.
    unfold without. rewrite List.filter_app. fold (without "response_message" cols).
    rewrite (without_absent _ _ Hr). cbn. apply app_nil_r. }
  rewrite Hback. by apply insert_id.
Qed.

(** X23.  [main] never raises.  It answers 0 exactly when the migration it
    ran went through without a failure, 1 otherwise; and it runs the
    downgrade only when the first argument is exactly ['downgrade']:
    with no argument or any other one it upgrades, and drops
    nothing. *)
Theorem main_exit_status argv (w : World Schema) :
  let out := main env argv w in
  let t := trace_since w (snd out) in
  fst out = Ok (if clean w (snd out) then 0 else 1) /\
  (argv !! 1%nat = Some "downgrade" ->
   existsb (is_fn "op.add_column") t = false /\
   existsb (is_fn "get_db_engine") t = false) /\
  (argv !! 1%nat <> Some "downgrade" ->
   existsb (is_fn "op.drop_column") t = false).
Proof.
  cbv zeta. destruct (main env argv w) as [r w'] eqn:H. cbn [fst snd].
  revert H. unfold main, clean.
  assert (Hcond : (1 <? length argv)%nat
                  && match argv !! 1%nat with
                     | Some a => String.eqb a "downgrade"
                     | None => false
                     end
                  = bool_decide (argv !! 1%nat = Some "downgrade")).
  { destruct argv as [|a0 [|a1 rest]]; cbn; try done.
    destruct (String.eqb_spec a1 "downgrade") as [->|Hne].
    - by rewrite bool_decide_eq_true_2.
    - rewrite bool_decide_eq_false_2; [done|]. by intros [= ->]. }
  rewrite Hcond. clear Hcond.
  destruct (bool_decide_reflect (argv !! 1%nat = Some "downgrade")) as [Harg|Harg].
  - exec_db.
    all: intros [= <- <-]; cbn [store log].
    all: trace_open.
    all: split; [reflexivity|].
    all: split; [intros _; split; reflexivity | intros Hn; contradiction].
  - exec_db.
    all: intros [= <- <-]; cbn [store log].
    all: trace_open.
    all: split; [reflexivity|].
    all: split; [intros Hn; contradiction | intros _; reflexivity].
Qed.
End Rollback.
End RollbackFacts.

(** ** The sample run, checked against the theorems *)
Module SampleFacts.
Import Main Sample MainFacts HandlerFacts MigrationFacts.

(** The registry after start-up holds the three services, and nothing else. *)
Lemma register_system_services_three_witness :
  attrs_of with_coordinator !! "system_coordinator" = Some coordinator /\
  dom (services_of (snd (_register_system_services with_coordinator)))
  = {[DATABASE; MQTT; UI]}.
Proof.
  assert (H : attrs_of with_coordinator !! "system_coordinator" = Some coordinator)
    by reflexivity.
  split; [exact H|].
  pose proof (register_system_services_three with_coordinator H) as T.
  cbv zeta in T. destruct T as (_ & _ & _ & Hd). exact (Hd eq_refl).
Defined.

(** Going back to the login window from Ann's dashboard hides the
    dashboard and forgets Ann. *)
Lemma show_login_window_resets_witness :
  let w' := snd (show_login_window calm at_dashboard) in
  show_login_window calm at_dashboard = (Ok tt, w') /\
  attrs_of w' !! "current_student" = Some VNone /\
  exists r, (hide_call (VObj "DashboardWindow" []), Returned r)
            ∈ trace_since at_dashboard w'.
Proof.
  cbv zeta.
  assert (H : show_login_window calm at_dashboard
              = (Ok tt, snd (show_login_window calm at_dashboard)))
    by (vm_compute; reflexivity).
  split; [exact H|].
  destruct (show_login_window_resets calm _ _ H) as [Hcs Hh].
  split; [exact Hcs|].
  apply (Hh "dashboard_window").
  - apply elem_of_cons. by left.
  - vm_compute. reflexivity.
  - reflexivity.
Defined.



(** Ann's scan at the login window authenticates her. *)
Lemma handle_rfid_scan_authenticates_witness :
  handle_rfid_scan calm ann (VStr "04A1B2C3") at_login = (Ok tt, at_dashboard) /\
  attrs_of at_dashboard !! "current_student" = Some ann.
Proof.
  assert (H : handle_rfid_scan calm ann (VStr "04A1B2C3") at_login
              = (Ok tt, at_dashboard))
    by (vm_compute; reflexivity).
  split; [exact H|].
  pose proof (handle_rfid_scan_authenticates calm ann _ _ _ H) as T.
  cbn [truthy ann] in T. exact (proj1 T).
Defined.

(** C4 as the specification states it fails before the login window exists:
    an unknown tag scanned right after start-up is logged and nothing is
    shown, on no window. *)
Lemma handle_rfid_scan_unknown_tag_unseen :
  let out := handle_rfid_scan calm VNone (VStr "04A1B2C3") booted in
  attrs_of booted !! "login_window" = Some VNone /\
  fst out = Ok tt /\
  existsb (is_meth "show_error") (trace_since booted (snd out)) = false.
Proof. vm_compute. repeat split; reflexivity. Qed.

(** Ann's request goes through when every call returns. *)
Lemma handle_consultation_request_outcome_witness :
  (exists dw, attrs_of at_dashboard !! "dashboard_window" = Some dw /\
              window_slot dw = true) /\
  fst (handle_consultation_request calm dr_smith (VStr "Help") (VStr "CS101")
         at_dashboard)
  = Ok (true, "Consultation request sent").
Proof.
  assert (H : exists dw, attrs_of at_dashboard !! "dashboard_window" = Some dw /\
                         window_slot dw = true).
  { exists (VObj "DashboardWindow" []). split; [vm_compute|]; reflexivity. }
  split; [exact H|].
  pose proof (handle_consultation_request_outcome calm dr_smith (VStr "Help")
                (VStr "CS101") at_dashboard H) as T.
  cbv zeta in T. apply (proj1 T). vm_compute. split; reflexivity.
Defined.

(** C5 as the specification states it fails when the consultation is created
    and the history cannot be read afterwards: [create_consultation]
    returned a consultation object, and the answer is [False]. *)
Lemma handle_consultation_request_created_but_refused :
  let out := handle_consultation_request locked dr_smith (VStr "Help") (VStr "CS101")
               at_dashboard in
  created (trace_since at_dashboard (snd out)) = true /\
  fst out = Ok (false, "Error: database is locked").
Proof. vm_compute. split; reflexivity. Qed.

(** C10 as the specification states it fails when the first run breaks off
    half-way: it has added [declined_at] only, and the second run adds
    [response_message]. *)
Lemma upgrade_twice_after_failure :
  let once := Migration.upgrade flaky old_schema in
  let twice := Migration.upgrade flaky (snd once) in
  fst once = Ok false /\
  fst twice = Ok true /\
  (Migration.col_name <$> default [] (store (snd once) !! "consultations"))
  = ["id"; "status"; "declined_at"] /\
  (Migration.col_name <$> default [] (store (snd twice) !! "consultations"))
  = ["id"; "status"; "declined_at"; "response_message"].
Proof. vm_compute. repeat split; reflexivity. Qed.

(** A run that succeeds; a second run finds nothing to add. *)
Example upgrade_old_schema :
  let once := Migration.upgrade calm old_schema in
  fst once = Ok true /\
  (Migration.col_name <$> default [] (store (snd once) !! "consultations"))
  = ["id"; "status"; "declined_at"; "response_message"] /\
  store (snd (Migration.upgrade calm (snd once))) = store (snd once).
Proof. vm_compute. repeat split; reflexivity. Qed.

(** Start-up in the sample environment goes through and instantiates the
    five controllers; when [start_system()] answers [False] it ends in
    [SystemExit(1)] before any of them. *)
Example init_calm :
  fst (__init__ calm (VList [VStr "main.py"]) (VBool false) fresh) = Ok tt /\
  length (List.filter is_controller_construct (log booted)) = 5%nat.
Proof. vm_compute. split; reflexivity. Qed.

Example init_refused :
  let out := __init__ refusing (VList [VStr "main.py"]) (VBool false) fresh in
  fst out = Raise (SystemExit 1) /\
  List.filter is_controller_construct (log (snd out)) = [].
Proof. vm_compute. split; reflexivity. Qed.

(** The theme that is configured, and the fallback. *)
Example theme_light :
  let env := {| raises := fun _ _ => None;
                returns := fun _ _ => VDict [("ui", VDict [("theme", VStr "light")])];
                returns_bool := fun _ _ => true |} in
  fst (_get_theme_preference env fresh) = Ok (VStr "light").
Proof. reflexivity. Qed.

Example theme_unknown :
  let env := {| raises := fun _ _ => None;
                returns := fun _ _ => VDict [("ui", VDict [("theme", VStr "solarized")])];
                returns_bool := fun _ _ => true |} in
  fst (_get_theme_preference env fresh) = Ok (VStr "dark").
Proof. reflexivity. Qed.

Example theme_unreadable :
  let env := {| raises := fun _ _ => Some "config.json: permission denied";
                returns := fun _ _ => VNone;
                returns_bool := fun _ _ => true |} in
  fst (_get_theme_preference env fresh) = Ok (VStr "dark").
Proof. reflexivity. Qed.

End SampleFacts.
(** ** The sample run, checked against the theorems of the session *)
Module Walkthrough.
Import Main Session Sample Cast MainFacts StartupFacts HandlerFacts SessionFacts
  RollbackFacts.

(** Before start-up has assigned the windows the UI service does not
    start. *)
Lemma start_ui_service_before_windows_witness :
  attrs_of fresh !! "login_window" = None /\
  fst (_start_ui_service calm fresh) = Ok false.
Proof.
  assert (H : attrs_of fresh !! "login_window" = None) by reflexivity.
  split; [exact H|].
  destruct (start_ui_service_before_windows calm fresh H) as [msg ->].
  reflexivity.
Defined.

(** Start-up in the sample environment leaves no window and the three
    services. *)
Lemma init_establishes_attributes_witness :
  __init__ calm (VList [VStr "main.py"]) (VBool false) fresh = (Ok tt, booted) /\
  attrs_of booted !! "login_window" = Some VNone /\
  services_of booted !! UI = Some (registered UI).
Proof.
  assert (H : __init__ calm (VList [VStr "main.py"]) (VBool false) fresh = (Ok tt, booted))
    by (vm_compute; reflexivity).
  split; [exact H|].
  destruct (init_establishes_attributes calm _ _ _ _ H) as (Ha & _ & Hs).
  split; [|apply Hs].
  apply Ha. apply list_elem_of_In. cbn. tauto.
Defined.

(** At the login window nobody is signed in, and a request raises. *)
Lemma consultation_request_without_student_witness :
  attrs_of at_login !! "current_student" = Some VNone /\
  is_obj VNone = false /\
  exists msg,
    handle_consultation_request calm dr_smith (VStr "Help") (VStr "CS101") at_login
    = (Raise (PyException msg), at_login).
Proof.
  assert (H : attrs_of at_login !! "current_student" = Some VNone)
    by (vm_compute; reflexivity).
  split; [exact H|]. split; [reflexivity|].
  exact (consultation_request_without_student calm dr_smith (VStr "Help") (VStr "CS101")
           at_login VNone H eq_refl).
Defined.

(** Ann, signed in, asks Dr. Smith for a consultation: the request is
    made once, for student 7. *)
Lemma consultation_request_for_current_student_witness :
  let out := handle_consultation_request calm dr_smith (VStr "Help") (VStr "CS101")
               at_dashboard in
  let t := trace_since at_dashboard (snd out) in
  existsb (is_meth "create_consultation") t = true /\
  exists cs cc sid fid o t1,
    attrs_of at_dashboard !! "current_student" = Some cs /\
    attrs_of at_dashboard !! "consultation_controller" = Some cc /\
    getattr cs "id" at_dashboard = (Ok sid, at_dashboard) /\
    getattr dr_smith "id" at_dashboard = (Ok fid, at_dashboard) /\
    t = logged "info" ("Consultation request: " +:+ py_str sid +:+ " -> "
                       +:+ py_str fid +:+ " (" +:+ py_str (VStr "CS101") +:+ ")")
        :: (Call (Meth cc "create_consultation") []
              [("student_id", sid); ("faculty_id", fid);
               ("request_message", VStr "Help"); ("course_code", VStr "CS101")], o)
        :: t1 /\
    existsb (is_meth "create_consultation") t1 = false.
Proof.
  cbv zeta.
  assert (H : existsb (is_meth "create_consultation")
                (trace_since at_dashboard
                   (snd (handle_consultation_request calm dr_smith (VStr "Help")
                           (VStr "CS101") at_dashboard))) = true)
    by (vm_compute; reflexivity).
  split; [exact H|].
  exact (consultation_request_for_current_student calm dr_smith (VStr "Help")
           (VStr "CS101") at_dashboard H).
Defined.

(** Ann scans her tag while the consultation history cannot be read:
    the dashboard is not shown, and Ann is the current student. *)
Lemma rfid_scan_keeps_student_when_display_fails_witness :
  let out := handle_rfid_scan locked ann (VStr "04A1B2C3") at_login in
  has_attr "id" ann = true /\
  has_attr "name" ann = true /\
  fst out = Raise (PyException "database is locked") /\
  attrs_of (snd out) !! "current_student" = Some ann.
Proof.
  cbv zeta.
  split; [reflexivity|]. split; [reflexivity|].
  split; [vm_compute; reflexivity|].
  exact (rfid_scan_keeps_student_when_display_fails locked ann (VStr "04A1B2C3") at_login
           eq_refl eq_refl).
Defined.

(** The administrator opens the admin login window on a fresh
    installation: the first-time-setup dialog comes up. *)
Lemma show_admin_login_window_first_time_witness :
  let w' := snd (show_admin_login_window calm at_login) in
  show_admin_login_window calm at_login = (Ok tt, w') /\
  exists t0 ac first_time t1,
    trace_since at_login w'
    = t0 ++ (Call (Meth ac "is_first_time_setup") [] [], Returned (VBool first_time)) :: t1 /\
    Forall (fun e => setup_idle e = true) t0 /\
    if first_time then
      exists alw r,
        attrs_of w' !! "admin_login_window" = Some alw /\
        t1 = [logged "info" "This is a first-time setup, showing admin creation dialog";
              (Call (Meth alw "show_first_time_setup") [] [], Returned r);
              logged "info" "Admin login window shown"]
    else t1 = [logged "info" "Admin login window shown"].
Proof.
  cbv zeta.
  assert (H : show_admin_login_window calm at_login
              = (Ok tt, snd (show_admin_login_window calm at_login)))
    by (vm_compute; reflexivity).
  split; [exact H|].
  exact (show_admin_login_window_first_time calm _ _ H).
Defined.

(** The default administrator signs in and is asked for a new
    password. *)
Lemma show_admin_dashboard_window_password_dialog_witness :
  let w' := snd (show_admin_dashboard_window calm root at_login) in
  show_admin_dashboard_window calm root at_login = (Ok tt, w') /\
  exists t0 adw r1 r2 t1,
    trace_since at_login w'
    = t0 ++ [(Call (Meth adw "set_admin") [root] [], Returned r1);
             logged "info" "Admin needs to change password, showing password change dialog";
             (password_timer root, Returned r2)] ++ t1 /\
    Forall (fun e => is_fn "QTimer.singleShot" e = false) t0 /\
    Forall (fun e => is_fn "QTimer.singleShot" e = false) t1.
Proof.
  cbv zeta.
  assert (H : show_admin_dashboard_window calm root at_login
              = (Ok tt, snd (show_admin_dashboard_window calm root at_login)))
    by (vm_compute; reflexivity).
  split; [exact H|].
  exact (show_admin_dashboard_window_password_dialog calm root _ _ H).
Defined.

(** Downgrading the migrated database removes the two columns. *)
Lemma downgrade_drops_both_or_fails_witness :
  let cols := [Migration.mkColumn "id" "Integer" false;
               Migration.mkColumn "status" "Enum" false;
               Migration.mkColumn "declined_at" "DateTime" true;
               Migration.mkColumn "response_message" "String" true] in
  store upgraded !! "consultations" = Some cols /\
  store (snd (Rollback.downgrade calm upgraded))
  = <["consultations" := Rollback.without "response_message"
                           (Rollback.without "declined_at" cols)]> (store upgraded).
Proof.
  cbv zeta.
  assert (H : store upgraded !! "consultations"
              = Some [Migration.mkColumn "id" "Integer" false;
                      Migration.mkColumn "status" "Enum" false;
                      Migration.mkColumn "declined_at" "DateTime" true;
                      Migration.mkColumn "response_message" "String" true])
    by (vm_compute; reflexivity).
  split; [exact H|].
  destruct (downgrade_drops_both_or_fails calm upgraded _ H) as [Hyes _].
  assert (Ht : fst (Rollback.downgrade calm upgraded) = Ok true) by (vm_compute; reflexivity).
  exact (proj2 (proj2 (Hyes Ht))).
Defined.

(** The old schema, migrated and rolled back, is the old schema. *)
Lemma upgrade_then_downgrade_restores_witness :
  store old_schema !! "consultations"
  = Some [Migration.mkColumn "id" "Integer" false; Migration.mkColumn "status" "Enum" false] /\
  store (snd (Rollback.downgrade calm (snd (Migration.upgrade calm old_schema))))
  = store old_schema.
Proof.
  assert (H : store old_schema !! "consultations"
              = Some [Migration.mkColumn "id" "Integer" false;
                      Migration.mkColumn "status" "Enum" false])
    by (vm_compute; reflexivity).
  split; [exact H|].
  apply (upgrade_then_downgrade_restores calm old_schema _ H).
  - reflexivity.
  - reflexivity.
  - vm_compute. reflexivity.
  - vm_compute. reflexivity.
Defined.

(** A healthy account is left alone at start-up. *)
Example verify_admin_account_healthy :
  trace_since booted (snd (_verify_admin_account_startup calm booted))
  = [logged "info" "Verifying admin account during startup";
     (admin_lookup (VObj "AdminController" []), Returned person);
     logged "info" "Admin account exists, verifying integrity";
     logged "info" "Admin account verification successful"].
Proof. vm_compute. reflexivity. Qed.

(** The default administrator's sign-in goes through; a wrong password
    (the controller returns no account) does not. *)
Example admin_sign_in :
  fst (handle_admin_authenticated
         {| raises := fun _ _ => None;
            returns := fun _ _ => root;
            returns_bool := fun _ _ => true |} login at_login)
  = Ok (true, "Authentication successful") /\
  fst (handle_admin_authenticated
         {| raises := fun _ _ => None;
            returns := fun _ _ => VNone;
            returns_bool := fun _ _ => true |} login at_login)
  = Ok (false, "Invalid username or password").
Proof. vm_compute. split; reflexivity. Qed.

(** Clean-up in the sample environment runs its six steps; when the
    RFID controller cannot be stopped nothing else is. *)
Example cleanup_steps :
  (callee_name <$> calls (trace_since booted (snd (cleanup calm booted))))
  = ["stop"; "stop"; "stop"; "close_db"; "get_async_mqtt_service"; "disconnect"] /\
  (callee_name <$>
     calls (trace_since booted
              (snd (cleanup {| raises := fun _ ev =>
                                 match target ev with
                                 | Meth _ "stop" => Some "reader is busy"
                                 | _ => None
                                 end;
                               returns := fun _ _ => VNone;
                               returns_bool := fun _ _ => true |} booted))))
  = ["stop"].
Proof. vm_compute. split; reflexivity. Qed.

(** The migration script: no argument upgrades, ['downgrade'] rolls
    back, and a database without the table makes it fail. *)
Example main_arguments :
  fst (Rollback.main calm ["migrate.py"] old_schema) = Ok 0 /\
  fst (Rollback.main calm ["migrate.py"; "downgrade"] upgraded) = Ok 0 /\
  fst (Rollback.main calm ["migrate.py"; "downgrade"] old_schema) = Ok 1 /\
  fst (Rollback.main calm ["migrate.py"] (mkWorld [] ∅)) = Ok 1.
Proof. vm_compute. repeat split; reflexivity. Qed.

End Walkthrough.
